(** * Pay-equity statistics of [services/fairness_utils.py]

    A shallow embedding of the statistical core of the compensation
    fairness analyzer: the two-group significance test, the per-group
    statistics, the pay-gap computation, the overall fairness score and
    the report with its rule-based recommendations.

    Numbers are IEEE binary64 values ([PrimFloat.float]), as Python's
    [float] and numpy's [float64] are.  Python exceptions are values of
    an error monad.  Python dictionaries are insertion-ordered
    association lists.  The numerical libraries the module calls (numpy,
    scipy, scikit-learn, fairlearn) are an interface, [Libs], that every
    function takes as its first argument; [Ref.libs] is a small
    reference implementation of it used to run the code on concrete
    data. *)

From Stdlib Require Import ZArith List String Bool Lia.
From Stdlib Require Import Floats.
Import ListNotations.

Set Warnings "-inexact-float".
Set Implicit Arguments.

(** ** Python run-time values *)

Module Py.

(** The exceptions the embedded code can raise. *)
Inductive exn : Set :=
| ZeroDivisionError
| ImportError
| ValueError
| IndexError
| KeyError
| TypeError
| LinAlgError.

Inductive result (A : Type) : Type :=
| Ok (a : A)
| Raise (e : exn).

Arguments Ok {A} a.
Arguments Raise {A} e.

Definition bind {A B} (m : result A) (k : A -> result B) : result B :=
  match m with
  | Ok a => k a
  | Raise e => Raise e
  end.

Definition returns {A} (m : result A) : Prop := exists a, m = Ok a.

(** [for x in xs: acc = f(acc, x)], stopping at the first exception. *)
Fixpoint foldM {A S} (f : S -> A -> result S) (xs : list A) (s : S)
  : result S :=
  match xs with
  | [] => Ok s
  | x :: xs' => bind (f s x) (foldM f xs')
  end.

(** [[f(x) for x in xs]], stopping at the first exception. *)
Fixpoint mapM {A B} (f : A -> result B) (xs : list A) : result (list B) :=
  match xs with
  | [] => Ok []
  | x :: xs' =>
      bind (f x) (fun y => bind (mapM f xs') (fun ys => Ok (y :: ys)))
  end.

(** [xs[i]] for a non-negative index. *)
Definition index {A} (xs : list A) (i : nat) : result A :=
  match nth_error xs i with
  | Some x => Ok x
  | None => Raise IndexError
  end.

(** *** Dictionaries with string keys, in insertion order *)

Definition dict (V : Type) := list (string * V).

Fixpoint dict_get {V} (k : string) (d : dict V) : option V :=
  match d with
  | [] => None
  | (k', v) :: d' => if String.eqb k' k then Some v else dict_get k d'
  end.

(** [d[k] = v]: an existing key keeps its place. *)
Fixpoint dict_set {V} (k : string) (v : V) (d : dict V) : dict V :=
  match d with
  | [] => [(k, v)]
  | (k', v') :: d' =>
      if String.eqb k' k then (k, v) :: d' else (k', v') :: dict_set k v d'
  end.

(** [d[k]] *)
Definition dict_item {V} (k : string) (d : dict V) : result V :=
  match dict_get k d with
  | Some v => Ok v
  | None => Raise KeyError
  end.

Definition dict_keys {V} (d : dict V) : list string := map fst d.
Definition dict_values {V} (d : dict V) : list V := map snd d.

(** Truth value of an [Optional[str]]: [None] and the empty string
    are false. *)
Definition truthy_opt_str (s : option string) : bool :=
  match s with
  | Some EmptyString => false
  | Some _ => true
  | None => false
  end.

End Py.

Import Py.

Notation "x <- m ;; k" := (bind m (fun x => k))
  (at level 61, m at next level, right associativity).

(** ** Floating-point helpers *)

Module Fl.

Open Scope float_scope.

(** Conversion of a Python [int] (round to nearest, ties to even). *)
Definition of_Z (z : Z) : float :=
  SF2Prim (binary_normalize prec emax z 0 false).

Definition of_nat (n : nat) : float := of_Z (Z.of_nat n).

(** Python's [x / y] on two [float]s raises on a zero divisor;
    numpy's division (plain [/] below) returns an infinity or NaN. *)
Definition py_div (x y : float) : result float :=
  if is_zero y then Raise ZeroDivisionError else Ok (x / y).

(** Python's [x > y] *)
Definition gtb (x y : float) : bool := y <? x.

(** Python's [x >= y] *)
Definition geb (x y : float) : bool := y <=? x.

(** Python's [max(a, b)]: the first argument unless the second is
    greater. *)
Definition py_max2 (a b : float) : float := if gtb b a then b else a.

(** Python's [max(xs, default=d)]. *)
Definition py_max (xs : list float) (d : float) : float :=
  match xs with
  | [] => d
  | x :: xs' => fold_left py_max2 xs' x
  end.

(** Python's [sum(xs)], which starts from the integer 0. *)
Definition py_sum (xs : list float) : float := fold_left add xs 0.

(** The same number, in the sense of Python's [==] extended to relate
    NaN with NaN (and so +0 with -0). *)
Definition same (x y : float) : bool :=
  (x =? y) || (is_nan x && is_nan y).

End Fl.

(** ** Data model *)

(** A [datetime], in microseconds since the epoch. *)
Definition datetime := Z.

Definition microseconds_per_day : Z := 86400000000.

(** [(t - t0).days] *)
Definition timedelta_days (t t0 : datetime) : Z :=
  (t - t0) / microseconds_per_day.

(** The record returned by [compute_temporal_trend]. *)
Record Trend := {
  slope : float;
  r2 : float;
  trend_direction : string;
  trend_significant : bool
}.

(** The record returned by [compute_statistical_significance]. *)
Record Significance := {
  t_statistic : float;
  p_value : float;
  cohens_d : float;
  effect_size : string;
  significant : bool
}.

(** The record built by [_compute_group_statistics]; [trend] is the
    optional ["trend"] key. *)
Record GroupStats := {
  mean_salary : float;
  median_salary : float;
  std_salary : float;
  count : nat;
  quartiles : list float;
  trend : option Trend
}.

(** One entry of the ["gaps"] mapping. *)
Record Gap := {
  gap_percentage : float;
  statistical_significance : Significance;
  gap_reference_group : string
}.

(** The result of [compute_pay_gap]. *)
Record PayGap := {
  group_stats : dict GroupStats;
  gaps : dict Gap;
  reference_group : option string
}.

(** A fairlearn [MetricFrame], as far as the module reads it: the
    overall value of each metric, and for each metric its value per
    group. *)
Record MetricFrame := {
  mf_overall : dict float;
  mf_by_group : dict (dict float)
}.

(** ** The libraries behind the module

    numpy, scipy, scikit-learn and fairlearn are not part of the
    repository.  Their functions are fields of [Libs]; the two flags are
    the module-level [_sklearn_available] and [_fairlearn_available]
    set by the guarded imports. *)
Record Libs := {
  sklearn_available : bool;
  fairlearn_available : bool;
  (** [np.mean], [np.var], [np.std], [np.median], [np.sum] *)
  np_mean : list float -> float;
  np_var : list float -> float;
  np_std : list float -> float;
  np_median : list float -> float;
  np_sum : list float -> float;
  (** [np.percentile(xs, qs)] *)
  np_percentile : list float -> list float -> list float;
  (** [np.polyfit(x, y, 1)]: slope and intercept *)
  np_polyfit1 : list float -> list float -> result (float * float);
  (** the unbiased sample variance [scipy.stats.ttest_ind] computes *)
  sample_var : list float -> float;
  (** [scipy.special.stdtr(df, t)], Student's cumulative distribution *)
  stdtr : float -> float -> float;
  (** [LinearRegression().fit(X, y)] on one feature, then its slope
      and [r2_score] on the training data *)
  linear_regression : list Z -> list float -> result (float * float);
  (** [MetricFrame(metrics=..., y_true=..., y_pred=...,
      sensitive_features={name: values})] *)
  make_metric_frame :
    list string -> list Z -> list Z -> string -> list string ->
    result MetricFrame
}.

(** Constants for statistical significance and effect size. *)
Definition ALPHA : float := 0.05.
Definition COHEN_D_small : float := 0.2.
Definition COHEN_D_medium : float := 0.5.
Definition COHEN_D_large : float := 0.8.

(** ** Core statistical utilities *)

Section Fairness.

Variable L : Libs.

Open Scope float_scope.

(** [scipy.stats.ttest_ind(a, b)] with its defaults (pooled variance,
    two-sided), following the library's formulas: the statistic is
    the difference of the means over the pooled standard error, the
    p-value twice the lower tail at [-|t|]. *)
Definition ttest_degrees_of_freedom (a b : list float) : float :=
  Fl.of_Z (Z.of_nat (List.length a) + Z.of_nat (List.length b)) - 2.

Definition ttest_standard_error (a b : list float) : float :=
  let n1 := Z.of_nat (List.length a) in
  let n2 := Z.of_nat (List.length b) in
  let svar :=
    (Fl.of_Z (n1 - 1) * sample_var L a + Fl.of_Z (n2 - 1) * sample_var L b)
    / ttest_degrees_of_freedom a b in
  sqrt (svar * (1 / Fl.of_Z n1 + 1 / Fl.of_Z n2)).

Definition ttest_ind (a b : list float) : float * float :=
  let t := (np_mean L a - np_mean L b) / ttest_standard_error a b in
  (t, stdtr L (ttest_degrees_of_freedom a b) (- abs t) * 2).

(** The loop over [COHEN_D_THRESHOLDS], largest threshold first. *)
Definition interpret_effect_size (d : float) : string :=
  if Fl.geb (abs d) COHEN_D_large then "large"%string
  else if Fl.geb (abs d) COHEN_D_medium then "medium"%string
  else if Fl.geb (abs d) COHEN_D_small then "small"%string
  else "negligible"%string.

Definition pooled_sd (group1_data group2_data : list float) : float :=
  let n1 := Z.of_nat (List.length group1_data) in
  let n2 := Z.of_nat (List.length group2_data) in
  sqrt ((Fl.of_Z (n1 - 1) * np_var L group1_data
         + Fl.of_Z (n2 - 1) * np_var L group2_data)
        / Fl.of_Z (n1 + n2 - 2)).

Definition compute_statistical_significance
    (group1_data group2_data : list float) : Significance :=
  let '(t_stat, p) := ttest_ind group1_data group2_data in
  let d :=
    (np_mean L group1_data - np_mean L group2_data)
    / pooled_sd group1_data group2_data in
  {| t_statistic := t_stat;
     p_value := p;
     cohens_d := d;
     effect_size := interpret_effect_size d;
     significant := p <? ALPHA |}.

(** ** Temporal trend *)

(** [min(timestamps)] *)
Definition py_min_Z (ts : list Z) : result Z :=
  match ts with
  | [] => Raise ValueError
  | t :: ts' => Ok (fold_left Z.min ts' t)
  end.

Definition compute_temporal_trend
    (values : list float) (timestamps : list datetime) : result Trend :=
  t0 <- py_min_Z timestamps ;;
  let days := map (fun t => timedelta_days t t0) timestamps in
  if negb (sklearn_available L) then Raise ImportError
  else
    fit <- linear_regression L days values ;;
    let '(sl, r) := fit in
    Ok {| slope := sl;
          r2 := r;
          trend_direction :=
            if Fl.gtb sl 0 then "increasing"%string
            else "decreasing"%string;
          trend_significant := Fl.gtb r 0.6 |}.

(** ** Group statistics *)

(** [if timestamps:] *)
Definition truthy_timestamps (timestamps : option (list datetime))
  : option (list datetime) :=
  match timestamps with
  | Some (t :: ts) => Some (t :: ts)
  | _ => None
  end.

Definition _compute_group_statistics
    (salaries : list float) (indices : list nat)
    (timestamps : option (list datetime)) : result GroupStats :=
  g_salaries <- mapM (index salaries) indices ;;
  let stats_data (tr : option Trend) :=
    {| mean_salary := np_mean L g_salaries;
       median_salary := np_median L g_salaries;
       std_salary := np_std L g_salaries;
       count := List.length g_salaries;
       quartiles := np_percentile L g_salaries [25; 50; 75];
       trend := tr |} in
  match truthy_timestamps timestamps with
  | Some ts =>
      g_times <- mapM (index ts) indices ;;
      tr <- compute_temporal_trend g_salaries g_times ;;
      Ok (stats_data (Some tr))
  | None => Ok (stats_data None)
  end.

(** ** Pay gaps *)

(** [[s for s, grp in zip(salaries, groups) if grp == g]] *)
Definition salaries_of (salaries : list float) (groups : list string)
    (g : string) : list float :=
  map fst (filter (fun sg => String.eqb (snd sg) g) (combine salaries groups)).

(** [[i for i, grp in enumerate(groups) if grp == g]] *)
Definition indices_of (groups : list string) (g : string) : list nat :=
  map fst
    (filter (fun ig => String.eqb (snd ig) g)
            (combine (seq 0 (List.length groups)) groups)).

(** Body of the loop of [_compute_group_gaps]. *)
Definition group_gap_step
    (data : dict GroupStats) (salaries : list float) (groups : list string)
    (reference_stats : string) (ref_salaries : list float)
    (gaps : dict Gap) (g : string) : result (dict Gap) :=
  if String.eqb g reference_stats then Ok gaps
  else
    let g_salaries := salaries_of salaries groups g in
    ref_st <- dict_item reference_stats data ;;
    g_st <- dict_item g data ;;
    q <- Fl.py_div (median_salary ref_st - median_salary g_st)
                   (median_salary ref_st) ;;
    let gap_pct := q * 100 in
    Ok (dict_set g
          {| gap_percentage := gap_pct;
             statistical_significance :=
               compute_statistical_significance ref_salaries g_salaries;
             gap_reference_group := reference_stats |}
          gaps).

(** [group_labels] is the set of labels in its iteration order. *)
Definition _compute_group_gaps
    (data : dict GroupStats) (salaries : list float) (groups : list string)
    (reference_stats : string) (group_labels : list string)
  : result (dict Gap) :=
  let ref_salaries := salaries_of salaries groups reference_stats in
  foldM (group_gap_step data salaries groups reference_stats ref_salaries)
        group_labels [].

(** Body of the first loop of [compute_pay_gap]; the state is [data]
    and [reference_stats]. *)
Definition group_stats_step
    (salaries : list float) (groups : list string)
    (timestamps : option (list datetime))
    (st : dict GroupStats * option string) (g : string)
  : result (dict GroupStats * option string) :=
  let '(data, reference_stats) := st in
  match indices_of groups g with
  | [] => Ok (data, reference_stats)
  | g_indices =>
      stats_data <- _compute_group_statistics salaries g_indices timestamps ;;
      let data' := dict_set g stats_data data in
      match reference_stats with
      | None => Ok (data', Some g)
      | Some r =>
          ref_st <- dict_item r data' ;;
          if (count ref_st <? count stats_data)%nat
          then Ok (data', Some g)
          else Ok (data', Some r)
      end
  end.

(** The first loop of [compute_pay_gap]: the statistics of every group
    and the reference group. *)
Definition group_statistics_pass
    (group_labels : list string)
    (salaries : list float) (groups : list string)
    (timestamps : option (list datetime))
  : result (dict GroupStats * option string) :=
  foldM (group_stats_step salaries groups timestamps) group_labels ([], None).

(** [compute_pay_gap(salaries, groups, timestamps)].  The extra first
    argument is [set(groups)] in the order the interpreter iterates
    it, which Python leaves unspecified. *)
Definition compute_pay_gap
    (group_labels : list string)
    (salaries : list float) (groups : list string)
    (timestamps : option (list datetime)) : result PayGap :=
  st <- group_statistics_pass group_labels salaries groups timestamps ;;
  let '(data, reference_stats) := st in
  gaps <-
    match reference_stats with
    | Some r =>
        if truthy_opt_str reference_stats && (2 <=? List.length data)%nat
        then _compute_group_gaps data salaries groups r group_labels
        else Ok []
    | None => Ok []
    end ;;
  Ok {| group_stats := data;
        gaps := gaps;
        reference_group := reference_stats |}.

End Fairness.


(** ** Bias metrics, fairness score and report *)

(** One entry of [compute_metric_significance]'s result. *)
Record SigResult := {
  difference : float;
  sig_significant : bool;
  direction : string
}.

(** One value of the mapping returned by [compute_bias_metrics]. *)
Record BiasEntry := {
  overall : dict float;
  by_group : dict (dict float);
  metric_significance : dict (dict SigResult)
}.

(** The ["trends"] sub-result: a dictionary whose keys
    ["historical_metrics"] and ["increasing_disparity"] may be absent;
    of the latter only the truth value is read. *)
Record Trends := {
  historical_metrics : option (dict (list float));
  increasing_disparity : option bool
}.

(** The [analysis_results] dictionary; [None] is an absent key. *)
Record AnalysisResults := {
  pay_gap : option PayGap;
  bias_metrics : option (dict BiasEntry);
  trends : option Trends
}.

(** One per-metric record of [identify_long_term_trends]. *)
Record TrendInfo := {
  ti_direction : string;
  strength : float;
  significance : float;
  concerning : bool
}.

(** The three trend detectors return either
    [{"status": "insufficient_data"}] or a mapping keyed by metric
    name. *)
Inductive TrendReport (A : Type) : Type :=
| InsufficientData
| PerMetric (r : dict A).

Arguments InsufficientData {A}.
Arguments PerMetric {A} r.

Record SeasonalPattern := {
  seasonal_effect : float;
  consistency : float;
  sp_significant : bool
}.

Record Anomalies := {
  an_indices : list nat;
  an_values : list float;
  z_scores : list float
}.

Record PayEquity := {
  pe_gaps : dict Gap;
  pe_statistical_significance : bool;
  largest_gap : float
}.

Record BiasSummary := {
  demographic_parity : float;
  equalized_odds : float;
  significant_disparities : list string
}.

Record TrendAnalysis := {
  long_term_trends : TrendReport TrendInfo;
  seasonal_patterns : TrendReport SeasonalPattern;
  anomalies : TrendReport Anomalies
}.

(** [report["detailed_analysis"]]; [None] stands for the initial [{}]
    of ["pay_equity"] and ["trend_analysis"]. *)
Record DetailedAnalysis := {
  pay_equity : option PayEquity;
  da_bias_metrics : dict BiasSummary;
  trend_analysis : option TrendAnalysis
}.

Record Recommendation := {
  category : string;
  priority : string;
  title : string;
  description : string;
  actions : list string;
  impact : string;
  effort : string;
  timeframe : string
}.

Record Summary := {
  timestamp : string;
  overall_fairness_score : float;
  critical_issues : list string;
  recommendations : list Recommendation
}.

Record Report := {
  summary : Summary;
  detailed_analysis : DetailedAnalysis
}.

Section Report.

Variable L : Libs.

Open Scope string_scope.
Open Scope float_scope.

(** ** [compute_metric_significance] *)

Definition group_significance (overall_value : float)
    (gv : string * float) : string * SigResult :=
  let '(group, group_val) := gv in
  let diff := abs (group_val - overall_value) in
  (group,
   {| difference := diff;
      sig_significant := Fl.gtb diff 0.1;
      direction :=
        if Fl.gtb group_val overall_value then "above" else "below" |}).

Definition compute_metric_significance (metric_frame : MetricFrame)
  : result (dict (dict SigResult)) :=
  foldM
    (fun significances (mv : string * dict float) =>
       let '(metric, values) := mv in
       overall_value <- dict_item metric (mf_overall metric_frame) ;;
       let sig_results :=
         fold_left
           (fun acc gv =>
              let '(g, r) := group_significance overall_value gv in
              dict_set g r acc)
           values [] in
       Ok (dict_set metric sig_results significances))
    (mf_by_group metric_frame) [].

(** ** [compute_bias_metrics] *)

Definition bias_metric_names : list string :=
  ["selection_rate"; "demographic_parity"; "equalized_odds";
   "true_positive_rate"; "false_positive_rate"].

(** [{m: f(m) for m in metrics}] *)
Definition dict_of_metrics {V} (f : string -> result V)
  : result (dict V) :=
  foldM (fun acc m => v <- f m ;; Ok (dict_set m v acc))
        bias_metric_names [].

Definition bias_entry (mf : MetricFrame) : result BiasEntry :=
  ov <- dict_of_metrics (fun m => dict_item m (mf_overall mf)) ;;
  bg <- dict_of_metrics (fun m => dict_item m (mf_by_group mf)) ;;
  ms <- compute_metric_significance mf ;;
  Ok {| overall := ov; by_group := bg; metric_significance := ms |}.

(** The index pairs [i < j] of the two nested [range] loops. *)
Fixpoint feature_pairs {A} (xs : list A) : list (A * A) :=
  match xs with
  | [] => []
  | x :: xs' => (map (fun y => (x, y)) xs' ++ feature_pairs xs')%list
  end.

(** [[f"{f1}_{f2}" for f1, f2 in zip(v1, v2)]] *)
Definition intersectional_features (v1 v2 : list string) : list string :=
  map (fun p => fst p ++ "_" ++ snd p) (combine v1 v2).

Definition compute_bias_metrics
    (y_true y_pred : list Z) (sensitive_features : dict (list string))
  : result (dict BiasEntry) :=
  if negb (fairlearn_available L) then Raise ImportError
  else
    results <-
      foldM
        (fun results (fv : string * list string) =>
           let '(feat_name, feat_values) := fv in
           mf <- make_metric_frame L bias_metric_names y_true y_pred
                   feat_name feat_values ;;
           e <- bias_entry mf ;;
           Ok (dict_set feat_name e results))
        sensitive_features [] ;;
    let feature_names := dict_keys sensitive_features in
    if (2 <=? List.length feature_names)%nat then
      foldM
        (fun results (p : string * string) =>
           let '(feat1, feat2) := p in
           v1 <- dict_item feat1 sensitive_features ;;
           v2 <- dict_item feat2 sensitive_features ;;
           mf <- make_metric_frame L bias_metric_names y_true y_pred
                   "intersection" (intersectional_features v1 v2) ;;
           e <- bias_entry mf ;;
           Ok (dict_set (feat1 ++ "_x_" ++ feat2) e results))
        (feature_pairs feature_names) results
    else Ok results.

(** ** [calculate_overall_fairness_score] *)

(** The entries of [weights]; [weights.get(component, 1)]. *)
Definition weight (component : string) : float :=
  if String.eqb component "pay_gap" then 0.4
  else if String.eqb component "bias_metrics" then 0.3
  else if String.eqb component "trend" then 0.3
  else 1.

Definition pay_gap_component (pg : PayGap) : string * float :=
  let max_gap :=
    Fl.py_max (map (fun g => abs (gap_percentage g)) (dict_values (gaps pg)))
              0 in
  ("pay_gap", Fl.py_max2 0 (1 - max_gap / 20)).

(** The list [bias_scores] after the loop over the attributes. *)
Definition bias_scores (bm : dict BiasEntry) : result (list float) :=
  foldM
    (fun scores (attr_metrics : BiasEntry) =>
       dp <- dict_item "demographic_parity" (overall attr_metrics) ;;
       let dp_score := 1 - abs dp in
       eo <- dict_item "equalized_odds" (overall attr_metrics) ;;
       let eo_score := 1 - abs eo in
       Ok (scores ++ [dp_score; eo_score])%list)
    (dict_values bm) [].

Definition score_components (analysis_results : AnalysisResults)
  : result (list (string * float)) :=
  let c1 :=
    match pay_gap analysis_results with
    | Some pg => [pay_gap_component pg]
    | None => []
    end in
  c2 <-
    match bias_metrics analysis_results with
    | Some bm =>
        scores <- bias_scores bm ;;
        match scores with
        | [] => Ok c1
        | _ => Ok (c1 ++ [("bias_metrics", np_mean L scores)])%list
        end
    | None => Ok c1
    end ;;
  match trends analysis_results with
  | Some tr =>
      match increasing_disparity tr with
      | Some b => Ok (c2 ++ [("trend", if negb b then 1 else 0.5)])%list
      | None => Ok c2
      end
  | None => Ok c2
  end.

(** The weighted average over the components present.  The divisor
    is a sum of entries of [weights] over a non-empty list, so the
    division cannot raise. *)
Definition calculate_overall_fairness_score
    (analysis_results : AnalysisResults) : result float :=
  comps <- score_components analysis_results ;;
  match comps with
  | [] => Ok 0
  | _ =>
      let weighted_sum :=
        Fl.py_sum (map (fun cs => weight (fst cs) * snd cs) comps) in
      let total_weight :=
        Fl.py_sum (map (fun cs => weight (fst cs)) comps) in
      Ok (weighted_sum / total_weight)
  end.

(** ** Trend detectors *)

(** [np.arange(n)] *)
Definition arange (n : nat) : list float := map Fl.of_nat (seq 0 n).

Definition sq (x : float) : float := x * x.

Definition long_term_trend (values : list float) : result TrendInfo :=
  let x := arange (List.length values) in
  let y := values in
  fit <- np_polyfit1 L x y ;;
  let '(sl, intercept) := fit in
  let my := np_mean L y in
  let r_squared :=
    1 - np_sum L (map (fun p => sq (snd p - (sl * fst p + intercept)))
                      (combine x y))
        / np_sum L (map (fun yi => sq (yi - my)) y) in
  Ok {| ti_direction := if Fl.gtb sl 0 then "increasing" else "decreasing";
        strength := abs sl;
        significance := r_squared;
        concerning := Fl.gtb sl 0 && Fl.gtb r_squared 0.7 |}.

Definition identify_long_term_trends (tr : Trends) (min_periods : nat)
  : result (TrendReport TrendInfo) :=
  match historical_metrics tr with
  | None => Ok InsufficientData
  | Some metrics =>
      results <-
        foldM
          (fun results (mv : string * list float) =>
             let '(metric_name, values) := mv in
             if (List.length values <? min_periods)%nat then Ok results
             else
               info <- long_term_trend values ;;
               Ok (dict_set metric_name info results))
          metrics [] ;;
      Ok (PerMetric results)
  end.

Definition seasonal_pattern (values : list float) (period : nat)
  : SeasonalPattern :=
  let seasonal_diffs :=
    map (fun i => nth (i + period) values nan - nth i values nan)
        (seq 0 (List.length values - period)) in
  let c := np_std L seasonal_diffs / np_mean L (map abs seasonal_diffs) in
  {| seasonal_effect := np_mean L seasonal_diffs;
     consistency := 1 / (1 + c);
     sp_significant := c <? 0.5 |}.

Definition detect_seasonal_patterns (tr : Trends) (period : nat)
  : TrendReport SeasonalPattern :=
  match historical_metrics tr with
  | None => InsufficientData
  | Some metrics =>
      PerMetric
        (fold_left
           (fun patterns (mv : string * list float) =>
              let '(metric_name, values) := mv in
              if (List.length values <? period * 2)%nat then patterns
              else dict_set metric_name (seasonal_pattern values period)
                            patterns)
           metrics [])
  end.

Definition trend_anomalies (data : list float) (z_threshold : float)
  : Anomalies :=
  let mean := np_mean L data in
  let std := np_std L data in
  let zs := map (fun x => abs ((x - mean) / std)) data in
  let hits :=
    filter (fun iz => Fl.gtb (snd (snd iz)) z_threshold)
           (combine (seq 0 (List.length data)) (combine data zs)) in
  {| an_indices := map fst hits;
     an_values := map (fun h => fst (snd h)) hits;
     z_scores := map (fun h => snd (snd h)) hits |}.

Definition detect_trend_anomalies (tr : Trends) (z_threshold : float)
  : TrendReport Anomalies :=
  match historical_metrics tr with
  | None => InsufficientData
  | Some metrics =>
      PerMetric
        (fold_left
           (fun found (mv : string * list float) =>
              let '(metric_name, values) := mv in
              if (List.length values <? 3)%nat then found
              else
                let a := trend_anomalies values z_threshold in
                match an_indices a with
                | [] => found
                | _ => dict_set metric_name a found
                end)
           metrics [])
  end.

(** ** [generate_smart_recommendations] *)

Definition pay_equity_recommendation : Recommendation :=
  {| category := "pay_equity";
     priority := "high";
     title := "Address Significant Pay Gaps";
     description := "Significant pay gaps exceeding 5% detected";
     actions := ["Review compensation policies";
                 "Conduct pay adjustment analysis";
                 "Develop remediation plan"];
     impact := "high";
     effort := "medium";
     timeframe := "immediate" |}.

Definition bias_recommendation (attr : string) : Recommendation :=
  {| category := "bias_mitigation";
     priority := "high";
     title := "Address " ++ attr ++ " Bias";
     description := "Significant disparities detected in " ++ attr;
     actions := ["Review decision processes";
                 "Implement bias mitigation strategies";
                 "Monitor outcomes closely"];
     impact := "high";
     effort := "high";
     timeframe := "short_term" |}.

Definition trend_recommendation : Recommendation :=
  {| category := "trend_mitigation";
     priority := "medium";
     title := "Address Negative Trends";
     description := "Concerning long-term trends detected";
     actions := ["Analyze root causes";
                 "Develop intervention strategy";
                 "Set up monitoring system"];
     impact := "medium";
     effort := "medium";
     timeframe := "medium_term" |}.

(** [equity.get("largest_gap", 0)] *)
Definition get_largest_gap (equity : option PayEquity) : float :=
  match equity with
  | Some e => largest_gap e
  | None => 0
  end.

(** Truth value of
    [trends.get("long_term_trends", {}).get("concerning", False)]:
    the key ["concerning"] is looked up in the mapping that
    [identify_long_term_trends] returns, whose keys are metric names
    (or ["status"]); a per-metric record is a non-empty dictionary,
    hence true. *)
Definition get_concerning (trend_analysis : option TrendAnalysis) : bool :=
  match trend_analysis with
  | Some ta =>
      match long_term_trends ta with
      | InsufficientData => false
      | PerMetric r =>
          match dict_get "concerning" r with
          | Some _ => true
          | None => false
          end
      end
  | None => false
  end.

Definition generate_smart_recommendations (analysis : DetailedAnalysis)
  : list Recommendation :=
  let r1 :=
    if Fl.gtb (get_largest_gap (pay_equity analysis)) 5
    then [pay_equity_recommendation] else [] in
  let r2 :=
    fold_left
      (fun recs (am : string * BiasSummary) =>
         match significant_disparities (snd am) with
         | [] => recs
         | _ => (recs ++ [bias_recommendation (fst am)])%list
         end)
      (da_bias_metrics analysis) r1 in
  if get_concerning (trend_analysis analysis)
  then (r2 ++ [trend_recommendation])%list else r2.

(** ** [generate_fairness_report] *)

Definition pay_equity_findings (pg : PayGap) : PayEquity :=
  {| pe_gaps := gaps pg;
     pe_statistical_significance :=
       existsb (fun g => significant (statistical_significance g))
               (dict_values (gaps pg));
     largest_gap :=
       Fl.py_max (map gap_percentage (dict_values (gaps pg))) 0 |}.

Definition bias_summary (e : BiasEntry) : result BiasSummary :=
  dp <- dict_item "demographic_parity" (overall e) ;;
  eo <- dict_item "equalized_odds" (overall e) ;;
  Ok {| demographic_parity := dp;
        equalized_odds := eo;
        significant_disparities :=
          dict_keys
            (filter (fun mv => existsb sig_significant (dict_values (snd mv)))
                    (metric_significance e)) |}.

Definition bias_findings (metrics : dict BiasEntry)
  : result (dict BiasSummary) :=
  foldM (fun acc (ae : string * BiasEntry) =>
           s <- bias_summary (snd ae) ;;
           Ok (dict_set (fst ae) s acc))
        metrics [].

Definition trend_findings (tr : Trends) : result TrendAnalysis :=
  lt <- identify_long_term_trends tr 4 ;;
  Ok {| long_term_trends := lt;
        seasonal_patterns := detect_seasonal_patterns tr 12;
        anomalies := detect_trend_anomalies tr 2 |}.

(** [now] is [datetime.now().isoformat()]. *)
Definition generate_fairness_report (now : string)
    (analysis_results : AnalysisResults) : result Report :=
  score <- calculate_overall_fairness_score analysis_results ;;
  let pe := option_map pay_equity_findings (pay_gap analysis_results) in
  let issues :=
    if Fl.gtb (get_largest_gap pe) 5
    then ["Significant pay gaps detected exceeding 5%"] else [] in
  bm <-
    match bias_metrics analysis_results with
    | Some metrics => bias_findings metrics
    | None => Ok []
    end ;;
  ta <-
    match trends analysis_results with
    | Some tr => t <- trend_findings tr ;; Ok (Some t)
    | None => Ok None
    end ;;
  let detailed :=
    {| pay_equity := pe; da_bias_metrics := bm; trend_analysis := ta |} in
  Ok {| summary :=
          {| timestamp := now;
             overall_fairness_score := score;
             critical_issues := issues;
             recommendations := generate_smart_recommendations detailed |};
        detailed_analysis := detailed |}.

End Report.

(** ** Vocabulary of the statements *)

(** [labels] is a possible iteration order of [set(groups)]: every
    label of [groups] once. *)
Definition set_order (groups labels : list string) : Prop :=
  NoDup labels /\ forall g, In g labels <-> In g groups.

(** Number of observations of group [g]. *)
Definition observations (groups : list string) (g : string) : nat :=
  count_occ string_dec groups g.

(** The selection rule of the first loop on the counts alone: a later
    group replaces the reference only when it is strictly larger, so
    among the largest groups the first one iterated is kept. *)
Definition select (groups : list string) (best : option string) (g : string)
  : option string :=
  match best with
  | None => Some g
  | Some r =>
      if (observations groups r <? observations groups g)%nat
      then Some g else Some r
  end.

Definition reference_of (groups labels : list string) : option string :=
  fold_left (select groups) labels None.

(** Every entry of [data] describes a group of the input. *)
Definition stats_ok (L : Libs) (salaries : list float) (groups : list string)
    (data : dict GroupStats) : Prop :=
  forall g st, dict_get g data = Some st ->
    In g groups
    /\ count st = observations groups g
    /\ median_salary st = np_median L (salaries_of salaries groups g).

(** [negated x y]: [y] is [x] with the sign changed, or both are the
    same zero. *)
Definition negated (x y : float) : Prop :=
  (y = - x)%float \/ (y = x /\ is_zero x = true).

(** A rank that the comparison of two numbers agrees with. *)
Definition rank (x : spec_float) : Z * (Z * Z) :=
  match x with
  | S754_nan => (0, (0, 0))
  | S754_zero _ => (0, (0, 0))
  | S754_infinity s => (if s then -2 else 2, (0, 0))
  | S754_finite s m e =>
      if s then (-1, (- e, - Zpos m)) else (1, (e, Zpos m))
  end%Z.

Definition lex_lt (a b : Z * (Z * Z)) : Prop :=
  (fst a < fst b
   \/ (fst a = fst b
       /\ (fst (snd a) < fst (snd b)
           \/ (fst (snd a) = fst (snd b) /\ snd (snd a) < snd (snd b)))))%Z.

(** The scenario of two groups of two observations each. *)
Definition scenario_salaries : list float :=
  [50000; 50000; 60000; 60000]%float.
Definition scenario_groups : list string := ["A"; "A"; "B"; "B"]%string.

(** A recommendation of the given category is in the list. *)
Definition has_category (c : string) (recs : list Recommendation) : Prop :=
  exists r, In r recs /\ category r = c.

(** The "high priority / pay_equity" recommendation is in the list. *)
Definition has_pay_equity_high (recs : list Recommendation) : Prop :=
  exists r, In r recs
    /\ category r = "pay_equity"%string /\ priority r = "high"%string.

(** An analysis input whose only content is one metric history that
    rises by one unit per period. *)
Definition worsening_trend_input : AnalysisResults :=
  {| pay_gap := None;
     bias_metrics := None;
     trends :=
       Some {| historical_metrics :=
                 Some [("pay_gap_pct"%string, [1; 2; 3; 4]%float)];
               increasing_disparity := None |} |}.

(** An analysis input whose only content is one protected attribute
    with both overall bias metrics equal to 2. *)
Definition out_of_range_bias_input : AnalysisResults :=
  {| pay_gap := None;
     bias_metrics :=
       Some [("gender"%string,
              {| overall := [("demographic_parity"%string, 2%float);
                             ("equalized_odds"%string, 2%float)];
                 by_group := [];
                 metric_significance := [] |})];
     trends := None |}.

(** The same with both metrics NaN. *)
Definition nan_bias_input : AnalysisResults :=
  {| pay_gap := None;
     bias_metrics :=
       Some [("gender"%string,
              {| overall := [("demographic_parity"%string, nan);
                             ("equalized_odds"%string, nan)];
                 by_group := [];
                 metric_significance := [] |})];
     trends := None |}.

(** A pay-gap result with one gap of 10 percent, and an analysis input
    that holds only it. *)
Definition example_pay_gap : PayGap :=
  {| group_stats := [];
     gaps :=
       [("B"%string,
         {| gap_percentage := 10%float;
            statistical_significance :=
              {| t_statistic := 3%float;
                 p_value := 0.01%float;
                 cohens_d := 1%float;
                 effect_size := "large"%string;
                 significant := true |};
            gap_reference_group := "A"%string |})];
     reference_group := Some "A"%string |}.

Definition example_analysis : AnalysisResults :=
  {| pay_gap := Some example_pay_gap;
     bias_metrics := None;
     trends := None |}.

(** ** Further vocabulary for the pay-gap results *)

Fixpoint sum_nat (xs : list nat) : nat :=
  match xs with
  | [] => 0%nat
  | x :: xs' => (x + sum_nat xs')%nat
  end.

(** The labels other than the reference group, in iteration order. *)
Definition other_than (ref : string) (labels : list string) : list string :=
  filter (fun g => negb (String.eqb g ref)) labels.

(** The entry that the loop of [_compute_group_gaps] writes for the
    group [g], from the statistics of the reference group and of
    [g]. *)
Definition gap_of (L : Libs) (salaries : list float) (groups : list string)
    (r : string) (rs : list float) (rst gst : GroupStats) (g : string)
  : Gap :=
  {| gap_percentage :=
       ((median_salary rst - median_salary gst) / median_salary rst * 100)
       %float;
     statistical_significance :=
       compute_statistical_significance L rs (salaries_of salaries groups g);
     gap_reference_group := r |}.

(** Some member of the group [g] has no salary at its position. *)
Definition has_missing_salary (salaries : list float) (groups : list string)
    (g : string) : bool :=
  existsb (fun i => (List.length salaries <=? i)%nat) (indices_of groups g).

(** The group [g] has a salary paired with it by [zip]. *)
Definition has_salary (salaries : list float) (groups : list string)
    (g : string) : bool :=
  match salaries_of salaries groups g with
  | [] => false
  | _ :: _ => true
  end.

(** The distinct elements in the order of their first occurrence. *)
Fixpoint distinct (xs : list string) : list string :=
  match xs with
  | [] => []
  | x :: xs' => x :: other_than x (distinct xs')
  end.

(** [x not in keys] *)
Definition fresh_in (keys : list string) (x : string) : bool :=
  negb (existsb (String.eqb x) keys).

(** Number of occurrences. *)
Definition occurrences (x : string) (xs : list string) : nat :=
  List.length (filter (String.eqb x) xs).

(** ** Distributions and gaps against the overall median

    [compute_attribute_distribution] and [compute_pay_gaps] on a
    dictionary [data] of columns.  The arguments [attribute_column] and
    [salary_column] are [data.get(attribute)] and
    [data.get(salary_column)]: [None] when the key is absent.  The
    attribute column holds strings, so [str(val)] is [val]. *)

Section Demographics.

Variable L : Libs.

Open Scope string_scope.
Open Scope float_scope.

(** [c.get(v, 0)] *)
Definition count_in (c : dict nat) (v : string) : nat :=
  match dict_get v c with
  | Some n => n
  | None => 0%nat
  end.

(** [Counter(values)]: counts in the order of first occurrence. *)
Definition counter (values : list string) : dict nat :=
  fold_left (fun c v => dict_set v (count_in c v + 1)%nat c) values [].

(** [a / b] on two [int]s: the correctly rounded quotient, which is
    the quotient of the two conversions as long as both are below
    2^53, as counts of list elements are. *)
Definition int_true_div (a b : nat) : result float :=
  if (b =? 0)%nat then Raise ZeroDivisionError
  else Ok (Fl.of_nat a / Fl.of_nat b).

Definition compute_attribute_distribution
    (attribute_column : option (list string)) : result (dict float) :=
  match attribute_column with
  | None => Ok []
  | Some values =>
      let value_counts := counter values in
      let total := fold_left Nat.add (dict_values value_counts) 0%nat in
      foldM
        (fun acc (vc : string * nat) =>
           q <- int_true_div (snd vc) total ;;
           Ok (dict_set (fst vc) q acc))
        value_counts []
  end.

(** Body of the loop of [compute_pay_gaps]. *)
Definition pay_gaps_step (salaries : list float) (groups : list string)
    (overall_median : float) (gaps : dict float) (group : string)
  : result (dict float) :=
  match salaries_of salaries groups group with
  | [] => Ok gaps
  | group_salaries =>
      let group_median := np_median L group_salaries in
      gap <- Fl.py_div (overall_median - group_median) overall_median ;;
      Ok (dict_set group gap gaps)
  end.

(** [unique_groups] is [set(groups)] in its iteration order. *)
Definition compute_pay_gaps (unique_groups : list string)
    (attribute_column : option (list string))
    (salary_column : option (list float)) : result (dict float) :=
  match attribute_column, salary_column with
  | Some groups, Some salaries =>
      let overall_median := np_median L salaries in
      foldM (pay_gaps_step salaries groups overall_median) unique_groups []
  | _, _ => Ok []
  end.

End Demographics.

(** ** Monitoring alerts *)

(** [config["thresholds"]] of an [AlertManager]. *)
Record Thresholds := {
  critical : float;
  warning : float
}.

(** The alert built by [AlertManager._create_alert]. *)
Record Alert := {
  alert_type : string;
  severity : string;
  alert_metric : string;
  alert_value : float;
  alert_timestamp : string;
  message : string
}.

(** [now] is [datetime.now().isoformat()]. *)
Definition _create_alert (now : string) (severity metric_name : string)
    (value : float) : Alert :=
  {| alert_type := "metric";
     severity := severity;
     alert_metric := metric_name;
     alert_value := value;
     alert_timestamp := now;
     message :=
       ("Metric " ++ metric_name ++ " exceeded " ++ severity
        ++ " threshold")%string |}.

Definition check_metric (now : string) (thresholds : Thresholds)
    (metric_name : string) (value : float) : option Alert :=
  if Fl.gtb (abs value) (critical thresholds)
  then Some (_create_alert now "critical" metric_name value)
  else if Fl.gtb (abs value) (warning thresholds)
  then Some (_create_alert now "warning" metric_name value)
  else None.

(** ** Visualisation data *)

(** A value stored in a group-statistics dictionary. *)
Inductive stat_value : Type :=
| StatFloat (x : float)
| StatCount (n : nat)
| StatQuartiles (q : list float)
| StatTrend (t : Trend).

(** [stats[key]] on a dictionary built by [_compute_group_statistics]:
    its keys are the five it always writes and ["trend"] when
    timestamps were given. *)
Definition group_stats_item (key : string) (stats : GroupStats)
  : result stat_value :=
  if String.eqb key "mean_salary" then Ok (StatFloat (mean_salary stats))
  else if String.eqb key "median_salary"
  then Ok (StatFloat (median_salary stats))
  else if String.eqb key "std_salary" then Ok (StatFloat (std_salary stats))
  else if String.eqb key "count" then Ok (StatCount (count stats))
  else if String.eqb key "quartiles"
  then Ok (StatQuartiles (quartiles stats))
  else if String.eqb key "trend" then
    match trend stats with
    | Some t => Ok (StatTrend t)
    | None => Raise KeyError
    end
  else Raise KeyError.

(** [dist_data] *)
Record DistData := {
  dd_groups : list string;
  dd_means : list stat_value;
  dd_counts : list stat_value
}.

(** One value of [metrics_data]. *)
Record ParityOdds := {
  po_demographic_parity : float;
  po_equalized_odds : float
}.

(** plotly is not part of the repository: the three figures the
    function builds, each already serialised by [fig.to_json()]; the
    library may reject its arguments. *)
Record Plotly := {
  bar_figure : DistData -> result string;
  subplot_figure : dict (list float) -> result string;
  heatmap_figure : list string -> list (list float) -> result string
}.

(** [visualizations["data"]]; [None] is an absent key. *)
Record VisData := {
  vd_pay_distribution : option DistData;
  vd_trends : option (dict (list float));
  vd_fairness_metrics : option (dict ParityOdds)
}.

Record Visualizations := {
  vis_pay_distribution : option string;
  vis_trend_charts : option string;
  vis_fairness_metrics : option string;
  vis_data : VisData
}.

(** The dictionary comprehension [metrics_data]. *)
Definition metrics_data (bm : dict BiasEntry) : result (dict ParityOdds) :=
  foldM
    (fun acc (am : string * BiasEntry) =>
       dp <- dict_item "demographic_parity" (overall (snd am)) ;;
       eo <- dict_item "equalized_odds" (overall (snd am)) ;;
       Ok (dict_set (fst am)
             {| po_demographic_parity := dp; po_equalized_odds := eo |}
             acc))
    bm [].

(** [plotly] is [None] when the guarded import fails; the figures are
    built only for the format ["html"] with plotly present. *)
Definition create_fairness_visualizations (plotly : option Plotly)
    (analysis_results : AnalysisResults) (output_format : string)
  : result Visualizations :=
  let figures :=
    match plotly with
    | Some p => if String.eqb output_format "html" then Some p else None
    | None => None
    end in
  pay <-
    match pay_gap analysis_results with
    | Some gaps =>
        means <- mapM (group_stats_item "avg_salary")
                      (dict_values (group_stats gaps)) ;;
        counts <- mapM (group_stats_item "count")
                       (dict_values (group_stats gaps)) ;;
        let dist_data :=
          {| dd_groups := dict_keys (group_stats gaps);
             dd_means := means;
             dd_counts := counts |} in
        match figures with
        | Some p => fig <- bar_figure p dist_data ;; Ok (Some fig, None)
        | None => Ok (None, Some dist_data)
        end
    | None => Ok (None, None)
    end ;;
  trend <-
    match trends analysis_results with
    | Some tr =>
        match historical_metrics tr with
        | Some series =>
            match figures with
            | Some p => fig <- subplot_figure p series ;; Ok (Some fig, None)
            | None => Ok (None, Some series)
            end
        | None => Ok (None, None)
        end
    | None => Ok (None, None)
    end ;;
  fair <-
    match bias_metrics analysis_results with
    | Some bm =>
        md <- metrics_data bm ;;
        match figures with
        | Some p =>
            let attrs := dict_keys md in
            let values :=
              [map po_demographic_parity (dict_values md);
               map po_equalized_odds (dict_values md)] in
            fig <- heatmap_figure p attrs values ;; Ok (Some fig, None)
        | None => Ok (None, Some md)
        end
    | None => Ok (None, None)
    end ;;
  Ok {| vis_pay_distribution := fst pay;
        vis_trend_charts := fst trend;
        vis_fairness_metrics := fst fair;
        vis_data :=
          {| vd_pay_distribution := snd pay;
             vd_trends := snd trend;
             vd_fairness_metrics := snd fair |} |}.


(** What a reported [Anomalies] record of a series must satisfy: it is
    not empty, its three lists run in parallel, every index is a
    position of the series and every z-score exceeds the threshold. *)
Definition well_formed_anomalies (values : list float) (z_threshold : float)
    (a : Anomalies) : Prop :=
  an_indices a <> []
  /\ List.length (an_values a) = List.length (an_indices a)
  /\ List.length (z_scores a) = List.length (an_indices a)
  /\ Forall (fun i => i < List.length values) (an_indices a)
  /\ Forall (fun z => Fl.gtb z z_threshold = true) (z_scores a).

(** Some group of some metric of the attribute differs significantly
    from the overall value. *)
Definition has_significant_disparity (e : BiasEntry) : Prop :=
  exists metric sigs,
    In (metric, sigs) (metric_significance e)
    /\ existsb sig_significant (dict_values sigs) = true.

(** ** A reference implementation of the library interface

    Textbook versions of the library functions, summing left to right.
    They agree with the libraries whenever the intermediate sums are
    exactly representable (small integer-valued data, as in the examples
    below); they make the embedded code executable on concrete data.
    The environment they describe has numpy, scipy and scikit-learn
    installed and fairlearn missing. *)

Module Ref.

Open Scope float_scope.

Definition sum (xs : list float) : float := fold_left add xs 0.

Definition mean (xs : list float) : float :=
  sum xs / Fl.of_nat (List.length xs).

Definition sq (x : float) : float := x * x.

Definition sum_sq_dev (xs : list float) : float :=
  let m := mean xs in sum (map (fun x => sq (x - m)) xs).

Definition var (xs : list float) : float :=
  sum_sq_dev xs / Fl.of_nat (List.length xs).

Definition std (xs : list float) : float := sqrt (var xs).

Definition sample_variance (xs : list float) : float :=
  sum_sq_dev xs / Fl.of_Z (Z.of_nat (List.length xs) - 1).

Fixpoint insert (x : float) (xs : list float) : list float :=
  match xs with
  | [] => [x]
  | y :: ys => if x <=? y then x :: xs else y :: insert x ys
  end.

Definition sort (xs : list float) : list float :=
  fold_right insert [] xs.

Definition median (xs : list float) : float :=
  let s := sort xs in
  let n := List.length xs in
  if Nat.even n
  then mean [nth (n / 2 - 1) s nan; nth (n / 2) s nan]
  else nth (n / 2) s nan.

(** Integer part of a non-negative finite number. *)
Definition floorZ (x : float) : Z :=
  match Prim2SF x with
  | S754_finite false m e => Z.shiftl (Zpos m) e
  | _ => 0%Z
  end.

(** Linear interpolation between the two nearest ranks. *)
Definition percentile1 (s : list float) (q : float) : float :=
  let n := List.length s in
  let h := Fl.of_Z (Z.of_nat n - 1) * (q / 100) in
  let lo := Z.to_nat (floorZ h) in
  let a := nth lo s nan in
  let b := nth (Nat.min (lo + 1) (n - 1)) s nan in
  let t := h - Fl.of_nat lo in
  if 0.5 <=? t then b - (b - a) * (1 - t) else a + (b - a) * t.

Definition percentile (xs qs : list float) : list float :=
  let s := sort xs in map (percentile1 s) qs.

Definition all_finite (xs : list float) : bool :=
  forallb is_finite xs.

(** Ordinary least squares on one regressor: slope and intercept. *)
Definition ols (x y : list float) : float * float :=
  let mx := mean x in
  let my := mean y in
  let sxy := sum (map (fun p => (fst p - mx) * (snd p - my)) (combine x y)) in
  let sxx := sum (map (fun a => sq (a - mx)) x) in
  let b := if is_zero sxx then 0 else sxy / sxx in
  (b, my - b * mx).

Definition polyfit1 (x y : list float) : result (float * float) :=
  if all_finite x && all_finite y then Ok (ols x y)
  else Raise LinAlgError.

(** Coefficient of determination, with scikit-learn's convention for
    a constant target. *)
Definition r2_score (y pred : list float) : float :=
  let ss_res := sum (map (fun p => sq (fst p - snd p)) (combine y pred)) in
  let ss_tot := sum_sq_dev y in
  if is_zero ss_tot then (if is_zero ss_res then 1 else 0)
  else 1 - ss_res / ss_tot.

Definition fit_line (days : list Z) (values : list float)
  : result (float * float) :=
  let x := map Fl.of_Z days in
  if negb (all_finite values)
     || negb (List.length days =? List.length values)%nat
  then Raise ValueError
  else
    let '(b, a) := ols x values in
    Ok (b, r2_score values (map (fun xi => b * xi + a) x)).

(** Student's distribution function for an even number [2k] of
    degrees of freedom, where it has a closed form:
    [1/2 + x/2 * sum_{j<k} C(2j,j)/4^j * (1-x^2)^j] with
    [x = t / sqrt(2k + t^2)].  [student_tail] sums the terms after the
    first, [c] and [p] being the previous coefficient and power. *)
Fixpoint student_tail (y : float) (j : nat) (c p : float) (fuel : nat)
  : float :=
  match fuel with
  | O => 0
  | S fuel' =>
      let c' := c * Fl.of_nat (2 * j + 1) / Fl.of_nat (2 * j + 2) in
      let p' := p * y in
      c' * p' + student_tail y (S j) c' p' fuel'
  end.

Definition student_even (k : nat) (t : float) : float :=
  let x := t / sqrt (Fl.of_nat (2 * k) + t * t) in
  0.5 + x / 2 * (1 + student_tail (1 - x * x) 0 1 1 (k - 1)).

(** NaN propagates; the limits at the infinities are exact; other
    degrees of freedom than the even ones up to 128 are not covered
    and give NaN. *)
Definition student_cdf (df t : float) : float :=
  if is_nan df || is_nan t then nan
  else if t =? neg_infinity then 0
  else if t =? infinity then 1
  else
    match find (fun k => Fl.of_nat (2 * k) =? df) (seq 1 64) with
    | Some k => student_even k t
    | None => nan
    end.

Definition libs : Libs :=
  {| sklearn_available := true;
     fairlearn_available := false;
     np_mean := mean;
     np_var := var;
     np_std := std;
     np_median := median;
     np_sum := sum;
     np_percentile := percentile;
     np_polyfit1 := polyfit1;
     sample_var := sample_variance;
     stdtr := student_cdf;
     linear_regression := fit_line;
     make_metric_frame := fun _ _ _ _ _ => Raise TypeError |}.

(** The same environment without scikit-learn: the guarded import
    leaves [LinearRegression = None]. *)
Definition libs_without_sklearn : Libs :=
  {| sklearn_available := false;
     fairlearn_available := false;
     np_mean := mean;
     np_var := var;
     np_std := std;
     np_median := median;
     np_sum := sum;
     np_percentile := percentile;
     np_polyfit1 := polyfit1;
     sample_var := sample_variance;
     stdtr := student_cdf;
     linear_regression := fun _ _ => Raise TypeError;
     make_metric_frame := fun _ _ _ _ _ => Raise TypeError |}.

End Ref.

(** ** A stand-in for fairlearn, and further example inputs *)



(** Thresholds in the usual order, and the two exchanged. *)
Definition ordered_thresholds : Thresholds :=
  {| critical := 0.2; warning := 0.1 |}.

Definition exchanged_thresholds : Thresholds :=
  {| critical := 0.1; warning := 0.2 |}.

(** An analysis input with one attribute, one of whose groups differs
    significantly in its selection rate. *)
Definition disparity_input : AnalysisResults :=
  {| pay_gap := None;
     bias_metrics :=
       Some [("gender"%string,
              {| overall := [("demographic_parity"%string, 0.2%float);
                             ("equalized_odds"%string, 0.1%float)];
                 by_group := [];
                 metric_significance :=
                   [("selection_rate"%string,
                     [("F"%string,
                       {| difference := 0.2;
                          sig_significant := true;
                          direction := "below" |})])] |})];
     trends := None |}.

(** Two metric histories, one of them shorter than four periods. *)
Definition two_histories : Trends :=
  {| historical_metrics :=
       Some [("parity"%string, [1; 2; 3; 4]%float);
             ("odds"%string, [1; 2]%float)];
     increasing_disparity := None |}.

(** A flat history with one spike at the end. *)
Definition spike_history : Trends :=
  {| historical_metrics :=
       Some [("parity"%string, [0; 0; 0; 0; 0; 0; 0; 0; 0; 10]%float)];
     increasing_disparity := None |}.

(** * Properties *)

(** ** Facts about binary64 arithmetic

    Proved on the specification [spec_float] of the primitive
    operations and transported along [Prim2SF]. *)

Module SpecFacts.

Section WithFormat.

Variables prec emax : Z.

Lemma binary_round_aux_negb s m e l :
  binary_round_aux prec emax (negb s) m e l
  = SFopp (binary_round_aux prec emax s m e l).
Proof.
  unfold binary_round_aux.
  destruct (shr_fexp prec emax m e l) as [mrs' e'].
  destruct (shr_fexp prec emax _ e' loc_Exact) as [mrs'' e''].
  destruct (shr_m mrs''); try reflexivity.
  destruct (Z.leb e'' (emax - prec)); reflexivity.
Qed.

Lemma binary_round_negb s m e :
  binary_round prec emax (negb s) m e
  = SFopp (binary_round prec emax s m e).
Proof.
  unfold binary_round.
  destruct (shl_align m e _) as [mz ez].
  apply binary_round_aux_negb.
Qed.

Lemma binary_normalize_opp m e :
  m <> 0%Z ->
  binary_normalize prec emax (- m) e false
  = SFopp (binary_normalize prec emax m e false).
Proof.
  destruct m as [|p|p]; intros H; [congruence| |]; simpl.
  - apply (binary_round_negb false).
  - apply (binary_round_negb true).
Qed.

Lemma SFadd_comm x y : SFadd prec emax x y = SFadd prec emax y x.
Proof.
  destruct x as [sx|sx| |sx mx ex], y as [sy|sy| |sy my ey]; simpl;
    try reflexivity;
    try (destruct sx, sy; reflexivity).
  rewrite (Z.min_comm ey ex). f_equal. apply Z.add_comm.
Qed.

(** [y - x] is the opposite of [x - y], except that both are [+0]
    when the operands are equal. *)
Lemma SFsub_antisym x y :
  SFsub prec emax y x = SFopp (SFsub prec emax x y)
  \/ (SFsub prec emax x y = S754_zero false
      /\ SFsub prec emax y x = S754_zero false).
Proof.
  destruct x as [sx|sx| |sx mx ex], y as [sy|sy| |sy my ey]; simpl;
    try (left; reflexivity);
    try (destruct sx, sy; simpl; auto; fail);
    try (left; simpl; rewrite ?negb_involutive; reflexivity).
  rewrite (Z.min_comm ey ex).
  set (X := cond_Zopp sx _). set (Y := cond_Zopp sy _).
  destruct (Z.eq_dec (X - Y) 0) as [E|E].
  - right. replace (Y - X)%Z with 0%Z by lia. rewrite E.
    split; reflexivity.
  - left. replace (Y - X)%Z with (- (X - Y))%Z by lia.
    now apply binary_normalize_opp.
Qed.

Lemma SFdiv_opp_l x y :
  SFdiv prec emax (SFopp x) y = SFopp (SFdiv prec emax x y).
Proof.
  destruct x as [sx|sx| |sx mx ex], y as [sy|sy| |sy my ey]; simpl;
    try reflexivity;
    try (destruct sx, sy; reflexivity).
  destruct (SFdiv_core_binary prec emax (Zpos mx) ex (Zpos my) ey)
    as [[mz ez] lz].
  replace (xorb (negb sx) sy) with (negb (xorb sx sy))
    by (destruct sx, sy; reflexivity).
  apply binary_round_aux_negb.
Qed.

Lemma SFdiv_zero_l s y :
  SFdiv prec emax (S754_zero s) y = S754_nan
  \/ exists s', SFdiv prec emax (S754_zero s) y = S754_zero s'.
Proof. destruct y; simpl; eauto. Qed.

End WithFormat.

Lemma SFabs_opp x : SFabs (SFopp x) = SFabs x.
Proof. destruct x; reflexivity. Qed.

Lemma SFeqb_zero x :
  SFeqb x (S754_zero false) = true <-> exists s, x = S754_zero s.
Proof.
  unfold SFeqb. split.
  - destruct x as [s|s| |s m e]; simpl; try destruct s; try discriminate;
      eauto.
  - intros [s ->]. reflexivity.
Qed.

Lemma SFltb_rank x y :
  SFltb x y = true
  <-> (x <> S754_nan /\ y <> S754_nan /\ lex_lt (rank x) (rank y)).
Proof.
  unfold SFltb, lex_lt.
  destruct x as [sx|sx| |sx mx ex], y as [sy|sy| |sy my ey]; simpl;
    try destruct sx; try destruct sy; simpl;
    try (split; [discriminate | intros (?&?&?); try congruence; lia]);
    try (split; [intros _; repeat split; try discriminate; lia
                | reflexivity]).
  - rewrite (Pos.compare_cont_spec mx my Eq). simpl.
    destruct (Z.compare_spec ex ey); destruct (Pos.compare_spec mx my);
      simpl;
      (split; [try discriminate; intros _; repeat split;
               try discriminate; lia
              | intros (?&?&?); try reflexivity; lia]).
  - rewrite (Pos.compare_cont_spec mx my Eq). simpl.
    destruct (Z.compare_spec ex ey); destruct (Pos.compare_spec mx my);
      simpl;
      (split; [try discriminate; intros _; repeat split;
               try discriminate; lia
              | intros (?&?&?); try reflexivity; lia]).
Qed.

End SpecFacts.

Module FlFacts.

Import SpecFacts.
Open Scope float_scope.

Lemma add_comm (x y : float) : x + y = y + x.
Proof.
  apply Prim2SF_inj. rewrite !add_spec. apply SFadd_comm.
Qed.

Lemma is_zero_spec (x : float) :
  is_zero x = true <-> exists s, Prim2SF x = S754_zero s.
Proof.
  unfold is_zero. rewrite eqb_spec.
  change (Prim2SF zero) with (S754_zero false). apply SFeqb_zero.
Qed.

Lemma is_nan_spec (x : float) : is_nan x = true <-> x = nan.
Proof.
  unfold is_nan. rewrite eqb_spec. split.
  - intros H. apply Prim2SF_inj. change (Prim2SF nan) with S754_nan.
    destruct (Prim2SF x) as [s|s| |s m e]; try reflexivity;
      exfalso; revert H; unfold SFeqb; simpl.
    + discriminate.
    + destruct s; discriminate.
    + destruct s; rewrite Z.compare_refl, (Pos.compare_cont_spec m m Eq),
        Pos.compare_refl; discriminate.
  - intros ->. reflexivity.
Qed.

(** Zero over zero is NaN, whatever the signs. *)
Lemma div_zero_zero (x y : float) :
  is_zero x = true -> is_zero y = true -> x / y = nan.
Proof.
  rewrite !is_zero_spec. intros [sx Hx] [sy Hy].
  apply Prim2SF_inj. rewrite div_spec, Hx, Hy. reflexivity.
Qed.

Lemma sub_negated (a b : float) : negated (a - b) (b - a).
Proof.
  destruct (SFsub_antisym prec emax (Prim2SF a) (Prim2SF b)) as [H|[H1 H2]].
  - left. apply Prim2SF_inj. rewrite opp_spec, !sub_spec. exact H.
  - right. split.
    + apply Prim2SF_inj. rewrite !sub_spec.
      unfold SF64sub. now rewrite H1, H2.
    + apply is_zero_spec. exists false. rewrite sub_spec. exact H1.
Qed.

Lemma div_negated (x y s : float) : negated x y -> negated (x / s) (y / s).
Proof.
  intros [->|[-> Hz]].
  - left. apply Prim2SF_inj. rewrite opp_spec, !div_spec, opp_spec.
    apply SFdiv_opp_l.
  - apply is_zero_spec in Hz. destruct Hz as [sx Hx].
    destruct (SFdiv_zero_l prec emax sx (Prim2SF s)) as [H|[s' H]].
    + left. apply Prim2SF_inj.
      rewrite opp_spec, div_spec, Hx. unfold SF64div. rewrite H.
      reflexivity.
    + right. split; [reflexivity|]. apply is_zero_spec. exists s'.
      rewrite div_spec, Hx. exact H.
Qed.

Lemma abs_opp (x : float) : abs (- x) = abs x.
Proof.
  apply Prim2SF_inj. rewrite !abs_spec, opp_spec. apply SFabs_opp.
Qed.

Lemma negated_abs (x y : float) : negated x y -> abs y = abs x.
Proof. intros [->|[-> _]]; [apply abs_opp | reflexivity]. Qed.

Lemma same_refl (x : float) : Fl.same x x = true.
Proof.
  unfold Fl.same, is_nan. destruct (x =? x); reflexivity.
Qed.

(** A negated number equals the opposite in Python's sense. *)
Lemma negated_same (x y : float) : negated x y -> Fl.same y (- x) = true.
Proof.
  intros [->|[-> Hz]]; [apply same_refl|].
  apply is_zero_spec in Hz. destruct Hz as [s Hs].
  unfold Fl.same. rewrite eqb_spec, opp_spec, Hs. reflexivity.
Qed.

(** *** Order *)

Lemma ltb_rank (x y : float) :
  (x <? y) = true
  <-> (is_nan x = false /\ is_nan y = false
       /\ lex_lt (rank (Prim2SF x)) (rank (Prim2SF y))).
Proof.
  rewrite ltb_spec, SFltb_rank.
  assert (N : forall z, Prim2SF z <> S754_nan <-> is_nan z = false).
  { intros z. destruct (is_nan z) eqn:E.
    - apply is_nan_spec in E. subst z. split; [intros H|discriminate].
      exfalso. apply H. reflexivity.
    - split; [reflexivity|]. intros _ H.
      assert (z = nan) by (apply Prim2SF_inj; rewrite H; reflexivity).
      apply is_nan_spec in H0. congruence. }
  rewrite !N. reflexivity.
Qed.

Lemma ltb_trans (a b c : float) :
  (a <? b) = true -> (b <? c) = true -> (a <? c) = true.
Proof.
  rewrite !ltb_rank. unfold lex_lt.
  intros (Ha & Hb & H1) (_ & Hc & H2). repeat split; trivial. lia.
Qed.

(** If [x] is not above [m] then whatever is below [x] is below [m]. *)
Lemma ltb_le_trans (c x m : float) :
  is_nan m = false -> (m <? x) = false -> (c <? x) = true ->
  (c <? m) = true.
Proof.
  intros Hm Hmx. rewrite !ltb_rank. intros (Hc & Hx & H).
  repeat split; trivial.
  assert (~ lex_lt (rank (Prim2SF m)) (rank (Prim2SF x))) as Hn.
  { intros Hl. assert ((m <? x) = true) by (apply ltb_rank; auto).
    congruence. }
  unfold lex_lt in *. lia.
Qed.

Lemma py_max2_not_nan (a b : float) :
  is_nan a = false -> is_nan b = false -> is_nan (Fl.py_max2 a b) = false.
Proof. unfold Fl.py_max2. destruct (Fl.gtb b a); trivial. Qed.

Lemma gtb_py_max2 (a b c : float) :
  is_nan a = false ->
  Fl.gtb (Fl.py_max2 a b) c = true
  <-> (Fl.gtb a c = true \/ Fl.gtb b c = true).
Proof.
  intros Ha. unfold Fl.py_max2, Fl.gtb. destruct (a <? b) eqn:E.
  - split; [auto|]. intros [H|H]; trivial. eapply ltb_trans; eauto.
  - split; [auto|]. intros [H|H]; trivial. eapply ltb_le_trans; eauto.
Qed.

(** Without NaN, Python's [max] exceeds a bound exactly when one of
    the elements (or the default of an empty list) does. *)
Lemma gtb_fold_py_max2 (xs : list float) (m c : float) :
  is_nan m = false -> forallb (fun x => negb (is_nan x)) xs = true ->
  Fl.gtb (fold_left Fl.py_max2 xs m) c = true
  <-> (Fl.gtb m c = true \/ exists x, In x xs /\ Fl.gtb x c = true).
Proof.
  revert m. induction xs as [|x xs IH]; intros m Hm Hxs; simpl.
  - split; [auto|]. intros [H|(x & [] & _)]; trivial.
  - simpl in Hxs. apply andb_true_iff in Hxs. destruct Hxs as [Hx Hxs].
    apply negb_true_iff in Hx.
    rewrite IH by auto using py_max2_not_nan.
    rewrite gtb_py_max2 by trivial. split.
    + intros [[H|H]|(y & Hy & H)]; eauto.
    + intros [H|(y & [<-|Hy] & H)]; eauto.
Qed.

Lemma gtb_py_max (xs : list float) (d c : float) :
  forallb (fun x => negb (is_nan x)) xs = true ->
  Fl.gtb (Fl.py_max xs d) c = true
  <-> ((xs = [] /\ Fl.gtb d c = true)
       \/ exists x, In x xs /\ Fl.gtb x c = true).
Proof.
  destruct xs as [|x xs]; intros H.
  - simpl. split; [auto|]. intros [[_ H1]|(x & [] & _)]; trivial.
  - unfold Fl.py_max. simpl in H. apply andb_true_iff in H.
    destruct H as [Hx Hxs]. apply negb_true_iff in Hx.
    rewrite gtb_fold_py_max2 by trivial. split.
    + intros [H|(y & Hy & H)]; right; [exists x|exists y]; simpl; auto.
    + intros [[H _]|(y & [<-|Hy] & H)]; [discriminate|auto|eauto].
Qed.

End FlFacts.

(** ** Dictionaries *)

Lemma dict_get_set_eq {V} (k : string) (v : V) (d : dict V) :
  dict_get k (dict_set k v d) = Some v.
Proof.
  induction d as [|[k' v'] d IH]; simpl.
  - now rewrite String.eqb_refl.
  - destruct (String.eqb k' k) eqn:E; simpl.
    + now rewrite String.eqb_refl.
    + now rewrite E.
Qed.

Lemma dict_get_set_neq {V} (k k' : string) (v : V) (d : dict V) :
  k <> k' -> dict_get k' (dict_set k v d) = dict_get k' d.
Proof.
  intros N. induction d as [|[k0 v0] d IH]; simpl.
  - destruct (String.eqb_spec k k'); congruence.
  - destruct (String.eqb_spec k0 k) as [->|]; simpl.
    + destruct (String.eqb_spec k k'); congruence.
    + now rewrite IH.
Qed.

Lemma dict_get_set {V} (k k' : string) (v : V) (d : dict V) :
  dict_get k' (dict_set k v d) = if String.eqb k k' then Some v else dict_get k' d.
Proof.
  destruct (String.eqb_spec k k') as [->|N].
  - apply dict_get_set_eq.
  - now apply dict_get_set_neq.
Qed.

Lemma dict_two_keys {V} (k k' : string) (d : dict V) :
  k <> k' -> dict_get k d <> None -> dict_get k' d <> None ->
  2 <= List.length d.
Proof.
  intros N H H'. destruct d as [|[k1 v1] [|[k2 v2] d]]; simpl in *; try lia.
  - congruence.
  - destruct (String.eqb_spec k1 k), (String.eqb_spec k1 k'); congruence.
Qed.

(** ** Monadic loops *)

Lemma foldM_cons {A S} (f : S -> A -> result S) x xs s :
  foldM f (x :: xs) s = bind (f s x) (foldM f xs).
Proof. reflexivity. Qed.

Lemma mapM_length {A B} (f : A -> result B) xs ys :
  mapM f xs = Ok ys -> List.length ys = List.length xs.
Proof.
  revert ys. induction xs as [|x xs IH]; simpl; intros ys H.
  - now inversion H.
  - destruct (f x); simpl in H; [|discriminate].
    destruct (mapM f xs); simpl in H; [|discriminate].
    inversion H. simpl. f_equal. now apply IH.
Qed.

(** ** Indices and salaries of a group *)

Lemma indices_length_from (g : string) groups a :
  List.length (map fst (filter (fun ig : nat * string => String.eqb (snd ig) g)
                  (combine (seq a (List.length groups)) groups)))
  = observations groups g.
Proof.
  unfold observations. revert a.
  induction groups as [|x groups IH]; intros a; simpl; trivial.
  destruct (String.eqb_spec x g) as [E|N]; destruct (string_dec x g);
    try congruence; simpl; now rewrite IH.
Qed.

Lemma indices_of_length groups g :
  List.length (indices_of groups g) = observations groups g.
Proof. apply indices_length_from. Qed.

Lemma observations_pos groups g : In g groups <-> 0 < observations groups g.
Proof. unfold observations. apply count_occ_In. Qed.

Lemma mapM_index_out_of_range {A} (l : list A) idx ys :
  (forall i, In i idx -> List.length l <= i) ->
  mapM (index l) idx = Ok ys -> idx = [].
Proof.
  destruct idx as [|i idx]; trivial. intros H. simpl. unfold index at 1.
  assert (E : nth_error l i = None) by (apply nth_error_None, H; now left).
  rewrite E. discriminate.
Qed.

Lemma in_filter_seq (g : string) groups a i :
  In i (map fst (filter (fun ig : nat * string => String.eqb (snd ig) g)
                  (combine (seq a (List.length groups)) groups))) ->
  a <= i.
Proof.
  intros H. apply in_map_iff in H. destruct H as ([j x] & <- & H).
  apply filter_In in H. destruct H as [H _]. apply in_combine_l in H.
  apply in_seq in H. simpl. lia.
Qed.

Lemma mapM_index_salaries (g : string) groups : forall pre sal gs,
  mapM (index (pre ++ sal))
       (map fst (filter (fun ig : nat * string => String.eqb (snd ig) g)
                  (combine (seq (List.length pre) (List.length groups)) groups)))
  = Ok gs ->
  gs = map fst (filter (fun sg : float * string => String.eqb (snd sg) g)
                  (combine sal groups)).
Proof.
  induction groups as [|x groups IH]; intros pre sal gs H.
  - simpl in H. inversion H. now destruct sal.
  - destruct sal as [|s sal].
    + apply mapM_index_out_of_range in H as E.
      * rewrite E in H. simpl in H. now inversion H.
      * intros i Hi. apply in_filter_seq in Hi. rewrite app_nil_r. exact Hi.
    + simpl in H |- *. destruct (String.eqb x g) eqn:E; simpl in H |- *.
      * unfold index at 1 in H.
        rewrite nth_error_app2, Nat.sub_diag in H by lia. simpl in H.
        specialize (IH (pre ++ [s]) sal).
        rewrite <- app_assoc, length_app, Nat.add_1_r in IH. simpl in IH.
        destruct (mapM _ _) as [ys|e] eqn:M; simpl in H; [|discriminate].
        inversion H. f_equal. now apply IH.
      * specialize (IH (pre ++ [s]) sal).
        rewrite <- app_assoc, length_app, Nat.add_1_r in IH. simpl in IH.
        now apply IH.
Qed.

Lemma mapM_index_of salaries groups g gs :
  mapM (index salaries) (indices_of groups g) = Ok gs ->
  gs = salaries_of salaries groups g.
Proof. apply (mapM_index_salaries g groups [] salaries). Qed.

Lemma mapM_index_in_range {A} (l : list A) idx :
  (forall i, In i idx -> i < List.length l) ->
  exists ys, mapM (index l) idx = Ok ys.
Proof.
  induction idx as [|i idx IH]; intros H; simpl; eauto.
  unfold index at 1. destruct (nth_error l i) eqn:E.
  - destruct IH as [ys ->]; [intros; apply H; now right|]. simpl. eauto.
  - apply nth_error_None in E. specialize (H i (or_introl eq_refl)). lia.
Qed.

Lemma indices_of_lt groups g i :
  In i (indices_of groups g) -> i < List.length groups.
Proof.
  unfold indices_of. intros H. apply in_map_iff in H.
  destruct H as ([j x] & <- & H). apply filter_In in H. destruct H as [H _].
  apply in_combine_l in H. apply in_seq in H. simpl. lia.
Qed.

Lemma mapM_index_of_returns {A} (l : list A) groups g :
  List.length groups <= List.length l ->
  exists ys, mapM (index l) (indices_of groups g) = Ok ys.
Proof.
  intros H. apply mapM_index_in_range. intros i Hi.
  apply indices_of_lt in Hi. lia.
Qed.

(** ** The first loop of [compute_pay_gap] *)

Section GroupStatisticsPass.

Variable L : Libs.
Variables (salaries : list float) (groups : list string).
Variable timestamps : option (list datetime).

Lemma group_statistics_ok g st :
  _compute_group_statistics L salaries (indices_of groups g) timestamps = Ok st ->
  count st = observations groups g
  /\ median_salary st = np_median L (salaries_of salaries groups g).
Proof.
  unfold _compute_group_statistics.
  destruct (mapM (index salaries) (indices_of groups g)) as [gs|e] eqn:M;
    simpl; [|discriminate].
  apply mapM_length in M as Hlen. apply mapM_index_of in M. subst gs.
  rewrite indices_of_length in Hlen.
  destruct (truthy_timestamps timestamps) as [ts|].
  - destruct (mapM (index ts) _); simpl; [|discriminate].
    destruct (compute_temporal_trend _ _ _); simpl; [|discriminate].
    intros H. inversion H. simpl. auto.
  - intros H. inversion H. simpl. auto.
Qed.

Lemma group_stats_step_spec data ref g data' ref' :
  In g groups -> stats_ok L salaries groups data ->
  (forall r, ref = Some r -> dict_get r data <> None) ->
  group_stats_step L salaries groups timestamps (data, ref) g = Ok (data', ref') ->
  stats_ok L salaries groups data'
  /\ ref' = select groups ref g
  /\ (forall r, ref' = Some r -> dict_get r data' <> None)
  /\ (forall k, dict_get k data' <> None <-> k = g \/ dict_get k data <> None).
Proof.
  intros Hg Hok Href. unfold group_stats_step.
  destruct (indices_of groups g) as [|i idx] eqn:E.
  { apply observations_pos in Hg. rewrite <- indices_of_length, E in Hg.
    simpl in Hg. lia. }
  rewrite <- E. clear E i idx.
  destruct (_compute_group_statistics _ _ _ _) as [st|e] eqn:S; simpl;
    [|discriminate].
  apply group_statistics_ok in S. destruct S as [Hc Hm].
  assert (Hok' : stats_ok L salaries groups (dict_set g st data)).
  { intros k st'. rewrite dict_get_set.
    destruct (String.eqb_spec g k) as [<-|N]; [|apply Hok].
    intros H. inversion H. subst st'. auto. }
  assert (Hkeys : forall k, dict_get k (dict_set g st data) <> None
                            <-> k = g \/ dict_get k data <> None).
  { intros k. rewrite dict_get_set.
    destruct (String.eqb_spec g k) as [<-|N].
    - split; [auto|discriminate].
    - split; [auto|]. intros [->|H]; congruence. }
  destruct ref as [r|]; simpl.
  - unfold dict_item. rewrite dict_get_set.
    destruct (String.eqb_spec g r) as [<-|N]; simpl.
    + rewrite (Nat.ltb_irrefl (count st)),
        (Nat.ltb_irrefl (observations groups g)).
      intros H. inversion H. subst.
      split; [exact Hok'|]. split; [reflexivity|]. split; [|exact Hkeys].
      intros r Hr. inversion Hr. subst. apply Hkeys. now left.
    + destruct (dict_get r data) as [rst|] eqn:R; simpl.
      2:{ exfalso. now apply (Href r). }
      destruct (Hok r rst R) as (_ & Hrc & _). rewrite Hrc, Hc.
      destruct (observations groups r <? observations groups g)%nat;
        intros H; inversion H; subst;
        (split; [exact Hok'|]; split; [reflexivity|]; split; [|exact Hkeys]);
        intros r' Hr'; inversion Hr'; subst; apply Hkeys; auto.
  - intros H. inversion H. subst.
    split; [exact Hok'|]. split; [reflexivity|]. split; [|exact Hkeys].
    intros r Hr. inversion Hr. subst. apply Hkeys. now left.
Qed.

Lemma group_stats_loop_spec labels : forall data ref data' ref',
  (forall g, In g labels -> In g groups) -> stats_ok L salaries groups data ->
  (forall r, ref = Some r -> dict_get r data <> None) ->
  foldM (group_stats_step L salaries groups timestamps) labels (data, ref)
  = Ok (data', ref') ->
  stats_ok L salaries groups data'
  /\ ref' = fold_left (select groups) labels ref
  /\ (forall r, ref' = Some r -> dict_get r data' <> None)
  /\ (forall k, dict_get k data' <> None
                <-> In k labels \/ dict_get k data <> None).
Proof.
  induction labels as [|g labels IH]; intros data ref data' ref' Hin Hok Href.
  - simpl. intros H. inversion H. subst.
    split; [exact Hok|]. split; [reflexivity|]. split; [exact Href|].
    intros k. split; [auto|]. now intros [[]|].
  - rewrite foldM_cons.
    destruct (group_stats_step _ _ _ _ _ _) as [[data1 ref1]|e] eqn:S; simpl;
      [|discriminate].
    apply group_stats_step_spec in S; [|simpl in *; auto ..].
    destruct S as (Hok1 & -> & Href1 & Hk1).
    intros H. apply IH in H; [|simpl in *; auto ..].
    destruct H as (Hok2 & -> & Href2 & Hk2).
    split; [exact Hok2|]. split; [reflexivity|]. split; [exact Href2|].
    intros k. split.
    + intros H. apply Hk2 in H. destruct H as [H|H]; auto.
      apply Hk1 in H. destruct H as [->|H]; auto.
    + intros [[<-|H]|H]; apply Hk2; auto; right; apply Hk1; auto.
Qed.

Lemma group_statistics_pass_spec labels data ref :
  (forall g, In g labels -> In g groups) ->
  group_statistics_pass L labels salaries groups timestamps = Ok (data, ref) ->
  stats_ok L salaries groups data
  /\ ref = reference_of groups labels
  /\ (forall r, ref = Some r -> dict_get r data <> None)
  /\ (forall k, dict_get k data <> None <-> In k labels).
Proof.
  intros Hin H. apply group_stats_loop_spec in H; trivial.
  - destruct H as (H1 & H2 & H3 & H4).
    split; [exact H1|]. split; [exact H2|]. split; [exact H3|].
    intros k. split.
    + intros Hk. apply H4 in Hk. destruct Hk as [Hk|Hk]; trivial.
      now elim Hk.
    + intros Hk. apply H4. auto.
  - intros g st. discriminate.
  - discriminate.
Qed.

(** Without timestamps, and with a salary for every label, the loop
    raises nothing. *)
Lemma group_stats_step_returns data ref g :
  truthy_timestamps timestamps = None ->
  List.length groups <= List.length salaries ->
  (forall r, ref = Some r -> dict_get r data <> None) ->
  returns (group_stats_step L salaries groups timestamps (data, ref) g).
Proof.
  intros Ht Hlen Href. unfold group_stats_step.
  destruct (indices_of groups g) as [|i idx] eqn:E; [eexists; reflexivity|].
  rewrite <- E. unfold _compute_group_statistics.
  destruct (mapM_index_of_returns salaries groups g Hlen) as [ys ->].
  simpl. rewrite Ht. simpl.
  destruct ref as [r|]; [|eexists; reflexivity].
  unfold dict_item. rewrite dict_get_set.
  destruct (String.eqb g r); simpl.
  - destruct (_ <? _)%nat; eexists; reflexivity.
  - destruct (dict_get r data) eqn:R; simpl.
    + destruct (_ <? _)%nat; eexists; reflexivity.
    + exfalso. now apply (Href r).
Qed.

Lemma group_stats_loop_returns labels : forall data ref,
  truthy_timestamps timestamps = None ->
  List.length groups <= List.length salaries ->
  (forall g, In g labels -> In g groups) -> stats_ok L salaries groups data ->
  (forall r, ref = Some r -> dict_get r data <> None) ->
  returns (foldM (group_stats_step L salaries groups timestamps) labels
                 (data, ref)).
Proof.
  induction labels as [|g labels IH]; intros data ref Ht Hlen Hin Hok Href.
  - eexists; reflexivity.
  - rewrite foldM_cons.
    destruct (group_stats_step_returns data g Ht Hlen Href) as [[d1 r1] S].
    rewrite S. simpl.
    apply group_stats_step_spec in S; [|simpl in *; auto ..].
    destruct S as (Hok1 & _ & Href1 & _).
    apply IH; simpl in *; auto.
Qed.

Lemma group_statistics_pass_returns labels :
  truthy_timestamps timestamps = None ->
  List.length groups <= List.length salaries ->
  (forall g, In g labels -> In g groups) ->
  returns (group_statistics_pass L labels salaries groups timestamps).
Proof.
  intros. apply group_stats_loop_returns; trivial; [intros g st|]; discriminate.
Qed.

(** The first group processed becomes the reference. *)
Lemma group_stats_step_first g data ref :
  In g groups ->
  group_stats_step L salaries groups timestamps ([], None) g = Ok (data, ref) ->
  (exists st, data = [(g, st)]) /\ ref = Some g.
Proof.
  intros Hg. unfold group_stats_step.
  destruct (indices_of groups g) as [|i idx] eqn:E.
  { apply observations_pos in Hg. rewrite <- indices_of_length, E in Hg.
    simpl in Hg. lia. }
  rewrite <- E.
  destruct (_compute_group_statistics _ _ _ _) as [st|e]; simpl;
    [|discriminate].
  intros H. inversion H. eauto.
Qed.

(** *** The selection rule keeps a largest group *)

Lemma fold_select_max labels : forall b,
  exists r, fold_left (select groups) labels (Some b) = Some r
    /\ (r = b \/ In r labels)
    /\ observations groups b <= observations groups r
    /\ forall g, In g labels -> observations groups g <= observations groups r.
Proof.
  induction labels as [|g labels IH]; intros b; simpl.
  - exists b. repeat split; auto. now intros g [].
  - destruct (observations groups b <? observations groups g)%nat eqn:E.
    + apply Nat.ltb_lt in E. destruct (IH g) as (r & -> & Hr & Hb & Hmax).
      exists r. split; [reflexivity|]. split; [destruct Hr; auto|].
      split; [lia|]. intros g' [<-|Hg']; auto.
    + apply Nat.ltb_ge in E. destruct (IH b) as (r & -> & Hr & Hb & Hmax).
      exists r. split; [reflexivity|]. split; [destruct Hr; auto|].
      split; [lia|]. intros g' [<-|Hg']; auto. lia.
Qed.

End GroupStatisticsPass.

Lemma reference_of_max groups labels :
  labels <> [] ->
  exists r, reference_of groups labels = Some r /\ In r labels
    /\ forall g, In g labels -> observations groups g <= observations groups r.
Proof.
  destruct labels as [|b labels]; [congruence|]. intros _.
  destruct (fold_select_max groups labels b) as (r & H & Hr & Hb & Hmax).
  exists r. split; [exact H|]. split.
  - destruct Hr as [->|Hr]; [now left|now right].
  - intros g [<-|Hg]; auto.
Qed.

(** ** Pay-gap theorems *)

Lemma set_order_nonempty groups labels :
  set_order groups labels -> groups <> [] -> labels <> [].
Proof.
  intros [_ H] Hg ->. destruct groups as [|g groups]; [congruence|].
  apply (H g). now left.
Qed.

Lemma set_order_single groups labels g :
  set_order groups labels -> groups <> [] ->
  (forall x, In x groups -> x = g) -> labels = [g].
Proof.
  intros [Hnd H] Hne Hall.
  assert (Hg : In g labels).
  { destruct groups as [|x groups]; [congruence|].
    apply H. rewrite <- (Hall x) by now left. now left. }
  assert (Hl : forall x, In x labels -> x = g) by (intros x Hx; apply Hall, H, Hx).
  destruct labels as [|a [|b labels]].
  - destruct Hg.
  - f_equal. apply Hl. now left.
  - exfalso. inversion Hnd as [|? ? Hna _]. apply Hna.
    rewrite (Hl a), <- (Hl b); simpl; auto.
Qed.

(** Claim C2.  For every non-empty input, whenever [compute_pay_gap]
    returns, the group it selected as reference is a group of the
    input whose count, as recorded in [group_stats], is its number of
    observations and is the largest over all groups present: no group
    of the input has more observations, and no entry of [group_stats]
    a larger count.  This holds for every iteration order of the set of
    labels, and with or without timestamps. *)
Theorem reference_group_has_max_count
    (L : Libs) (labels : list string) (salaries : list float)
    (groups : list string) (timestamps : option (list datetime))
    (res : PayGap) :
  groups <> [] ->
  set_order groups labels ->
  compute_pay_gap L labels salaries groups timestamps = Ok res ->
  exists ref st,
    reference_group res = Some ref
    /\ In ref groups
    /\ dict_get ref (group_stats res) = Some st
    /\ count st = observations groups ref
    /\ (forall g, In g groups -> observations groups g <= count st)
    /\ (forall g st', dict_get g (group_stats res) = Some st' ->
                      count st' <= count st).
Proof.
  intros Hne Hset. pose proof Hset as [Hnd Hin]. unfold compute_pay_gap.
  destruct (group_statistics_pass _ _ _ _ _) as [[data ref]|e] eqn:P; simpl;
    [|discriminate].
  apply group_statistics_pass_spec in P; [|intros g; apply Hin].
  destruct P as (Hok & Href & Hrin & Hkeys).
  destruct (reference_of_max groups (set_order_nonempty Hset Hne))
    as (r & Hr & Hrl & Hmax).
  rewrite Hr in Href. subst ref.
  destruct (dict_get r data) as [st|] eqn:R; [|now elim (Hrin r eq_refl)].
  destruct (Hok r st R) as (Hrg & Hc & _).
  match goal with |- bind ?m _ = _ -> _ => destruct m as [gs|e] end; simpl;
    [|discriminate].
  intros H. inversion H. subst res. simpl. exists r, st.
  split; [reflexivity|]. split; [exact Hrg|]. split; [exact R|].
  split; [exact Hc|]. split.
  - intros g Hg. rewrite Hc. apply Hmax, Hin, Hg.
  - intros g st' G. destruct (Hok g st' G) as (Hgg & Hgc & _).
    rewrite Hgc, Hc. apply Hmax, Hin, Hgg.
Qed.

(** Claim C7.  For every input with exactly one distinct group label
    [g], whenever [compute_pay_gap] returns, the gaps mapping is empty
    and the reference group is [g]; and it does return when there are
    no timestamps and every observation has a salary. *)
Theorem single_group_has_no_gaps
    (L : Libs) (labels : list string) (salaries : list float)
    (groups : list string) (timestamps : option (list datetime))
    (g : string) :
  groups <> [] ->
  (forall x, In x groups -> x = g) ->
  set_order groups labels ->
  (forall res, compute_pay_gap L labels salaries groups timestamps = Ok res ->
               gaps res = [] /\ reference_group res = Some g)
  /\ (truthy_timestamps timestamps = None ->
      List.length groups <= List.length salaries ->
      returns (compute_pay_gap L labels salaries groups timestamps)).
Proof.
  intros Hne Hall Hset. rewrite (set_order_single Hset Hne Hall).
  assert (Hg : In g groups).
  { destruct groups as [|x groups]; [congruence|].
    rewrite <- (Hall x) by now left. now left. }
  assert (Hshape : forall data ref,
    group_statistics_pass L [g] salaries groups timestamps = Ok (data, ref) ->
    (exists st, data = [(g, st)]) /\ ref = Some g).
  { intros data ref. unfold group_statistics_pass. rewrite foldM_cons.
    destruct (group_stats_step _ _ _ _ _ _) as [[d r]|e] eqn:S; simpl;
      [|discriminate].
    intros H. inversion H. subst. now apply group_stats_step_first in S. }
  split.
  - intros res. unfold compute_pay_gap.
    destruct (group_statistics_pass _ _ _ _ _) as [[data ref]|e] eqn:P; simpl;
      [|discriminate].
    destruct (Hshape _ _ eq_refl) as [[st ->] ->]. simpl.
    rewrite andb_false_r. simpl. intros H. inversion H. auto.
  - intros Ht Hlen. unfold compute_pay_gap.
    destruct (@group_statistics_pass_returns L salaries groups timestamps [g]
                Ht Hlen) as [[data ref] P].
    { intros x [<-|[]]. exact Hg. }
    rewrite P. simpl. destruct (Hshape _ _ P) as [[st ->] ->]. simpl.
    rewrite andb_false_r. simpl. eexists; reflexivity.
Qed.

(** The second loop stops at the first group other than the reference
    when the reference median is zero. *)
Lemma group_gaps_raise L data salaries groups r ref_salaries rst labels :
  dict_get r data = Some rst ->
  is_zero (median_salary rst) = true ->
  (forall k, In k labels -> dict_get k data <> None) ->
  (exists g, In g labels /\ g <> r) ->
  forall gaps0,
    foldM (group_gap_step L data salaries groups r ref_salaries) labels gaps0
    = Raise ZeroDivisionError.
Proof.
  intros R Hz. induction labels as [|k labels IH]; intros Hk [g [Hg Hne]] gaps0.
  - destruct Hg.
  - rewrite foldM_cons. unfold group_gap_step at 1.
    destruct (String.eqb_spec k r) as [->|N]; simpl.
    + apply IH; [intros; apply Hk; now right|].
      exists g. destruct Hg as [<-|Hg]; [congruence|auto].
    + unfold dict_item. rewrite R. simpl.
      destruct (dict_get k data) eqn:K; [|now elim (Hk k (or_introl eq_refl))].
      simpl. unfold Fl.py_div. rewrite Hz. reflexivity.
Qed.

(** Claim C5, amended.  The division by the reference median is not
    guarded.  For every input with at least two distinct groups whose
    reference group (the first largest group in iteration order, with
    a non-empty label) has a median salary equal to zero, and whose
    group statistics are computed without error, [compute_pay_gap]
    returns nothing: it raises [ZeroDivisionError] at the first group
    other than the reference. *)
Theorem zero_reference_median_raises
    (L : Libs) (labels : list string) (salaries : list float)
    (groups : list string) (timestamps : option (list datetime))
    (ref : string) :
  set_order groups labels ->
  returns (group_statistics_pass L labels salaries groups timestamps) ->
  reference_of groups labels = Some ref ->
  ref <> EmptyString ->
  (exists g, In g groups /\ g <> ref) ->
  is_zero (np_median L (salaries_of salaries groups ref)) = true ->
  compute_pay_gap L labels salaries groups timestamps
  = Raise ZeroDivisionError.
Proof.
  intros [Hnd Hin] [[data r] P] Href Hne [g [Hg Hgr]] Hz.
  unfold compute_pay_gap. rewrite P. cbn [bind].
  apply group_statistics_pass_spec in P; [|intros x; apply Hin].
  destruct P as (Hok & Hr & Hrin & Hkeys).
  rewrite Href in Hr. subst r.
  destruct (dict_get ref data) as [rst|] eqn:R; [|now elim (Hrin ref eq_refl)].
  destruct (Hok ref rst R) as (Hrg & _ & Hm).
  assert (T : truthy_opt_str (Some ref) = true).
  { destruct ref; [congruence|reflexivity]. }
  assert (H2 : (2 <=? List.length data)%nat = true).
  { apply Nat.leb_le. apply (@dict_two_keys _ ref g data).
    - congruence.
    - rewrite R. discriminate.
    - apply Hkeys, Hin, Hg. }
  rewrite T, H2. cbn [andb]. unfold _compute_group_gaps.
  erewrite group_gaps_raise; eauto.
  - now rewrite Hm.
  - intros k Hk. now apply Hkeys.
  - exists g. split; [apply Hin, Hg|exact Hgr].
Qed.

(** ** The tied scenario *)

Lemma scenario_orders labels :
  set_order scenario_groups labels ->
  labels = ["A"; "B"]%string \/ labels = ["B"; "A"]%string.
Proof.
  intros [Hnd H].
  assert (HA : In "A"%string labels) by (apply H; simpl; auto).
  assert (HB : In "B"%string labels) by (apply H; simpl; auto).
  assert (Hl : forall x, In x labels -> x = "A"%string \/ x = "B"%string).
  { intros x Hx. apply H in Hx. simpl in Hx. intuition. }
  destruct labels as [|a [|b [|c labels]]].
  - destruct HA.
  - destruct HA as [->|[]]. destruct HB as [E|[]]. discriminate.
  - destruct (Hl a) as [->| ->]; [simpl; auto|simpl; auto|];
      (destruct (Hl b) as [->| ->]; [simpl; auto|simpl; auto|]); auto;
      exfalso; inversion Hnd as [|? ? Hn _]; apply Hn; simpl; auto.
  - exfalso.
    assert (Hinc : incl (a :: b :: c :: labels) ["A"; "B"]%string).
    { intros x Hx. apply Hl in Hx. simpl. intuition. }
    apply (NoDup_incl_length Hnd) in Hinc. simpl in Hinc. lia.
Qed.

Open Scope string_scope.
Open Scope float_scope.

(** Claim C3, amended.  On salaries [50000, 50000, 60000, 60000] with
    groups [A, A, B, B], for a median that is 50000 on the first group
    and 60000 on the second, [compute_pay_gap] returns; both groups
    have count 2, the medians are 50000 and 60000; the tie is won by
    the group iterated first.  When that is A, the only gap is that of
    B and is exactly -20; when it is B, the only gap is that of A and
    is [(60000 - 50000) / 60000 * 100 = 16.666666666666664], not 20. *)
Theorem tied_scenario_gaps (L : Libs) (labels : list string) :
  set_order scenario_groups labels ->
  np_median L [50000; 50000] = 50000 ->
  np_median L [60000; 60000] = 60000 ->
  exists res,
    compute_pay_gap L labels scenario_salaries scenario_groups None = Ok res
    /\ option_map count (dict_get "A" (group_stats res)) = Some 2%nat
    /\ option_map count (dict_get "B" (group_stats res)) = Some 2%nat
    /\ option_map median_salary (dict_get "A" (group_stats res)) = Some 50000
    /\ option_map median_salary (dict_get "B" (group_stats res)) = Some 60000
    /\ ((labels = ["A"; "B"]
         /\ reference_group res = Some "A"
         /\ dict_keys (gaps res) = ["B"]
         /\ option_map gap_percentage (dict_get "B" (gaps res)) = Some (-20))
        \/ (labels = ["B"; "A"]
            /\ reference_group res = Some "B"
            /\ dict_keys (gaps res) = ["A"]
            /\ option_map gap_percentage (dict_get "A" (gaps res))
               = Some 16.666666666666664)).
Proof.
  intros Hset HA HB. destruct L; simpl in HA, HB.
  destruct (scenario_orders Hset) as [-> | ->]; eexists;
    (split; [vm_compute; rewrite ?HA, ?HB; vm_compute; reflexivity|]);
    vm_compute; rewrite ?HA, ?HB; auto 10.
Qed.

(** ** The significance test *)

Section Significance.

Import FlFacts.
Variable L : Libs.
Open Scope float_scope.

Lemma pooled_sd_sym (g1 g2 : list float) : pooled_sd L g2 g1 = pooled_sd L g1 g2.
Proof.
  unfold pooled_sd. rewrite add_comm. do 3 f_equal. lia.
Qed.

Lemma ttest_degrees_of_freedom_sym (a b : list float) :
  ttest_degrees_of_freedom b a = ttest_degrees_of_freedom a b.
Proof. unfold ttest_degrees_of_freedom. now rewrite Z.add_comm. Qed.

Lemma ttest_standard_error_sym (a b : list float) :
  ttest_standard_error L b a = ttest_standard_error L a b.
Proof.
  unfold ttest_standard_error.
  rewrite (ttest_degrees_of_freedom_sym a b).
  rewrite (add_comm (Fl.of_Z (Z.of_nat (List.length b) - 1) * sample_var L b)).
  now rewrite (add_comm (1 / Fl.of_Z (Z.of_nat (List.length b)))).
Qed.

Lemma ttest_ind_swap (a b : list float) :
  negated (fst (ttest_ind L a b)) (fst (ttest_ind L b a))
  /\ snd (ttest_ind L b a) = snd (ttest_ind L a b).
Proof.
  unfold ttest_ind. cbn [fst snd].
  rewrite (ttest_standard_error_sym a b), (ttest_degrees_of_freedom_sym a b).
  set (denom := ttest_standard_error L a b).
  assert (N : negated ((np_mean L a - np_mean L b) / denom)
                      ((np_mean L b - np_mean L a) / denom))
    by apply div_negated, sub_negated.
  split; [exact N|]. now rewrite (negated_abs N).
Qed.

Lemma cohens_d_swap (g1 g2 : list float) :
  negated (cohens_d (compute_statistical_significance L g1 g2))
          (cohens_d (compute_statistical_significance L g2 g1)).
Proof.
  unfold compute_statistical_significance.
  destruct (ttest_ind L g1 g2), (ttest_ind L g2 g1). cbn [cohens_d].
  rewrite (pooled_sd_sym g1 g2). apply div_negated, sub_negated.
Qed.

(** Swapping the groups, without any side condition. *)
Lemma swap_significance (g1 g2 : list float) :
  let a := compute_statistical_significance L g1 g2 in
  let b := compute_statistical_significance L g2 g1 in
  Fl.same (t_statistic b) (- t_statistic a) = true
  /\ Fl.same (cohens_d b) (- cohens_d a) = true
  /\ p_value b = p_value a
  /\ effect_size b = effect_size a
  /\ significant b = significant a.
Proof.
  intros a b. pose proof (cohens_d_swap g1 g2) as D.
  destruct (ttest_ind_swap g1 g2) as [T P].
  subst a b. unfold compute_statistical_significance in *.
  destruct (ttest_ind L g1 g2) as [t1 p1], (ttest_ind L g2 g1) as [t2 p2].
  cbn [t_statistic cohens_d p_value effect_size significant fst snd] in *.
  split; [apply negated_same, T|]. split; [apply negated_same, D|].
  split; [exact P|]. split.
  - unfold interpret_effect_size. now rewrite (negated_abs D).
  - now rewrite P.
Qed.

(** Claim C10.  For every two lists with at least two elements each
    and a non-zero pooled standard deviation, swapping the arguments of
    [compute_statistical_significance] negates [t_statistic] and
    [cohens_d] (as numbers: Python's [==], with NaN matched to NaN) and
    leaves [p_value], [effect_size] and [significant] unchanged. *)
Theorem swapping_groups_negates_statistics (g1 g2 : list float) :
  2 <= List.length g1 -> 2 <= List.length g2 ->
  is_zero (pooled_sd L g1 g2) = false ->
  let a := compute_statistical_significance L g1 g2 in
  let b := compute_statistical_significance L g2 g1 in
  Fl.same (t_statistic b) (- t_statistic a) = true
  /\ Fl.same (cohens_d b) (- cohens_d a) = true
  /\ p_value b = p_value a
  /\ effect_size b = effect_size a
  /\ significant b = significant a.
Proof. intros _ _ _. apply swap_significance. Qed.

(** Claim C1, amended.  The division by the pooled standard deviation
    is not guarded.  For every call where the pooled standard
    deviation is zero and the two means are equal (both groups constant
    and equal), where the t-test's own standard error is then zero as
    well and Student's distribution function propagates NaN,
    [cohens_d] is NaN (zero over zero), not 0; [t_statistic] and
    [p_value] are NaN, the effect size label is "negligible" and
    [significant] is false. *)
Theorem zero_pooled_variance_gives_nan (g1 g2 : list float) :
  is_zero (pooled_sd L g1 g2) = true ->
  is_zero (np_mean L g1 - np_mean L g2) = true ->
  is_zero (ttest_standard_error L g1 g2) = true ->
  (forall df, stdtr L df nan = nan) ->
  let s := compute_statistical_significance L g1 g2 in
  cohens_d s = nan /\ t_statistic s = nan /\ p_value s = nan
  /\ effect_size s = "negligible"%string /\ significant s = false.
Proof.
  intros Hsd Hm Hse Hnan s. subst s.
  unfold compute_statistical_significance, ttest_ind.
  rewrite (div_zero_zero Hm Hsd), (div_zero_zero Hm Hse).
  cbn [cohens_d t_statistic p_value effect_size significant].
  change (abs nan) with nan. change (- nan) with nan. rewrite Hnan.
  repeat split; reflexivity.
Qed.

End Significance.

(** ** Missing dependencies *)

Section Dependencies.

Variable L : Libs.

Lemma compute_bias_metrics_without_fairlearn y_true y_pred sensitive_features :
  fairlearn_available L = false ->
  compute_bias_metrics L y_true y_pred sensitive_features = Raise ImportError.
Proof. intros H. unfold compute_bias_metrics. now rewrite H. Qed.

Lemma compute_temporal_trend_without_sklearn values t ts :
  sklearn_available L = false ->
  compute_temporal_trend L values (t :: ts) = Raise ImportError.
Proof. intros H. unfold compute_temporal_trend. simpl. now rewrite H. Qed.

Lemma compute_temporal_trend_empty values :
  compute_temporal_trend L values [] = Raise ValueError.
Proof. reflexivity. Qed.

(** With timestamps, the first group already needs the regression. *)
Lemma compute_pay_gap_without_sklearn labels salaries groups t ts :
  sklearn_available L = false ->
  set_order groups labels -> groups <> [] ->
  List.length groups <= List.length salaries ->
  List.length groups <= List.length (t :: ts) ->
  compute_pay_gap L labels salaries groups (Some (t :: ts))
  = Raise ImportError.
Proof.
  intros Hs Hset Hne Hsal Hts.
  pose proof (set_order_nonempty Hset Hne) as Hl. destruct Hset as [_ Hin].
  destruct labels as [|g labels]; [congruence|].
  assert (Hg : In g groups) by (apply Hin; now left).
  unfold compute_pay_gap, group_statistics_pass. rewrite foldM_cons.
  unfold group_stats_step at 1.
  destruct (indices_of groups g) as [|i idx] eqn:E.
  { apply observations_pos in Hg. rewrite <- indices_of_length, E in Hg.
    simpl in Hg. lia. }
  rewrite <- E. unfold _compute_group_statistics.
  destruct (mapM_index_of_returns salaries groups g Hsal) as [ys Hys].
  destruct (mapM_index_of_returns (t :: ts) groups g Hts) as [zs Hzs].
  rewrite Hys. cbn [bind truthy_timestamps]. rewrite Hzs. cbn [bind].
  apply mapM_length in Hzs. rewrite E in Hzs.
  destruct zs as [|z zs]; [discriminate|].
  now rewrite compute_temporal_trend_without_sklearn.
Qed.

End Dependencies.

(** Claim C8, amended.  A missing optional dependency is reported by
    an exception, not by a marker in the result and not by omitting
    the branch: without fairlearn every call of [compute_bias_metrics]
    raises [ImportError]; without scikit-learn every call of
    [compute_temporal_trend] on a non-empty series raises
    [ImportError], and so does every call of [compute_pay_gap] that is
    given timestamps for a non-empty input. *)
Theorem missing_dependency_raises_import_error (L : Libs) :
  (fairlearn_available L = false ->
   forall y_true y_pred sensitive_features,
     compute_bias_metrics L y_true y_pred sensitive_features
     = Raise ImportError)
  /\ (sklearn_available L = false ->
      forall values t ts,
        compute_temporal_trend L values (t :: ts) = Raise ImportError)
  /\ (sklearn_available L = false ->
      forall labels salaries groups t ts,
        set_order groups labels -> groups <> [] ->
        List.length groups <= List.length salaries ->
        List.length groups <= List.length (t :: ts) ->
        compute_pay_gap L labels salaries groups (Some (t :: ts))
        = Raise ImportError).
Proof.
  split; [|split].
  - intros H y_true y_pred sf.
    now apply compute_bias_metrics_without_fairlearn.
  - intros H values t ts. now apply compute_temporal_trend_without_sklearn.
  - intros H labels salaries groups t ts.
    now apply compute_pay_gap_without_sklearn.
Qed.

(** ** Recommendations *)

Section Recommendations.

Variable L : Libs.

Lemma in_bias_recommendations r (metrics : dict BiasSummary) : forall acc,
  In r (fold_left
          (fun recs (am : string * BiasSummary) =>
             match significant_disparities (snd am) with
             | [] => recs
             | _ => (recs ++ [bias_recommendation (fst am)])%list
             end)
          metrics acc)
  -> In r acc \/ exists attr, r = bias_recommendation attr.
Proof.
  induction metrics as [|[attr m] metrics IH]; intros acc; simpl; auto.
  intros H. apply IH in H. destruct H as [H|H]; auto.
  destruct (significant_disparities m); auto.
  apply in_app_or in H. destruct H as [H|[<-|[]]]; eauto.
Qed.

Lemma bias_recommendations_keep r (metrics : dict BiasSummary) : forall acc,
  In r acc ->
  In r (fold_left
          (fun recs (am : string * BiasSummary) =>
             match significant_disparities (snd am) with
             | [] => recs
             | _ => (recs ++ [bias_recommendation (fst am)])%list
             end)
          metrics acc).
Proof.
  induction metrics as [|[attr m] metrics IH]; intros acc H; simpl; auto.
  apply IH. destruct (significant_disparities m); auto using in_or_app.
Qed.

(** Where each recommendation of the list comes from. *)
Lemma in_generate_smart_recommendations r analysis :
  In r (generate_smart_recommendations analysis) ->
  (r = pay_equity_recommendation
   /\ Fl.gtb (get_largest_gap (pay_equity analysis)) 5 = true)
  \/ (exists attr, r = bias_recommendation attr)
  \/ (r = trend_recommendation
      /\ get_concerning (trend_analysis analysis) = true).
Proof.
  unfold generate_smart_recommendations. intros H.
  assert (H' : In r (fold_left
          (fun recs (am : string * BiasSummary) =>
             match significant_disparities (snd am) with
             | [] => recs
             | _ => (recs ++ [bias_recommendation (fst am)])%list
             end)
          (da_bias_metrics analysis)
          (if Fl.gtb (get_largest_gap (pay_equity analysis)) 5
           then [pay_equity_recommendation] else []))
        \/ (r = trend_recommendation
            /\ get_concerning (trend_analysis analysis) = true)).
  { destruct (get_concerning (trend_analysis analysis)); auto.
    apply in_app_or in H. destruct H as [H|[<-|[]]]; auto. }
  destruct H' as [H'|H']; auto.
  apply in_bias_recommendations in H'. destruct H' as [H'|H']; auto.
  destruct (Fl.gtb _ 5); [|destruct H'].
  destruct H' as [<-|[]]. auto.
Qed.

Lemma pay_equity_rule analysis :
  has_pay_equity_high (generate_smart_recommendations analysis)
  <-> Fl.gtb (get_largest_gap (pay_equity analysis)) 5 = true.
Proof.
  split.
  - intros (r & Hr & Hc & _). apply in_generate_smart_recommendations in Hr.
    destruct Hr as [[_ H]|[[attr ->]|[-> _]]]; trivial; discriminate.
  - intros H. exists pay_equity_recommendation.
    split; [|split; reflexivity].
    unfold generate_smart_recommendations. rewrite H.
    assert (In pay_equity_recommendation
              (fold_left
                 (fun recs (am : string * BiasSummary) =>
                    match significant_disparities (snd am) with
                    | [] => recs
                    | _ => (recs ++ [bias_recommendation (fst am)])%list
                    end)
                 (da_bias_metrics analysis) [pay_equity_recommendation]))
      by (apply bias_recommendations_keep; now left).
    destruct (get_concerning _); auto using in_or_app.
Qed.

Lemma trend_rule analysis :
  has_category "trend_mitigation" (generate_smart_recommendations analysis)
  <-> get_concerning (trend_analysis analysis) = true.
Proof.
  split.
  - intros (r & Hr & Hc). apply in_generate_smart_recommendations in Hr.
    destruct Hr as [[-> _]|[[attr ->]|[_ H]]]; trivial; discriminate.
  - intros H. exists trend_recommendation. split; [|reflexivity].
    unfold generate_smart_recommendations. rewrite H.
    apply in_or_app. right. now left.
Qed.

(** What the report passes to the rules. *)
Lemma generate_fairness_report_inv now ar rep :
  generate_fairness_report L now ar = Ok rep ->
  recommendations (summary rep)
  = generate_smart_recommendations (detailed_analysis rep)
  /\ pay_equity (detailed_analysis rep)
     = option_map pay_equity_findings (pay_gap ar)
  /\ match trends ar with
     | Some tr =>
         exists lt, identify_long_term_trends L tr 4 = Ok lt
           /\ option_map long_term_trends (trend_analysis (detailed_analysis rep))
              = Some lt
     | None => trend_analysis (detailed_analysis rep) = None
     end.
Proof.
  unfold generate_fairness_report.
  destruct (calculate_overall_fairness_score L ar); [|discriminate].
  cbn [bind].
  match goal with |- bind ?m _ = _ -> _ => destruct m as [bm|] end;
    [|discriminate].
  cbn [bind]. destruct (trends ar) as [tr|].
  - unfold trend_findings.
    destruct (identify_long_term_trends L tr 4) as [lt|]; [|discriminate].
    cbn [bind]. intros H. inversion H. subst rep. simpl. eauto.
  - cbn [bind]. intros H. inversion H. subst rep. simpl. auto.
Qed.

End Recommendations.

(** Claim C9.  For every analysis input that holds a pay-gap result
    and for which the report is produced, the recommendation list
    contains a recommendation of category "pay_equity" and priority
    "high" exactly when the largest gap percentage of the result (the
    maximum of its [gap_percentage] values, 0 when there is none)
    exceeds 5; when no gap percentage is NaN this is exactly when some
    gap percentage exceeds 5. *)
Theorem pay_equity_recommendation_iff_largest_gap_exceeds_5
    (L : Libs) (now : string) (ar : AnalysisResults) (pg : PayGap)
    (rep : Report) :
  pay_gap ar = Some pg ->
  generate_fairness_report L now ar = Ok rep ->
  let percentages := map gap_percentage (dict_values (gaps pg)) in
  (has_pay_equity_high (recommendations (summary rep))
   <-> Fl.gtb (Fl.py_max percentages 0) 5 = true)
  /\ (forallb (fun x => negb (is_nan x)) percentages = true ->
      (has_pay_equity_high (recommendations (summary rep))
       <-> exists x, In x percentages /\ Fl.gtb x 5 = true)).
Proof.
  intros Hpg Hrep percentages.
  apply generate_fairness_report_inv in Hrep.
  destruct Hrep as (-> & Hpe & _). rewrite Hpg in Hpe. simpl in Hpe.
  assert (E : has_pay_equity_high
                (generate_smart_recommendations (detailed_analysis rep))
              <-> Fl.gtb (Fl.py_max percentages 0) 5 = true).
  { rewrite pay_equity_rule, Hpe. reflexivity. }
  split; [exact E|]. intros Hnan. rewrite E.
  rewrite (FlFacts.gtb_py_max _ 0 5 Hnan). split.
  - intros [[_ H]|H]; [discriminate|exact H].
  - auto.
Qed.

(** ** The trend rule *)

Section TrendRule.

Variable L : Libs.

(** The long-term trend report is keyed by metric names only. *)
Lemma long_term_trend_keys (metrics : dict (list float)) k :
  forall acc results,
    foldM
      (fun results (mv : string * list float) =>
         let '(metric_name, values) := mv in
         if (List.length values <? 4)%nat then Ok results
         else
           info <- long_term_trend L values ;;
           Ok (dict_set metric_name info results))
      metrics acc = Ok results ->
    dict_get k results <> None ->
    dict_get k acc <> None \/ dict_get k metrics <> None.
Proof.
  induction metrics as [|[m values] metrics IH]; intros acc results.
  - simpl. intros H. inversion H. auto.
  - rewrite foldM_cons. simpl.
    destruct (List.length values <? 4)%nat.
    + cbn [bind]. intros H Hk. destruct (IH _ _ H Hk) as [H'|H']; auto.
      right. destruct (String.eqb m k); [discriminate|exact H'].
    + destruct (long_term_trend L values) as [info|]; [|discriminate].
      cbn [bind]. intros H Hk. destruct (IH _ _ H Hk) as [H'|H'].
      * rewrite dict_get_set in H'.
        destruct (String.eqb m k); [right; discriminate|auto].
      * right. destruct (String.eqb m k); [discriminate|exact H'].
Qed.

(** The rule reads the key ["concerning"] of the trend report, so it
    can only fire for a metric that is itself named "concerning", and
    then it fires whatever the trend of that metric is. *)
Lemma trend_rule_needs_metric_named_concerning now ar rep :
  generate_fairness_report L now ar = Ok rep ->
  has_category "trend_mitigation" (recommendations (summary rep)) ->
  exists tr metrics values,
    trends ar = Some tr
    /\ historical_metrics tr = Some metrics
    /\ dict_get "concerning" metrics = Some values.
Proof.
  intros Hrep Hcat. apply generate_fairness_report_inv in Hrep.
  destruct Hrep as (Hrecs & _ & Htr). rewrite Hrecs in Hcat.
  apply trend_rule in Hcat. unfold get_concerning in Hcat.
  destruct (trends ar) as [tr|].
  - destruct Htr as (lt & Hlt & Hta).
    destruct (trend_analysis (detailed_analysis rep)) as [ta|];
      [|discriminate].
    simpl in Hta. inversion Hta. subst lt. clear Hta.
    unfold identify_long_term_trends in Hlt.
    destruct (historical_metrics tr) as [metrics|] eqn:Hm.
    + match type of Hlt with bind ?m _ = _ => destruct m as [results|] eqn:F end;
        [|discriminate].
      cbn [bind] in Hlt. inversion Hlt as [Hl]. rewrite <- Hl in Hcat.
      destruct (dict_get "concerning" results) eqn:K; [|discriminate].
      destruct (long_term_trend_keys metrics "concerning" _ F) as [H|H].
      * rewrite K. discriminate.
      * simpl in H. now elim H.
      * destruct (dict_get "concerning" metrics) as [values|] eqn:V;
          [|now elim H].
        exists tr, metrics, values. auto.
    + inversion Hlt as [Hl]. rewrite <- Hl in Hcat. discriminate.
  - rewrite Htr in Hcat. discriminate.
Qed.

End TrendRule.

(** Claim C4: the code at an input with a long-term worsening trend.
    The history 1, 2, 3, 4 has slope 1 and R-squared 1, and
    [identify_long_term_trends] marks it as concerning; the report
    nevertheless carries no recommendation at all, hence none of
    category "trend_mitigation". *)
Theorem worsening_trend_gets_no_recommendation (now : string) :
  exists rep info,
    generate_fairness_report Ref.libs now worsening_trend_input = Ok rep
    /\ option_map long_term_trends (trend_analysis (detailed_analysis rep))
       = Some (PerMetric [("pay_gap_pct"%string, info)])
    /\ strength info = 1%float
    /\ significance info = 1%float
    /\ concerning info = true
    /\ recommendations (summary rep) = [].
Proof.
  do 2 eexists. split; [vm_compute; reflexivity|].
  vm_compute. repeat split; reflexivity.
Qed.

(** ** The fairness score *)

Lemma fairness_score_without_components (L : Libs) (ar : AnalysisResults) :
  pay_gap ar = None -> bias_metrics ar = None -> trends ar = None ->
  calculate_overall_fairness_score L ar = Ok 0%float.
Proof.
  intros H1 H2 H3. unfold calculate_overall_fairness_score, score_components.
  now rewrite H1, H2, H3.
Qed.

(** Claim C6: the code at an input whose bias metrics are 2.  The
    bias sub-score [1 - |2|] is [-1] and is not clamped, so the score
    is [-1], outside the interval from 0 to 1; with NaN metrics the
    score is NaN. *)
Theorem fairness_score_can_be_negative :
  calculate_overall_fairness_score Ref.libs out_of_range_bias_input
  = Ok (-1)%float
  /\ ((-1) <? 0)%float = true
  /\ calculate_overall_fairness_score Ref.libs nan_bias_input = Ok nan.
Proof. repeat split; vm_compute; reflexivity. Qed.

(** ** The theorems at concrete inputs *)

Lemma set_order_BA_AAB :
  set_order ["A"; "A"; "B"] ["B"; "A"].
Proof.
  split.
  - repeat constructor; simpl; intuition discriminate.
  - intros g. simpl. intuition.
Defined.

Lemma set_order_BA_scenario : set_order scenario_groups ["B"; "A"].
Proof.
  split.
  - repeat constructor; simpl; intuition discriminate.
  - intros g. simpl. intuition.
Defined.

Lemma set_order_A_AA : set_order ["A"; "A"] ["A"].
Proof.
  split.
  - repeat constructor; simpl; intuition.
  - intros g. simpl. intuition.
Defined.

(** Two identical constant groups: Cohen's d is NaN, not 0. *)
Lemma identical_salaries_cohens_d_is_nan :
  is_zero (pooled_sd Ref.libs [50000; 50000] [50000; 50000]) = true
  /\ is_nan (cohens_d (compute_statistical_significance
                         Ref.libs [50000; 50000] [50000; 50000])) = true
  /\ (cohens_d (compute_statistical_significance
                  Ref.libs [50000; 50000] [50000; 50000]) =? 0) = false.
Proof. repeat split; vm_compute; reflexivity. Defined.

Lemma zero_pooled_variance_gives_nan_witness :
  let s := compute_statistical_significance
             Ref.libs [50000; 50000] [50000; 50000] in
  cohens_d s = nan /\ t_statistic s = nan /\ p_value s = nan
  /\ effect_size s = "negligible" /\ significant s = false.
Proof.
  apply (@zero_pooled_variance_gives_nan Ref.libs [50000; 50000] [50000; 50000]).
  - vm_compute; reflexivity.
  - vm_compute; reflexivity.
  - vm_compute; reflexivity.
  - intros df. simpl. unfold Ref.student_cdf.
    change (is_nan nan) with true. now rewrite orb_true_r.
Defined.

Lemma reference_group_has_max_count_witness :
  exists res,
    compute_pay_gap Ref.libs ["B"; "A"] [1; 2; 3] ["A"; "A"; "B"] None = Ok res
    /\ exists ref st,
         reference_group res = Some ref
         /\ In ref ["A"; "A"; "B"]
         /\ dict_get ref (group_stats res) = Some st
         /\ count st = observations ["A"; "A"; "B"] ref
         /\ (forall g, In g ["A"; "A"; "B"] ->
                       observations ["A"; "A"; "B"] g <= count st)
         /\ (forall g st', dict_get g (group_stats res) = Some st' ->
                           count st' <= count st).
Proof.
  eexists. split; [vm_compute; reflexivity|].
  apply (@reference_group_has_max_count
           Ref.libs ["B"; "A"] [1; 2; 3] ["A"; "A"; "B"] None).
  - discriminate.
  - exact set_order_BA_AAB.
  - vm_compute; reflexivity.
Defined.

(** With B iterated first, B is the reference and the gap of A is
    16.67 percent: neither 20 nor -20. *)
Lemma tied_scenario_gap_is_not_20 :
  exists res gap,
    compute_pay_gap Ref.libs ["B"; "A"] scenario_salaries scenario_groups None
    = Ok res
    /\ reference_group res = Some "B"
    /\ dict_get "A" (gaps res) = Some gap
    /\ (gap_percentage gap =? 20) = false
    /\ (gap_percentage gap =? -20) = false.
Proof.
  do 2 eexists. split; [vm_compute; reflexivity|].
  repeat split; vm_compute; reflexivity.
Defined.

Lemma tied_scenario_gaps_witness :
  exists res,
    compute_pay_gap Ref.libs ["B"; "A"] scenario_salaries scenario_groups None
    = Ok res
    /\ option_map count (dict_get "A" (group_stats res)) = Some 2%nat
    /\ option_map count (dict_get "B" (group_stats res)) = Some 2%nat
    /\ option_map median_salary (dict_get "A" (group_stats res)) = Some 50000
    /\ option_map median_salary (dict_get "B" (group_stats res)) = Some 60000
    /\ ((["B"; "A"] = ["A"; "B"]
         /\ reference_group res = Some "A"
         /\ dict_keys (gaps res) = ["B"]
         /\ option_map gap_percentage (dict_get "B" (gaps res)) = Some (-20))
        \/ (["B"; "A"] = ["B"; "A"]
            /\ reference_group res = Some "B"
            /\ dict_keys (gaps res) = ["A"]
            /\ option_map gap_percentage (dict_get "A" (gaps res))
               = Some 16.666666666666664)).
Proof.
  apply (@tied_scenario_gaps Ref.libs ["B"; "A"]).
  - exact set_order_BA_scenario.
  - vm_compute; reflexivity.
  - vm_compute; reflexivity.
Defined.

(** The reference group A has median 0: the call raises. *)
Lemma zero_median_reference_crashes :
  (np_median Ref.libs [0; 0] =? 0) = true
  /\ compute_pay_gap Ref.libs ["A"; "B"] [0; 0; 5] ["A"; "A"; "B"] None
     = Raise ZeroDivisionError
  /\ compute_pay_gap Ref.libs ["B"; "A"] [0; 0; 5] ["A"; "A"; "B"] None
     = Raise ZeroDivisionError.
Proof. repeat split; vm_compute; reflexivity. Defined.

Lemma zero_reference_median_raises_witness :
  compute_pay_gap Ref.libs ["B"; "A"] [0; 0; 5] ["A"; "A"; "B"] None
  = Raise ZeroDivisionError.
Proof.
  apply (@zero_reference_median_raises
           Ref.libs ["B"; "A"] [0; 0; 5] ["A"; "A"; "B"] None "A").
  - exact set_order_BA_AAB.
  - eexists. vm_compute. reflexivity.
  - vm_compute; reflexivity.
  - discriminate.
  - exists "B". split; [simpl; auto|discriminate].
  - vm_compute; reflexivity.
Defined.

Lemma single_group_has_no_gaps_witness :
  (forall res,
      compute_pay_gap Ref.libs ["A"] [1; 2] ["A"; "A"] None = Ok res ->
      gaps res = [] /\ reference_group res = Some "A")
  /\ (truthy_timestamps None = None ->
      List.length ["A"; "A"] <= List.length [1; 2] ->
      returns (compute_pay_gap Ref.libs ["A"] [1; 2] ["A"; "A"] None)).
Proof.
  apply (@single_group_has_no_gaps Ref.libs ["A"] [1; 2] ["A"; "A"] None "A").
  - discriminate.
  - simpl. intuition.
  - exact set_order_A_AA.
Defined.

(** Without the optional libraries both branches raise. *)
Lemma absent_library_call_raises :
  compute_bias_metrics Ref.libs [1; 0; 1; 0]%Z [1; 0; 0; 1]%Z
                       [("gender", ["F"; "F"; "M"; "M"])]
  = Raise ImportError
  /\ compute_temporal_trend Ref.libs_without_sklearn [1; 2]
                            [0; 86400000000]%Z
     = Raise ImportError.
Proof. split; vm_compute; reflexivity. Defined.

Lemma missing_dependency_raises_import_error_witness :
  compute_bias_metrics Ref.libs_without_sklearn [1; 0; 1; 0]%Z [1; 0; 0; 1]%Z
                       [("gender", ["F"; "F"; "M"; "M"])]
  = Raise ImportError
  /\ compute_temporal_trend Ref.libs_without_sklearn [1; 2]
                            [0; 86400000000]%Z
     = Raise ImportError
  /\ compute_pay_gap Ref.libs_without_sklearn ["A"] [1; 2] ["A"; "A"]
                     (Some [0; 86400000000]%Z)
     = Raise ImportError.
Proof.
  destruct (missing_dependency_raises_import_error Ref.libs_without_sklearn)
    as (H1 & H2 & H3).
  split; [|split].
  - apply H1. reflexivity.
  - apply H2. reflexivity.
  - apply H3.
    + reflexivity.
    + exact set_order_A_AA.
    + discriminate.
    + simpl. lia.
    + simpl. lia.
Defined.

Lemma pay_equity_recommendation_iff_witness :
  exists rep,
    generate_fairness_report Ref.libs "2024-01-01T00:00:00" example_analysis
    = Ok rep
    /\ (has_pay_equity_high (recommendations (summary rep))
        <-> Fl.gtb (Fl.py_max [10] 0) 5 = true)
    /\ (forallb (fun x => negb (is_nan x)) [10] = true ->
        (has_pay_equity_high (recommendations (summary rep))
         <-> exists x, In x [10] /\ Fl.gtb x 5 = true)).
Proof.
  eexists. split; [vm_compute; reflexivity|].
  apply (@pay_equity_recommendation_iff_largest_gap_exceeds_5
           Ref.libs "2024-01-01T00:00:00" example_analysis example_pay_gap).
  - reflexivity.
  - vm_compute; reflexivity.
Defined.

Lemma swapping_groups_negates_statistics_witness :
  let a := compute_statistical_significance Ref.libs [1; 2; 3; 4] [2; 3; 4; 7] in
  let b := compute_statistical_significance Ref.libs [2; 3; 4; 7] [1; 2; 3; 4] in
  Fl.same (t_statistic b) (- t_statistic a) = true
  /\ Fl.same (cohens_d b) (- cohens_d a) = true
  /\ p_value b = p_value a
  /\ effect_size b = effect_size a
  /\ significant b = significant a.
Proof.
  apply (@swapping_groups_negates_statistics Ref.libs [1; 2; 3; 4] [2; 3; 4; 7]).
  - simpl. lia.
  - simpl. lia.
  - vm_compute; reflexivity.
Defined.


(** * Further properties of the pay-gap computation *)

(** ** Dictionaries keep insertion order *)

Lemma dict_get_none_keys {V} (k : string) (d : dict V) :
  dict_get k d = None <-> ~ In k (dict_keys d).
Proof.
  induction d as [|[k' v] d IH]; simpl.
  - tauto.
  - destruct (String.eqb_spec k' k) as [->|N].
    + split; [discriminate|]. intros H. elim H. now left.
    + rewrite IH. tauto.
Qed.

Lemma dict_set_fresh {V} (k : string) (v : V) (d : dict V) :
  ~ In k (dict_keys d) -> dict_set k v d = (d ++ [(k, v)])%list.
Proof.
  induction d as [|[k' v'] d IH]; simpl; intros H; trivial.
  destruct (String.eqb_spec k' k) as [->|N].
  - elim H. now left.
  - f_equal. apply IH. tauto.
Qed.

Lemma dict_keys_set_fresh {V} (k : string) (v : V) (d : dict V) :
  ~ In k (dict_keys d) -> dict_keys (dict_set k v d) = (dict_keys d ++ [k])%list.
Proof.
  intros H. rewrite (@dict_set_fresh _ k v d H). unfold dict_keys.
  now rewrite map_app.
Qed.

Lemma dict_keys_set_present {V} (k : string) (v : V) (d : dict V) :
  In k (dict_keys d) -> dict_keys (dict_set k v d) = dict_keys d.
Proof.
  induction d as [|[k' v'] d IH]; simpl; intros H; [destruct H|].
  destruct (String.eqb_spec k' k) as [->|N]; simpl; trivial.
  f_equal. apply IH. destruct H; congruence.
Qed.

(** ** The first loop in full *)

Section FirstLoop.

Variable L : Libs.
Variables (salaries : list float) (groups : list string).
Variable timestamps : option (list datetime).

Lemma group_stats_step_keys data ref g data' ref' :
  In g groups ->
  group_stats_step L salaries groups timestamps (data, ref) g = Ok (data', ref') ->
  ~ In g (dict_keys data) ->
  dict_keys data' = (dict_keys data ++ [g])%list.
Proof.
  intros Hg. unfold group_stats_step.
  destruct (indices_of groups g) as [|i idx] eqn:E.
  { apply observations_pos in Hg. rewrite <- indices_of_length, E in Hg.
    simpl in Hg. lia. }
  rewrite <- E.
  destruct (_compute_group_statistics _ _ _ _) as [st|e]; [|discriminate].
  cbn [bind]. intros H Hfresh.
  assert (data' = dict_set g st data).
  { destruct ref as [r|].
    - destruct (dict_item r (dict_set g st data)); [|discriminate].
      cbn [bind] in H. destruct (_ <? _)%nat; now inversion H.
    - now inversion H. }
  subst data'. now apply dict_keys_set_fresh.
Qed.

Lemma group_stats_loop_keys labels : forall data ref data' ref',
  (forall g, In g labels -> In g groups) ->
  NoDup labels ->
  (forall g, In g labels -> ~ In g (dict_keys data)) ->
  foldM (group_stats_step L salaries groups timestamps) labels (data, ref)
  = Ok (data', ref') ->
  dict_keys data' = (dict_keys data ++ labels)%list.
Proof.
  induction labels as [|g labels IH]; intros data ref data' ref' Hin Hnd Hfresh.
  - simpl. intros H. inversion H. now rewrite app_nil_r.
  - rewrite foldM_cons.
    destruct (group_stats_step _ _ _ _ _ _) as [[d1 r1]|e] eqn:S;
      [|discriminate].
    cbn [bind]. intros H.
    apply group_stats_step_keys in S; [|apply Hin; now left|apply Hfresh; now left].
    inversion Hnd as [|? ? Hg Hnd']. subst.
    apply IH in H; trivial.
    + rewrite H, S, <- app_assoc. reflexivity.
    + intros x Hx. apply Hin. now right.
    + intros x Hx. rewrite S. intros Hi. apply in_app_or in Hi.
      destruct Hi as [Hi|[<-|[]]]; [|contradiction].
      apply (Hfresh x); [now right|exact Hi].
Qed.

Lemma group_statistics_pass_keys labels data ref :
  (forall g, In g labels -> In g groups) -> NoDup labels ->
  group_statistics_pass L labels salaries groups timestamps = Ok (data, ref) ->
  dict_keys data = labels.
Proof.
  intros Hin Hnd H. apply group_stats_loop_keys in H; auto.
Qed.

End FirstLoop.

(** ** The selection rule keeps the first of the largest groups *)

Lemma fold_select_first groups labels : forall b r,
  fold_left (select groups) labels (Some b) = Some r ->
  (r = b /\ forall g, In g labels -> observations groups g <= observations groups b)
  \/ exists l1 l2,
       labels = (l1 ++ r :: l2)%list
       /\ observations groups b < observations groups r
       /\ (forall g, In g l1 -> observations groups g < observations groups r)
       /\ (forall g, In g l2 -> observations groups g <= observations groups r).
Proof.
  induction labels as [|g labels IH]; intros b r; simpl.
  - intros H. inversion H. left. split; [reflexivity|]. now intros g [].
  - destruct (observations groups b <? observations groups g)%nat eqn:E.
    + apply Nat.ltb_lt in E. intros H. right.
      destruct (IH _ _ H) as [[-> Hle]|(l1 & l2 & -> & Hlt & H1 & H2)].
      * exists [], labels. simpl. repeat split; auto. now intros x [].
      * exists (g :: l1), l2. simpl. repeat split; auto; [lia|].
        intros x [<-|Hx]; auto.
    + apply Nat.ltb_ge in E. intros H.
      destruct (IH _ _ H) as [[-> Hle]|(l1 & l2 & -> & Hlt & H1 & H2)].
      * left. split; [reflexivity|]. intros x [<-|Hx]; auto.
      * right. exists (g :: l1), l2. simpl. repeat split; auto.
        intros x [<-|Hx]; auto. lia.
Qed.

Lemma reference_of_first groups labels r :
  reference_of groups labels = Some r ->
  exists l1 l2,
    labels = (l1 ++ r :: l2)%list
    /\ (forall g, In g l1 -> observations groups g < observations groups r)
    /\ (forall g, In g l2 -> observations groups g <= observations groups r).
Proof.
  unfold reference_of. destruct labels as [|b labels]; [discriminate|].
  simpl. intros H.
  destruct (fold_select_first _ _ _ H) as [[-> Hle]|(l1 & l2 & -> & Hlt & H1 & H2)].
  - exists [], labels. simpl. repeat split; auto. now intros x [].
  - exists (b :: l1), l2. simpl. repeat split; auto.
    intros x [<-|Hx]; auto.
Qed.

(** Property X1.  Whenever [compute_pay_gap] returns with a reference
    group, that group is the first, in the iteration order of
    [set(groups)], among the groups with the most observations: every
    label iterated before it has strictly fewer observations and every
    label iterated after it has at most as many. *)
Theorem reference_group_is_first_largest
    (L : Libs) (labels : list string) (salaries : list float)
    (groups : list string) (timestamps : option (list datetime))
    (res : PayGap) (ref : string) :
  set_order groups labels ->
  compute_pay_gap L labels salaries groups timestamps = Ok res ->
  reference_group res = Some ref ->
  exists before after,
    labels = (before ++ ref :: after)%list
    /\ (forall g, In g before ->
                  observations groups g < observations groups ref)
    /\ (forall g, In g after ->
                  observations groups g <= observations groups ref).
Proof.
  intros [Hnd Hin]. unfold compute_pay_gap.
  destruct (group_statistics_pass _ _ _ _ _) as [[data r]|e] eqn:P;
    [|discriminate].
  cbn [bind].
  apply group_statistics_pass_spec in P; [|intros g; apply Hin].
  destruct P as (_ & Hr & _).
  match goal with |- bind ?m _ = _ -> _ => destruct m as [gs|e] end;
    [|discriminate].
  cbn [bind]. intros H. inversion H. subst res. simpl. intros Href.
  subst r. symmetry in Href. now apply reference_of_first.
Qed.

(** ** Counts add up *)


Lemma sum_indicator (x : string) labels :
  NoDup labels -> In x labels ->
  sum_nat (map (fun g => if string_dec x g then 1%nat else 0%nat) labels) = 1%nat.
Proof.
  induction labels as [|g labels IH]; intros Hnd Hx; [destruct Hx|].
  inversion Hnd as [|? ? Hg Hnd']. subst. simpl.
  destruct (string_dec x g) as [->|N].
  - f_equal. clear IH Hx Hnd Hnd'. induction labels as [|y labels IH]; trivial.
    simpl. destruct (string_dec g y) as [->|N].
    + elim Hg. now left.
    + apply IH. intros H. apply Hg. now right.
  - apply IH; trivial. destruct Hx; congruence.
Qed.

Lemma sum_nat_add {A} (f h : A -> nat) xs :
  sum_nat (map (fun x => (f x + h x)%nat) xs)
  = (sum_nat (map f xs) + sum_nat (map h xs))%nat.
Proof. induction xs; simpl; lia. Qed.

Lemma sum_observations groups labels :
  set_order groups labels ->
  sum_nat (map (observations groups) labels) = List.length groups.
Proof.
  intros [Hnd Hin].
  assert (Hc : forall g, In g groups -> In g labels) by (intros; now apply Hin).
  clear Hin. induction groups as [|x groups IH]; simpl.
  - clear. induction labels as [|a labels IH]; simpl; auto.
  - unfold observations in *. simpl.
    rewrite (map_ext _ (fun g => ((if string_dec x g then 1 else 0)
                                  + count_occ string_dec groups g)%nat)).
    2:{ intros g. destruct (string_dec x g); lia. }
    rewrite sum_nat_add, sum_indicator; trivial.
    + simpl. f_equal. apply IH. intros g Hg. apply Hc. now right.
    + apply Hc. now left.
Qed.

Lemma dict_get_some_keys {V} (k : string) (v : V) (d : dict V) :
  dict_get k d = Some v -> In k (dict_keys d).
Proof.
  intros H. destruct (in_dec string_dec k (dict_keys d)) as [Hi|Hn]; trivial.
  apply dict_get_none_keys in Hn. congruence.
Qed.

Lemma counts_of_data groups (data : dict GroupStats) :
  (forall g st, dict_get g data = Some st -> count st = observations groups g) ->
  NoDup (dict_keys data) ->
  map count (dict_values data) = map (observations groups) (dict_keys data).
Proof.
  induction data as [|[k v] data IH]; intros H Hnd; simpl; trivial.
  inversion Hnd as [|? ? Hk Hnd']. subst. f_equal.
  - apply H. simpl. now rewrite String.eqb_refl.
  - apply IH; trivial. intros g st Hg. apply H. simpl.
    destruct (String.eqb_spec k g) as [->|N]; trivial.
    elim Hk. eapply dict_get_some_keys; eauto.
Qed.

(** Property X2.  Whenever [compute_pay_gap] returns, [group_stats]
    has exactly one entry per distinct group label, in iteration
    order; the recorded counts are the numbers of observations of the
    groups, and they add up to the number of observations. *)
Theorem group_counts_add_up
    (L : Libs) (labels : list string) (salaries : list float)
    (groups : list string) (timestamps : option (list datetime))
    (res : PayGap) :
  set_order groups labels ->
  compute_pay_gap L labels salaries groups timestamps = Ok res ->
  dict_keys (group_stats res) = labels
  /\ map count (dict_values (group_stats res))
     = map (observations groups) labels
  /\ sum_nat (map count (dict_values (group_stats res))) = List.length groups.
Proof.
  intros Hset. pose proof Hset as [Hnd Hin]. unfold compute_pay_gap.
  destruct (group_statistics_pass _ _ _ _ _) as [[data r]|e] eqn:P;
    [|discriminate].
  cbn [bind].
  pose proof P as K. apply group_statistics_pass_keys in K;
    [|intros g; apply Hin|exact Hnd].
  apply group_statistics_pass_spec in P; [|intros g; apply Hin].
  destruct P as (Hok & _).
  match goal with |- bind ?m _ = _ -> _ => destruct m as [gs|e] end;
    [|discriminate].
  cbn [bind]. intros H. inversion H. subst res. simpl.
  assert (C : map count (dict_values data) = map (observations groups) labels).
  { rewrite <- K. apply counts_of_data; [|now rewrite K].
    intros g st Hg. now destruct (Hok g st Hg) as (_ & Hc & _). }
  split; [exact K|]. split; [exact C|].
  rewrite C. now apply sum_observations.
Qed.

(** ** The second loop in full *)

Section SecondLoop.

Variable L : Libs.
Variable data : dict GroupStats.
Variables (salaries : list float) (groups : list string).
Variable r : string.
Variable rs : list float.

Lemma group_gap_step_other g gaps0 gaps1 :
  g <> r ->
  group_gap_step L data salaries groups r rs gaps0 g = Ok gaps1 ->
  exists rst gst,
    dict_get r data = Some rst /\ dict_get g data = Some gst
    /\ is_zero (median_salary rst) = false
    /\ gaps1 = dict_set g (gap_of L salaries groups r rs rst gst g) gaps0.
Proof.
  intros N. unfold group_gap_step, dict_item, Fl.py_div.
  destruct (String.eqb_spec g r) as [E|_]; [contradiction|].
  destruct (dict_get r data) as [rst|]; [|discriminate].
  destruct (dict_get g data) as [gst|]; [|discriminate].
  cbn [bind]. destruct (is_zero (median_salary rst)) eqn:Z; [discriminate|].
  cbn [bind]. intros H. inversion H. exists rst, gst. auto.
Qed.

Lemma group_gaps_loop labels : forall gaps0 gaps1,
  foldM (group_gap_step L data salaries groups r rs) labels gaps0 = Ok gaps1 ->
  NoDup labels ->
  (forall g, In g labels -> ~ In g (dict_keys gaps0)) ->
  dict_keys gaps1 = (dict_keys gaps0 ++ other_than r labels)%list
  /\ forall g gap, dict_get g gaps1 = Some gap ->
       dict_get g gaps0 = Some gap
       \/ (In g labels /\ g <> r
           /\ exists rst gst,
                dict_get r data = Some rst /\ dict_get g data = Some gst
                /\ is_zero (median_salary rst) = false
                /\ gap = gap_of L salaries groups r rs rst gst g).
Proof.
  induction labels as [|g labels IH]; intros gaps0 gaps1 H Hnd Hfresh.
  - simpl in H. inversion H. simpl. rewrite app_nil_r. auto.
  - rewrite foldM_cons in H.
    destruct (group_gap_step _ _ _ _ _ _ _ _) as [gaps'|e] eqn:S;
      [|discriminate].
    cbn [bind] in H. inversion Hnd as [|? ? Hg Hnd']. subst.
    destruct (String.eqb_spec g r) as [E|N].
    + assert (gaps' = gaps0).
      { unfold group_gap_step in S. subst g. rewrite String.eqb_refl in S.
        now inversion S. }
      subst gaps'. destruct (IH _ _ H Hnd') as [K G].
      { intros x Hx. apply Hfresh. now right. }
      split.
      * rewrite K. simpl. subst g. now rewrite String.eqb_refl.
      * intros x gap Hx. destruct (G x gap Hx) as [?|(?&?&?)]; auto.
        right. split; [now right|auto].
    + destruct (group_gap_step_other _ N S) as (rst & gst & R & G0 & Z & ->).
      destruct (IH _ _ H Hnd') as [K G].
      { intros x Hx. rewrite dict_keys_set_fresh by (apply Hfresh; now left).
        intros Hi. apply in_app_or in Hi. destruct Hi as [Hi|[<-|[]]].
        - apply (Hfresh x); [now right|exact Hi].
        - contradiction. }
      split.
      * rewrite K, dict_keys_set_fresh by (apply Hfresh; now left).
        simpl. destruct (String.eqb_spec g r); [contradiction|]. simpl.
        now rewrite <- app_assoc.
      * intros x gap Hx. destruct (G x gap Hx) as [Hx'|(?&?&?)].
        -- rewrite dict_get_set in Hx'.
           destruct (String.eqb_spec g x) as [<-|Nx]; auto.
           inversion Hx'. right. split; [now left|]. split; [exact N|].
           exists rst, gst. auto.
        -- right. split; [now right|auto].
Qed.

Lemma group_gaps_loop_returns labels rst : forall gaps0,
  dict_get r data = Some rst ->
  is_zero (median_salary rst) = false ->
  (forall g, In g labels -> dict_get g data <> None) ->
  returns (foldM (group_gap_step L data salaries groups r rs) labels gaps0).
Proof.
  intros gaps0 R Hz. revert gaps0.
  induction labels as [|g labels IH]; intros gaps0 Hd.
  - eexists; reflexivity.
  - rewrite foldM_cons. unfold group_gap_step at 1, dict_item, Fl.py_div.
    destruct (String.eqb g r).
    + cbn [bind]. apply IH. intros x Hx. apply Hd. now right.
    + rewrite R. cbn [bind].
      destruct (dict_get g data) as [gst|] eqn:G;
        [|now elim (Hd g (or_introl eq_refl))].
      cbn [bind]. rewrite Hz. cbn [bind]. apply IH.
      intros x Hx. apply Hd. now right.
Qed.

End SecondLoop.

(** ** More binary64 facts *)

Lemma is_nan_false_spec (x : float) :
  is_nan x = false <-> Prim2SF x <> S754_nan.
Proof.
  destruct (is_nan x) eqn:E.
  - apply FlFacts.is_nan_spec in E. subst x. split; [discriminate|].
    intros H. elim H. reflexivity.
  - split; [|reflexivity]. intros _ H.
    assert (x = nan) by (apply Prim2SF_inj; rewrite H; reflexivity).
    apply FlFacts.is_nan_spec in H0. congruence.
Qed.

Lemma finite_nonzero_spec (x : float) :
  is_finite x = true -> is_zero x = false ->
  exists s m e, Prim2SF x = S754_finite s m e.
Proof.
  unfold is_finite. intros Hf Hz. apply negb_true_iff, orb_false_iff in Hf.
  destruct Hf as [Hn Hi]. apply is_nan_false_spec in Hn.
  unfold is_infinity in Hi. rewrite eqb_spec, abs_spec in Hi.
  destruct (Prim2SF x) as [s|s| |s m e] eqn:E.
  - assert (is_zero x = true) by (apply FlFacts.is_zero_spec; eauto).
    congruence.
  - discriminate.
  - congruence.
  - eauto.
Qed.

(** [(m - m) / m * 100] is zero for a finite non-zero [m]. *)
Lemma self_gap_is_zero (m : float) :
  is_finite m = true -> is_zero m = false ->
  is_zero ((m - m) / m * 100) = true.
Proof.
  intros Hf Hz. destruct (finite_nonzero_spec Hf Hz) as (s & mm & e & E).
  apply FlFacts.is_zero_spec.
  rewrite mul_spec, div_spec, sub_spec, E.
  change (Prim2SF 100) with (S754_finite false 7036874417766400 (-46)).
  unfold SF64sub. cbn [SFsub]. rewrite Z.sub_diag. cbn.
  eexists. reflexivity.
Qed.

(** [x <= y] fails exactly when one is NaN or [y < x]. *)
Lemma SFleb_SFltb x y :
  x <> S754_nan -> y <> S754_nan -> SFleb x y = negb (SFltb y x).
Proof.
  unfold SFleb, SFltb.
  destruct x as [sx|sx| |sx mx ex], y as [sy|sy| |sy my ey]; simpl;
    intros Hx Hy; try congruence;
    try destruct sx; try destruct sy; simpl; try reflexivity;
    rewrite (Z.compare_antisym ex ey),
      (Pos.compare_cont_spec mx my Eq), (Pos.compare_cont_spec my mx Eq),
      (Pos.compare_antisym mx my);
    simpl; destruct (ex ?= ey)%Z; simpl; try reflexivity;
    destruct (mx ?= my)%positive; reflexivity.
Qed.

Lemma leb_negb_ltb (x y : float) :
  is_nan x = false -> is_nan y = false -> (x <=? y) = negb (y <? x).
Proof.
  rewrite !is_nan_false_spec, leb_spec, ltb_spec. apply SFleb_SFltb.
Qed.

Lemma leb_nan_l (y : float) : (nan <=? y) = false.
Proof. rewrite leb_spec. reflexivity. Qed.

Lemma leb_nan_r (x : float) : (x <=? nan) = false.
Proof. rewrite leb_spec. change (Prim2SF nan) with S754_nan.
  unfold SFleb. destruct (Prim2SF x); reflexivity. Qed.

Lemma ltb_nan_l (y : float) : (nan <? y) = false.
Proof. rewrite ltb_spec. reflexivity. Qed.

Lemma abs_not_nan (x : float) : is_nan x = false -> is_nan (abs x) = false.
Proof.
  rewrite !is_nan_false_spec, abs_spec. destruct (Prim2SF x); simpl; congruence.
Qed.

(** [c <= a] and [a <= b] give [c <= b]. *)

(** ** What [compute_pay_gap] returns *)

Section PayGapResult.

Variable L : Libs.
Variables (labels : list string) (salaries : list float).
Variable groups : list string.
Variable timestamps : option (list datetime).

Lemma compute_pay_gap_inv res :
  set_order groups labels ->
  compute_pay_gap L labels salaries groups timestamps = Ok res ->
  exists data gs,
    group_statistics_pass L labels salaries groups timestamps
    = Ok (data, reference_of groups labels)
    /\ res = {| group_stats := data; gaps := gs;
                reference_group := reference_of groups labels |}
    /\ stats_ok L salaries groups data
    /\ dict_keys data = labels
    /\ match reference_of groups labels with
       | Some r =>
           if truthy_opt_str (Some r) && (2 <=? List.length labels)%nat
           then _compute_group_gaps L data salaries groups r labels = Ok gs
           else gs = []
       | None => gs = []
       end.
Proof.
  intros [Hnd Hin]. unfold compute_pay_gap.
  destruct (group_statistics_pass _ _ _ _ _) as [[data r]|e] eqn:P;
    [|discriminate].
  cbn [bind].
  pose proof P as K. apply group_statistics_pass_keys in K;
    [|intros g; apply Hin|exact Hnd].
  pose proof P as S. apply group_statistics_pass_spec in S;
    [|intros g; apply Hin].
  destruct S as (Hok & -> & _).
  match goal with |- bind ?m _ = _ -> _ => destruct m as [gs|e] eqn:G end;
    [|discriminate].
  cbn [bind]. intros H. inversion H. exists data, gs.
  split; [reflexivity|]. split; [reflexivity|]. split; [exact Hok|].
  split; [exact K|].
  assert (Hlen : List.length data = List.length labels).
  { rewrite <- K. unfold dict_keys. now rewrite length_map. }
  rewrite <- Hlen.
  destruct (reference_of groups labels) as [r|]; [|now inversion G].
  destruct (truthy_opt_str (Some r) && (2 <=? List.length data)%nat);
    [exact G|now inversion G].
Qed.

Lemma compute_pay_gap_gaps res ref :
  set_order groups labels ->
  compute_pay_gap L labels salaries groups timestamps = Ok res ->
  reference_group res = Some ref ->
  ref <> EmptyString ->
  dict_keys (gaps res) = other_than ref labels
  /\ forall g gap, dict_get g (gaps res) = Some gap ->
       In g groups /\ g <> ref
       /\ is_zero (np_median L (salaries_of salaries groups ref)) = false
       /\ gap_reference_group gap = ref
       /\ gap_percentage gap
          = (np_median L (salaries_of salaries groups ref)
             - np_median L (salaries_of salaries groups g))
            / np_median L (salaries_of salaries groups ref) * 100
       /\ statistical_significance gap
          = compute_statistical_significance L
              (salaries_of salaries groups ref)
              (salaries_of salaries groups g).
Proof.
  intros Hset Hres Href Hne. pose proof Hset as [Hnd Hin].
  destruct (compute_pay_gap_inv Hset Hres) as (data & gs & P & -> & Hok & K & G).
  simpl in Href |- *. rewrite Href in G.
  assert (T : truthy_opt_str (Some ref) = true).
  { destruct ref; [congruence|reflexivity]. }
  rewrite T in G. cbn [andb] in G.
  destruct (2 <=? List.length labels)%nat eqn:E.
  - unfold _compute_group_gaps in G.
    destruct (@group_gaps_loop L data salaries groups ref _ labels [] gs G Hnd)
      as [Kg Gg];
      [intros g _ []|].
    split; [exact Kg|].
    intros g gap Hg.
    destruct (Gg g gap Hg) as [Hg'|(Hl & N & rst & gst & R & Gd & Z & ->)];
      [discriminate|].
    destruct (Hok _ _ R) as (_ & _ & Mr). destruct (Hok _ _ Gd) as (_ & _ & Mg).
    unfold gap_of. simpl. rewrite <- Mr, <- Mg.
    split; [apply Hin, Hl|]. auto.
  - subst gs. apply Nat.leb_gt in E.
    destruct (reference_of_max groups) with (labels := labels)
      as (r' & Hr' & Hrl & _).
    { intros ->. discriminate. }
    rewrite Href in Hr'. inversion Hr'. subst r'.
    assert (labels = [ref]).
    { destruct labels as [|a [|b l]]; simpl in *; try lia; try tauto.
      destruct Hrl as [->|[]]. reflexivity. }
    split.
    + rewrite H. simpl. now rewrite String.eqb_refl.
    + intros g gap Hg. discriminate.
Qed.

(** Property X3.  Whenever [compute_pay_gap] returns with a reference
    group whose label is not the empty string, [gaps] has exactly one
    entry for every other group, in iteration order, and none for the
    reference group; each entry names the reference group, its
    percentage is (reference median - group median) / reference median
    * 100 over the salaries zipped with the labels, and its
    significance record is [compute_statistical_significance] of the
    reference salaries against the group's salaries. *)
Theorem gaps_cover_the_other_groups res ref :
  set_order groups labels ->
  compute_pay_gap L labels salaries groups timestamps = Ok res ->
  reference_group res = Some ref ->
  ref <> EmptyString ->
  dict_keys (gaps res) = other_than ref labels
  /\ forall g gap, dict_get g (gaps res) = Some gap ->
       In g groups /\ g <> ref
       /\ gap_reference_group gap = ref
       /\ gap_percentage gap
          = (np_median L (salaries_of salaries groups ref)
             - np_median L (salaries_of salaries groups g))
            / np_median L (salaries_of salaries groups ref) * 100
       /\ statistical_significance gap
          = compute_statistical_significance L
              (salaries_of salaries groups ref)
              (salaries_of salaries groups g).
Proof.
  intros Hset Hres Href Hne.
  destruct (compute_pay_gap_gaps Hset Hres Href Hne) as [K G].
  split; [exact K|]. intros g gap Hg.
  destruct (G g gap Hg) as (? & ? & _ & ? & ? & ?). auto.
Qed.

(** Property X4.  A group whose median salary equals the (finite)
    median of the reference group has a gap percentage of zero. *)
Theorem equal_medians_give_zero_gap res ref g gap :
  set_order groups labels ->
  compute_pay_gap L labels salaries groups timestamps = Ok res ->
  reference_group res = Some ref ->
  dict_get g (gaps res) = Some gap ->
  np_median L (salaries_of salaries groups g)
  = np_median L (salaries_of salaries groups ref) ->
  is_finite (np_median L (salaries_of salaries groups ref)) = true ->
  is_zero (gap_percentage gap) = true.
Proof.
  intros Hset Hres Href Hg Hm Hf.
  assert (Hne : ref <> EmptyString).
  { intros ->.
    destruct (compute_pay_gap_inv Hset Hres) as (d & gs & _ & -> & _ & _ & G).
    simpl in Href, Hg. rewrite Href in G. simpl in G. subst gs. discriminate. }
  destruct (compute_pay_gap_gaps Hset Hres Href Hne) as [_ G].
  destruct (G g gap Hg) as (_ & _ & Z & _ & -> & _). rewrite Hm.
  now apply self_gap_is_zero.
Qed.

(** Property X5.  When the reference group is the one labelled with
    the empty string, [if reference_stats] is false and no gap is
    computed, however many other groups there are. *)
Theorem empty_reference_label_gives_no_gaps res :
  set_order groups labels ->
  compute_pay_gap L labels salaries groups timestamps = Ok res ->
  reference_group res = Some EmptyString ->
  gaps res = [].
Proof.
  intros Hset Hres Href.
  destruct (compute_pay_gap_inv Hset Hres) as (data & gs & P & -> & Hok & K & G).
  simpl in Href |- *. rewrite Href in G. exact G.
Qed.

(** Property X6.  Without timestamps, [compute_pay_gap] returns a
    result whenever every group label has a salary at its position and
    the median of the reference group is not zero. *)
Theorem compute_pay_gap_returns :
  set_order groups labels ->
  truthy_timestamps timestamps = None ->
  List.length groups <= List.length salaries ->
  (forall ref, reference_of groups labels = Some ref ->
     is_zero (np_median L (salaries_of salaries groups ref)) = false) ->
  returns (compute_pay_gap L labels salaries groups timestamps).
Proof.
  intros [Hnd Hin] Ht Hlen Hz. unfold compute_pay_gap.
  destruct (@group_statistics_pass_returns L salaries groups timestamps labels
              Ht Hlen) as [[data r] P]; [intros g; apply Hin|].
  rewrite P. cbn [bind].
  apply group_statistics_pass_spec in P; [|intros g; apply Hin].
  destruct P as (Hok & -> & Hrin & Hkeys).
  destruct (reference_of groups labels) as [r|] eqn:R;
    [|eexists; reflexivity].
  destruct (truthy_opt_str (Some r) && (2 <=? List.length data)%nat);
    [|eexists; reflexivity].
  destruct (dict_get r data) as [rst|] eqn:D; [|now elim (Hrin r eq_refl)].
  destruct (Hok _ _ D) as (_ & _ & M).
  destruct (@group_gaps_loop_returns L data salaries groups r
              (salaries_of salaries groups r) labels rst [] D) as [gs G].
  - rewrite M. now apply Hz.
  - intros g Hg. now apply Hkeys.
  - unfold _compute_group_gaps. rewrite G. eexists; reflexivity.
Qed.

End PayGapResult.


(** ** Too few salaries *)

Lemma in_indices_from (g : string) groups : forall a i,
  In i (map fst (filter (fun ig : nat * string => String.eqb (snd ig) g)
                        (combine (seq a (List.length groups)) groups)))
  <-> (a <= i /\ nth_error groups (i - a) = Some g)%nat.
Proof.
  induction groups as [|x groups IH]; intros a i; simpl.
  - split; [tauto|]. intros [_ H]. destruct (i - a)%nat; discriminate.
  - assert (R : In i (map fst
                  (filter (fun ig : nat * string => String.eqb (snd ig) g)
                     (combine (seq (S a) (List.length groups)) groups)))
                <-> (a < i /\ nth_error groups (i - S a) = Some g)%nat).
    { rewrite IH. split; intros [H1 H2]; split; trivial; lia. }
    destruct (String.eqb_spec x g) as [->|N]; simpl; rewrite R.
    + split.
      * intros [<-|[H1 H2]].
        -- rewrite Nat.sub_diag. auto.
        -- split; [lia|]. replace (i - a)%nat with (S (i - S a)) by lia.
           exact H2.
      * intros [H1 H2]. destruct (Nat.eq_dec a i) as [->|Ne]; auto.
        right. split; [lia|].
        replace (i - a)%nat with (S (i - S a)) in H2 by lia. exact H2.
    + split.
      * intros [H1 H2]. split; [lia|].
        replace (i - a)%nat with (S (i - S a)) by lia. exact H2.
      * intros [H1 H2]. destruct (Nat.eq_dec a i) as [->|Ne].
        -- rewrite Nat.sub_diag in H2. simpl in H2. congruence.
        -- split; [lia|].
           replace (i - a)%nat with (S (i - S a)) in H2 by lia. exact H2.
Qed.

Lemma in_indices_of groups g i :
  In i (indices_of groups g) <-> nth_error groups i = Some g.
Proof.
  unfold indices_of. rewrite in_indices_from, Nat.sub_0_r.
  split; [tauto|]. split; [lia|assumption].
Qed.

Lemma mapM_index_raises {A} (l : list A) idx :
  (exists i, In i idx /\ List.length l <= i)%nat ->
  mapM (index l) idx = Raise IndexError.
Proof.
  induction idx as [|j idx IH]; intros (i & Hi & Hlen); [destruct Hi|].
  simpl. unfold index at 1. destruct (nth_error l j) eqn:E; trivial.
  cbn [bind]. rewrite IH; trivial.
  destruct Hi as [->|Hi]; [|eauto].
  apply nth_error_None in Hlen. congruence.
Qed.

Section ShortSalaries.

Variable L : Libs.
Variables (salaries : list float) (groups : list string).
Variable timestamps : option (list datetime).

Lemma group_stats_step_index_error data ref g :
  has_missing_salary salaries groups g = true ->
  group_stats_step L salaries groups timestamps (data, ref) g
  = Raise IndexError.
Proof.
  unfold has_missing_salary. intros H. apply existsb_exists in H.
  destruct H as (i & Hi & Hlen). apply Nat.leb_le in Hlen.
  unfold group_stats_step.
  destruct (indices_of groups g) as [|j idx] eqn:E; [destruct Hi|].
  rewrite <- E in *. unfold _compute_group_statistics.
  rewrite mapM_index_raises; eauto.
Qed.

Lemma group_stats_step_in_range data ref g :
  truthy_timestamps timestamps = None ->
  has_missing_salary salaries groups g = false ->
  (forall r, ref = Some r -> dict_get r data <> None) ->
  returns (group_stats_step L salaries groups timestamps (data, ref) g).
Proof.
  intros Ht Hr Href. unfold group_stats_step.
  destruct (indices_of groups g) as [|i idx] eqn:E; [eexists; reflexivity|].
  rewrite <- E. unfold _compute_group_statistics.
  destruct (@mapM_index_in_range _ salaries (indices_of groups g)) as [ys ->].
  { intros j Hj. unfold has_missing_salary in Hr.
    destruct (Nat.lt_ge_cases j (List.length salaries)) as [|Hge]; trivial.
    assert (existsb (fun i => (List.length salaries <=? i)%nat)
                    (indices_of groups g) = true); [|congruence].
    apply existsb_exists. exists j. split; trivial. now apply Nat.leb_le. }
  cbn [bind]. rewrite Ht. cbn [bind].
  destruct ref as [r|]; [|eexists; reflexivity].
  unfold dict_item. rewrite dict_get_set.
  destruct (String.eqb g r); cbn [bind].
  - destruct (_ <? _)%nat; eexists; reflexivity.
  - destruct (dict_get r data) eqn:R; cbn [bind].
    + destruct (_ <? _)%nat; eexists; reflexivity.
    + exfalso. now apply (Href r).
Qed.

Lemma group_stats_loop_index_error labels : forall data ref,
  truthy_timestamps timestamps = None ->
  (forall g, In g labels -> In g groups) ->
  stats_ok L salaries groups data ->
  (forall r, ref = Some r -> dict_get r data <> None) ->
  (exists g, In g labels /\ has_missing_salary salaries groups g = true) ->
  foldM (group_stats_step L salaries groups timestamps) labels (data, ref)
  = Raise IndexError.
Proof.
  induction labels as [|g labels IH]; intros data ref Ht Hin Hok Href (b & Hb & Hm).
  - destruct Hb.
  - rewrite foldM_cons. destruct (has_missing_salary salaries groups g) eqn:M.
    + now rewrite group_stats_step_index_error.
    + destruct (group_stats_step_in_range data g Ht M Href) as [[d1 r1] S].
      rewrite S. cbn [bind].
      apply group_stats_step_spec in S; [|simpl in *; auto ..].
      destruct S as (Hok1 & _ & Href1 & _).
      apply IH; trivial.
      * intros x Hx. apply Hin. now right.
      * exists b. split; trivial. destruct Hb as [<-|Hb]; [congruence|trivial].
Qed.

End ShortSalaries.

(** Property X7.  Without timestamps, [compute_pay_gap] raises
    [IndexError] whenever there are fewer salaries than group labels:
    the statistics index [salaries] by position, although the gaps
    would pair the two lists with [zip]. *)
Theorem too_few_salaries_raise_index_error
    (L : Libs) (labels : list string) (salaries : list float)
    (groups : list string) (timestamps : option (list datetime)) :
  set_order groups labels ->
  truthy_timestamps timestamps = None ->
  List.length salaries < List.length groups ->
  compute_pay_gap L labels salaries groups timestamps = Raise IndexError.
Proof.
  intros [Hnd Hin] Ht Hlen. unfold compute_pay_gap, group_statistics_pass.
  rewrite (@group_stats_loop_index_error L salaries groups timestamps labels);
    trivial.
  - intros g. apply Hin.
  - intros g st. discriminate.
  - discriminate.
  - destruct (nth_error groups (List.length salaries)) as [g|] eqn:E.
    + exists g. split.
      * apply Hin. eapply nth_error_In; eauto.
      * unfold has_missing_salary. apply existsb_exists.
        exists (List.length salaries). split.
        -- now apply in_indices_of.
        -- now apply Nat.leb_le.
    + apply nth_error_None in E. lia.
Qed.

(** ** Timestamps only matter through elapsed days *)

Lemma fold_min_shift (c : Z) ts : forall t,
  fold_left Z.min (map (Z.add c) ts) (c + t)%Z
  = (c + fold_left Z.min ts t)%Z.
Proof.
  induction ts as [|x ts IH]; intros t; simpl; trivial.
  rewrite Z.add_min_distr_l. apply IH.
Qed.

Lemma compute_temporal_trend_shift (L : Libs) (c : Z) values ts :
  compute_temporal_trend L values (map (Z.add c) ts)
  = compute_temporal_trend L values ts.
Proof.
  unfold compute_temporal_trend. destruct ts as [|t ts]; trivial.
  simpl. rewrite fold_min_shift. cbn [bind].
  unfold timedelta_days. rewrite map_map.
  replace (c + t - (c + fold_left Z.min ts t))%Z
    with (t - fold_left Z.min ts t)%Z by lia.
  erewrite map_ext; [reflexivity|].
  intros a. simpl. f_equal. lia.
Qed.

Lemma mapM_index_map {A B} (f : A -> B) (l : list A) idx :
  mapM (index (map f l)) idx
  = match mapM (index l) idx with
    | Ok ys => Ok (map f ys)
    | Raise e => Raise e
    end.
Proof.
  induction idx as [|i idx IH]; simpl; trivial.
  unfold index at 1 3. rewrite nth_error_map.
  destruct (nth_error l i); simpl; trivial.
  rewrite IH. destruct (mapM (index l) idx); reflexivity.
Qed.

Lemma foldM_ext {A S} (f h : S -> A -> result S) xs :
  (forall s x, f s x = h s x) -> forall s, foldM f xs s = foldM h xs s.
Proof.
  intros E. induction xs as [|x xs IH]; intros s; simpl; trivial.
  rewrite E. destruct (h s x); simpl; auto.
Qed.

(** Property X8.  The result of [compute_pay_gap] does not change
    when all timestamps are shifted by the same duration: the trend of
    a group depends on the days elapsed since its earliest timestamp
    only. *)
Theorem pay_gap_ignores_a_shift_of_all_timestamps
    (L : Libs) (labels : list string) (salaries : list float)
    (groups : list string) (ts : list datetime) (c : Z) :
  compute_pay_gap L labels salaries groups (Some (map (Z.add c) ts))
  = compute_pay_gap L labels salaries groups (Some ts).
Proof.
  unfold compute_pay_gap, group_statistics_pass.
  rewrite (@foldM_ext _ _
             (group_stats_step L salaries groups (Some (map (Z.add c) ts)))
             (group_stats_step L salaries groups (Some ts))); trivial.
  intros [data ref] g. unfold group_stats_step.
  destruct (indices_of groups g) as [|i idx] eqn:E; trivial. rewrite <- E.
  replace (_compute_group_statistics L salaries (indices_of groups g)
             (Some (map (Z.add c) ts)))
    with (_compute_group_statistics L salaries (indices_of groups g) (Some ts));
    trivial.
  unfold _compute_group_statistics.
  destruct (mapM (index salaries) (indices_of groups g)) as [gs|e]; trivial.
  cbn [bind]. destruct ts as [|t ts]; trivial.
  change (truthy_timestamps (Some (map (Z.add c) (t :: ts))))
    with (Some (map (Z.add c) (t :: ts))).
  cbn [truthy_timestamps]. rewrite mapM_index_map. unfold datetime in *.
  destruct (mapM (index (t :: ts)) (indices_of groups g)) as [gt|e]; trivial.
  cbv beta iota. cbn [bind]. now rewrite compute_temporal_trend_shift.
Qed.

(** ** Effect sizes *)

(** Property X9.  The four effect-size labels partition the values of
    Cohen's d by the thresholds 0.8, 0.5 and 0.2 applied to its absolute
    value: "large" from 0.8 on, "medium" in [0.5, 0.8), "small" in
    [0.2, 0.5), and "negligible" below 0.2 and for NaN. *)
Theorem effect_size_labels_partition (d : float) :
  (interpret_effect_size d = "large" <-> (COHEN_D_large <=? abs d) = true)
  /\ (interpret_effect_size d = "medium"
      <-> (COHEN_D_medium <=? abs d) = true
          /\ (abs d <? COHEN_D_large) = true)
  /\ (interpret_effect_size d = "small"
      <-> (COHEN_D_small <=? abs d) = true
          /\ (abs d <? COHEN_D_medium) = true)
  /\ (interpret_effect_size d = "negligible"
      <-> (abs d <? COHEN_D_small) = true \/ is_nan d = true).
Proof.
  unfold interpret_effect_size, Fl.geb.
  destruct (is_nan d) eqn:N.
  - apply FlFacts.is_nan_spec in N. subst d. change (abs nan) with nan.
    rewrite !leb_nan_r, !ltb_nan_l.
    split; [split; discriminate|].
    split; [split; [discriminate|intros [? _]; discriminate]|].
    split; [split; [discriminate|intros [? _]; discriminate]|].
    split; auto.
  - pose proof (abs_not_nan _ N) as Na.
    assert (L58 : (abs d <? COHEN_D_medium) = true ->
                  (abs d <? COHEN_D_large) = true).
    { intros H. eapply FlFacts.ltb_trans; [exact H|reflexivity]. }
    assert (L25 : (abs d <? COHEN_D_small) = true ->
                  (abs d <? COHEN_D_medium) = true).
    { intros H. eapply FlFacts.ltb_trans; [exact H|reflexivity]. }
    rewrite (@leb_negb_ltb COHEN_D_large (abs d) eq_refl Na),
            (@leb_negb_ltb COHEN_D_medium (abs d) eq_refl Na),
            (@leb_negb_ltb COHEN_D_small (abs d) eq_refl Na).
    destruct (abs d <? COHEN_D_large) eqn:E8;
      destruct (abs d <? COHEN_D_medium) eqn:E5;
      destruct (abs d <? COHEN_D_small) eqn:E2; simpl;
      try (specialize (L58 eq_refl); discriminate);
      try (specialize (L25 eq_refl); discriminate);
      (split; [split; (discriminate || reflexivity || auto)|]);
      (split; [split; [(discriminate || auto)
                      |intros [? ?]; (discriminate || reflexivity)]|]);
      (split; [split; [(discriminate || auto)
                      |intros [? ?]; (discriminate || reflexivity)]|]);
      (split; [(discriminate || auto)
              |intros [?|?]; (discriminate || reflexivity)]).
Qed.

(** * Gaps against the overall median *)

Section OverallMedian.

Variable L : Libs.
Variables (salaries : list float) (groups : list string).

Lemma pay_gaps_step_cases m gaps g :
  pay_gaps_step L salaries groups m gaps g
  = if has_salary salaries groups g
    then gap <- Fl.py_div
                  (m - np_median L (salaries_of salaries groups g)) m ;;
         Ok (dict_set g gap gaps)
    else Ok gaps.
Proof.
  unfold pay_gaps_step, has_salary.
  destruct (salaries_of salaries groups g); reflexivity.
Qed.

Lemma pay_gaps_loop m labels : forall gaps,
  is_zero m = false ->
  NoDup labels ->
  (forall g, In g labels -> ~ In g (dict_keys gaps)) ->
  foldM (pay_gaps_step L salaries groups m) labels gaps
  = Ok (gaps
        ++ map (fun g =>
                  (g, (m - np_median L (salaries_of salaries groups g)) / m))
               (filter (has_salary salaries groups) labels))%list.
Proof.
  intros gaps Hz. revert gaps.
  induction labels as [|g labels IH]; intros gaps Hnd Hfresh.
  - simpl. now rewrite app_nil_r.
  - rewrite foldM_cons, pay_gaps_step_cases. inversion Hnd as [|? ? Hg Hnd'].
    subst. simpl. destruct (has_salary salaries groups g).
    + unfold Fl.py_div. rewrite Hz. cbn [bind].
      rewrite IH; trivial.
      * rewrite dict_set_fresh by (apply Hfresh; now left).
        now rewrite <- app_assoc.
      * intros x Hx. rewrite dict_keys_set_fresh by (apply Hfresh; now left).
        intros Hi. apply in_app_or in Hi. destruct Hi as [Hi|[<-|[]]].
        -- apply (Hfresh x); [now right|exact Hi].
        -- contradiction.
    + cbn [bind]. apply IH; trivial. intros x Hx. apply Hfresh. now right.
Qed.

Lemma pay_gaps_loop_raises m labels : forall gaps,
  is_zero m = true ->
  (exists g, In g labels /\ has_salary salaries groups g = true) ->
  foldM (pay_gaps_step L salaries groups m) labels gaps
  = Raise ZeroDivisionError.
Proof.
  intros gaps Hz. revert gaps.
  induction labels as [|g labels IH]; intros gaps [x [Hx Hs]].
  - destruct Hx.
  - rewrite foldM_cons, pay_gaps_step_cases.
    destruct (has_salary salaries groups g) eqn:E.
    + unfold Fl.py_div. now rewrite Hz.
    + cbn [bind]. apply IH. exists x. destruct Hx as [->|Hx]; [congruence|].
      auto.
Qed.

(** Property X11.  When the overall median salary is not zero,
    [compute_pay_gaps] returns one entry for every group that [zip]
    pairs with at least one salary, in iteration order, each entry
    being (overall median - group median) / overall median; it raises
    nothing when the two columns differ in length. *)
Theorem pay_gaps_are_relative_to_the_overall_median labels :
  set_order groups labels ->
  is_zero (np_median L salaries) = false ->
  compute_pay_gaps L labels (Some groups) (Some salaries)
  = Ok (map (fun g =>
               (g, (np_median L salaries
                    - np_median L (salaries_of salaries groups g))
                   / np_median L salaries))
            (filter (has_salary salaries groups) labels)).
Proof.
  intros [Hnd _] Hz. unfold compute_pay_gaps.
  rewrite pay_gaps_loop; trivial. intros g _ [].
Qed.

(** Property X12.  When the overall median salary is zero and both
    columns are non-empty, [compute_pay_gaps] raises
    [ZeroDivisionError]. *)
Theorem zero_overall_median_raises labels :
  set_order groups labels ->
  is_zero (np_median L salaries) = true ->
  salaries <> [] -> groups <> [] ->
  compute_pay_gaps L labels (Some groups) (Some salaries)
  = Raise ZeroDivisionError.
Proof.
  intros [_ Hin] Hz Hs Hg. unfold compute_pay_gaps.
  apply pay_gaps_loop_raises; trivial.
  destruct salaries as [|s ss]; [congruence|].
  destruct groups as [|g gs] eqn:E; [congruence|].
  exists g. split; [apply Hin; now left|].
  unfold has_salary, salaries_of. simpl. now rewrite String.eqb_refl.
Qed.

End OverallMedian.

(** * The distribution of an attribute *)

Lemma counter_step_sum (v : string) (c : dict nat) :
  sum_nat (dict_values (dict_set v (count_in c v + 1)%nat c))
  = (sum_nat (dict_values c) + 1)%nat.
Proof.
  unfold count_in. induction c as [|[k n] c IH]; simpl; trivial.
  destruct (String.eqb_spec k v) as [->|N]; simpl.
  - lia.
  - rewrite IH. lia.
Qed.

Lemma counter_sum vs : forall c,
  sum_nat (dict_values
             (fold_left (fun c v => dict_set v (count_in c v + 1)%nat c) vs c))
  = (sum_nat (dict_values c) + List.length vs)%nat.
Proof.
  induction vs as [|v vs IH]; intros c; simpl; [lia|].
  rewrite IH, counter_step_sum. lia.
Qed.

Lemma fold_add_sum xs : forall a,
  fold_left Nat.add xs a = (a + sum_nat xs)%nat.
Proof.
  induction xs as [|x xs IH]; intros a; simpl; [lia|]. rewrite IH. lia.
Qed.

Lemma counter_counts vs : forall c v,
  count_in (fold_left (fun c v => dict_set v (count_in c v + 1)%nat c) vs c) v
  = (count_in c v + occurrences v vs)%nat.
Proof.
  induction vs as [|k vs IH]; intros c v; simpl.
  - unfold occurrences. simpl. lia.
  - rewrite IH. unfold count_in at 1. rewrite dict_get_set.
    unfold occurrences. simpl. rewrite (String.eqb_sym v k).
    destruct (String.eqb k v) eqn:E; simpl.
    + apply String.eqb_eq in E. subst k. lia.
    + unfold count_in. lia.
Qed.

Lemma fresh_in_spec keys x : fresh_in keys x = true <-> ~ In x keys.
Proof.
  unfold fresh_in. rewrite negb_true_iff. split.
  - intros H Hin. assert (existsb (String.eqb x) keys = true).
    { apply existsb_exists. exists x. split; trivial. apply String.eqb_refl. }
    congruence.
  - intros H. destruct (existsb (String.eqb x) keys) eqn:E; trivial.
    apply existsb_exists in E. destruct E as (y & Hy & E).
    apply String.eqb_eq in E. subst y. contradiction.
Qed.

Lemma filter_other_than (f : string -> bool) v xs :
  filter f (other_than v xs)
  = filter (fun x => negb (String.eqb x v) && f x) xs.
Proof.
  unfold other_than. induction xs as [|x xs IH]; simpl; trivial.
  destruct (String.eqb x v); simpl; rewrite IH; reflexivity.
Qed.

Lemma counter_keys vs : forall c,
  dict_keys (fold_left (fun c v => dict_set v (count_in c v + 1)%nat c) vs c)
  = (dict_keys c ++ filter (fresh_in (dict_keys c)) (distinct vs))%list.
Proof.
  induction vs as [|v vs IH]; intros c; simpl.
  - now rewrite app_nil_r.
  - rewrite IH, filter_other_than.
    destruct (fresh_in (dict_keys c) v) eqn:F.
    + apply fresh_in_spec in F. rewrite dict_keys_set_fresh by exact F.
      rewrite <- app_assoc. simpl. do 2 f_equal. apply filter_ext.
      intros x. unfold fresh_in. rewrite existsb_app. simpl.
      rewrite orb_false_r, negb_orb. apply andb_comm.
    + assert (Hin : In v (dict_keys c)).
      { destruct (in_dec string_dec v (dict_keys c)) as [H|H]; trivial.
        apply fresh_in_spec in H. congruence. }
      rewrite dict_keys_set_present by exact Hin. f_equal.
      apply filter_ext. intros x.
      destruct (String.eqb_spec x v) as [->|N]; simpl; trivial.
Qed.

Lemma NoDup_distinct vs : NoDup (distinct vs).
Proof.
  induction vs as [|v vs IH]; simpl; constructor.
  - unfold other_than. intros H. apply filter_In in H. destruct H as [_ H].
    now rewrite String.eqb_refl in H.
  - now apply NoDup_filter.
Qed.

Lemma dict_as_map (d : dict nat) :
  NoDup (dict_keys d) ->
  d = map (fun k => (k, count_in d k)) (dict_keys d).
Proof.
  induction d as [|[k n] d IH]; simpl; intros H; trivial.
  inversion H as [|? ? Hk Hnd]. subst. unfold count_in at 1. simpl.
  rewrite String.eqb_refl. f_equal. rewrite IH at 1 by exact Hnd.
  apply map_ext_in. intros x Hx. unfold count_in. simpl.
  destruct (String.eqb_spec k x) as [->|N]; [contradiction|reflexivity].
Qed.

Lemma counter_spec values :
  counter values = map (fun v => (v, occurrences v values)) (distinct values).
Proof.
  assert (K : dict_keys (counter values) = distinct values).
  { unfold counter. rewrite counter_keys. simpl.
    rewrite (filter_ext _ (fun _ => true)) by reflexivity.
    clear. induction (distinct values) as [|x l IH]; simpl; congruence. }
  rewrite (dict_as_map (counter values)) by (rewrite K; apply NoDup_distinct).
  rewrite K. apply map_ext. intros v. f_equal. unfold counter.
  rewrite counter_counts. reflexivity.
Qed.

Lemma distribution_loop total (d : dict nat) : forall acc,
  total <> 0%nat ->
  NoDup (dict_keys d) ->
  (forall k, In k (dict_keys d) -> ~ In k (dict_keys acc)) ->
  foldM (fun acc (vc : string * nat) =>
           q <- int_true_div (snd vc) total ;;
           Ok (dict_set (fst vc) q acc)) d acc
  = Ok (acc ++ map (fun vc => (fst vc, Fl.of_nat (snd vc) / Fl.of_nat total))
                   d)%list.
Proof.
  intros acc Ht. revert acc.
  induction d as [|[k n] d IH]; intros acc Hnd Hfresh.
  - simpl. now rewrite app_nil_r.
  - rewrite foldM_cons. unfold int_true_div at 1.
    destruct (Nat.eqb_spec total 0) as [E|_]; [contradiction|].
    cbn [bind fst snd]. inversion Hnd as [|? ? Hk Hnd']. subst.
    rewrite IH; trivial.
    + rewrite dict_set_fresh by (apply Hfresh; now left).
      now rewrite <- app_assoc.
    + intros x Hx. rewrite dict_keys_set_fresh by (apply Hfresh; now left).
      intros Hi. apply in_app_or in Hi. destruct Hi as [Hi|[<-|[]]].
      * apply (Hfresh x); [now right|exact Hi].
      * contradiction.
Qed.

(** Property X13.  For a column that is present,
    [compute_attribute_distribution] returns one entry per distinct
    value, in the order of first occurrence, each being the number of
    occurrences of the value divided by the length of the column; it
    never raises, also on an empty column. *)
Theorem attribute_distribution_counts_occurrences (values : list string) :
  compute_attribute_distribution (Some values)
  = Ok (map (fun v =>
               (v, Fl.of_nat (occurrences v values)
                   / Fl.of_nat (List.length values)))
            (distinct values)).
Proof.
  unfold compute_attribute_distribution.
  assert (T : fold_left Nat.add (dict_values (counter values)) 0%nat
              = List.length values).
  { rewrite fold_add_sum. unfold counter. rewrite counter_sum. reflexivity. }
  cbv zeta. rewrite T.
  destruct values as [|v values]; [reflexivity|].
  assert (K : dict_keys (counter (v :: values)) = distinct (v :: values)).
  { rewrite counter_spec. unfold dict_keys. rewrite map_map.
    cbn [fst]. apply map_id. }
  rewrite distribution_loop.
  - rewrite counter_spec, map_map. reflexivity.
  - discriminate.
  - rewrite K. apply NoDup_distinct.
  - intros k _ [].
Qed.

(** * Monitoring alerts *)

Lemma leb_not_nan (x y : float) :
  (x <=? y) = true -> is_nan x = false /\ is_nan y = false.
Proof.
  intros H. split.
  - destruct (is_nan x) eqn:E; trivial. apply FlFacts.is_nan_spec in E.
    subst. now rewrite leb_nan_l in H.
  - destruct (is_nan y) eqn:E; trivial. apply FlFacts.is_nan_spec in E.
    subst. now rewrite leb_nan_r in H.
Qed.

(** What is above [c] is above whatever is at most [c]. *)
Lemma le_lt_trans (w c a : float) :
  (w <=? c) = true -> (c <? a) = true -> (w <? a) = true.
Proof.
  intros H1 H2. destruct (leb_not_nan H1) as [Nw Nc].
  rewrite leb_negb_ltb in H1 by trivial. apply negb_true_iff in H1.
  assert (Hn : ~ lex_lt (rank (Prim2SF c)) (rank (Prim2SF w))).
  { intros Hl. assert ((c <? w) = true) by (apply FlFacts.ltb_rank; auto).
    congruence. }
  apply FlFacts.ltb_rank in H2. destruct H2 as (_ & Na & H2).
  apply FlFacts.ltb_rank. repeat split; trivial.
  unfold lex_lt in *. lia.
Qed.

(** Property X14.  When the warning threshold is at most the critical
    threshold, [check_metric] alerts exactly when the absolute value of
    the metric exceeds the warning threshold, with severity "critical"
    exactly when it exceeds the critical threshold and "warning"
    otherwise; a NaN metric exceeds nothing and raises no alert. *)
Theorem alert_levels_with_ordered_thresholds
    (now : string) (thresholds : Thresholds) (metric_name : string)
    (value : float) :
  (warning thresholds <=? critical thresholds) = true ->
  (check_metric now thresholds metric_name value <> None
   <-> Fl.gtb (abs value) (warning thresholds) = true)
  /\ (option_map severity (check_metric now thresholds metric_name value)
      = Some "critical"
      <-> Fl.gtb (abs value) (critical thresholds) = true)
  /\ (option_map severity (check_metric now thresholds metric_name value)
      = Some "warning"
      <-> Fl.gtb (abs value) (warning thresholds) = true
          /\ Fl.gtb (abs value) (critical thresholds) = false).
Proof.
  intros H. unfold check_metric, Fl.gtb.
  destruct (critical thresholds <? abs value) eqn:C.
  - pose proof (le_lt_trans H C) as W. rewrite W. simpl.
    split; [split; [trivial|discriminate]|].
    split; [tauto|]. split; [discriminate|intros [_ ?]; discriminate].
  - destruct (warning thresholds <? abs value) eqn:W; simpl.
    + split; [split; [trivial|discriminate]|].
      split; [split; discriminate|tauto].
    + split; [split; [congruence|discriminate]|].
      split; [split; discriminate|].
      split; [discriminate|intros [? _]; discriminate].
Qed.

(** Property X15.  When the critical threshold is at most the warning
    threshold, [check_metric] never issues a "warning" alert: every
    alert is critical. *)
Theorem warning_level_is_unreachable_below_critical
    (now : string) (thresholds : Thresholds) (metric_name : string)
    (value : float) (alert : Alert) :
  (critical thresholds <=? warning thresholds) = true ->
  check_metric now thresholds metric_name value = Some alert ->
  severity alert = "critical".
Proof.
  intros H. unfold check_metric, Fl.gtb.
  destruct (critical thresholds <? abs value) eqn:C.
  - intros E. inversion E. reflexivity.
  - destruct (warning thresholds <? abs value) eqn:W; [|discriminate].
    rewrite (le_lt_trans H W) in C. discriminate.
Qed.

(** * Visualisation data *)

Lemma mapM_raises_first {A B} (f : A -> result B) e x xs :
  f x = Raise e -> mapM f (x :: xs) = Raise e.
Proof. intros H. simpl. now rewrite H. Qed.

(** Property X16.  [create_fairness_visualizations] raises [KeyError]
    on every analysis input whose ["pay_gap"] entry is a result of
    [compute_pay_gap] for a non-empty input, in every output format and
    with or without plotly: it reads the key ["avg_salary"], and the
    group statistics are stored under ["mean_salary"]. *)
Theorem pay_gap_results_have_no_avg_salary
    (L : Libs) (labels : list string) (salaries : list float)
    (groups : list string) (timestamps : option (list datetime))
    (res : PayGap) (plotly : option Plotly) (ar : AnalysisResults)
    (output_format : string) :
  set_order groups labels ->
  groups <> [] ->
  compute_pay_gap L labels salaries groups timestamps = Ok res ->
  pay_gap ar = Some res ->
  create_fairness_visualizations plotly ar output_format = Raise KeyError.
Proof.
  intros Hset Hne Hres Hpg.
  destruct (@compute_pay_gap_inv L labels salaries groups timestamps res
              Hset Hres) as (data & gs & _ & -> & _ & K & _).
  pose proof (set_order_nonempty Hset Hne) as Hl.
  unfold create_fairness_visualizations. rewrite Hpg. cbn [group_stats].
  destruct data as [|[k st] data]; [simpl in K; congruence|].
  unfold dict_values. cbn [map snd].
  rewrite (@mapM_raises_first _ _ (group_stats_item "avg_salary") KeyError);
    reflexivity.
Qed.

(** * What [compute_bias_metrics] hands on *)

Section BiasResults.

Variable L : Libs.










End BiasResults.

(** * A group compared with itself *)

Lemma sub_self (m : float) :
  is_zero (m - m) = true \/ is_nan (m - m) = true.
Proof.
  destruct (Prim2SF m) as [s|s| |s mm e] eqn:E.
  - left. apply FlFacts.is_zero_spec. rewrite sub_spec, E.
    destruct s; eexists; reflexivity.
  - right. apply FlFacts.is_nan_spec. apply Prim2SF_inj.
    rewrite sub_spec, E. destruct s; reflexivity.
  - right. apply FlFacts.is_nan_spec. apply Prim2SF_inj.
    rewrite sub_spec, E. reflexivity.
  - left. apply FlFacts.is_zero_spec. rewrite sub_spec, E.
    unfold SF64sub. cbn [SFsub]. rewrite Z.sub_diag. cbn.
    eexists. reflexivity.
Qed.

Lemma div_zero_or_nan_l (z x : float) :
  is_zero z = true \/ is_nan z = true ->
  is_zero (z / x) = true \/ is_nan (z / x) = true.
Proof.
  intros [H|H].
  - apply FlFacts.is_zero_spec in H. destruct H as [s H].
    destruct (SpecFacts.SFdiv_zero_l prec emax s (Prim2SF x)) as [N|[s' Z]].
    + right. apply FlFacts.is_nan_spec, Prim2SF_inj.
      rewrite div_spec, H. exact N.
    + left. apply FlFacts.is_zero_spec. exists s'.
      rewrite div_spec, H. exact Z.
  - right. apply FlFacts.is_nan_spec in H. subst z.
    apply FlFacts.is_nan_spec, Prim2SF_inj. rewrite div_spec.
    change (Prim2SF nan) with S754_nan. reflexivity.
Qed.

Lemma zero_or_nan_is_negligible (d : float) :
  is_zero d = true \/ is_nan d = true ->
  interpret_effect_size d = "negligible".
Proof.
  intros [H|H].
  - apply FlFacts.is_zero_spec in H. destruct H as [s H].
    unfold interpret_effect_size, Fl.geb.
    rewrite !leb_spec, abs_spec, H. reflexivity.
  - apply FlFacts.is_nan_spec in H. subst d. reflexivity.
Qed.

(** Property X10.  Comparing a group with itself gives a Cohen's d
    that is zero or NaN and the effect size "negligible", whatever the
    data and whatever the library functions return. *)
Theorem self_comparison_is_negligible (L : Libs) (group : list float) :
  effect_size (compute_statistical_significance L group group) = "negligible"
  /\ (is_zero (cohens_d (compute_statistical_significance L group group))
      = true
      \/ is_nan (cohens_d (compute_statistical_significance L group group))
         = true).
Proof.
  unfold compute_statistical_significance.
  destruct (ttest_ind L group group) as [t p]. simpl.
  pose proof (div_zero_or_nan_l (pooled_sd L group group)
                (sub_self (np_mean L group))) as H.
  split; [now apply zero_or_nan_is_negligible|exact H].
Qed.

(** * The report *)

Section ReportInvariants.

Variable L : Libs.

(** Property X18.  In every report that [generate_fairness_report]
    returns, the critical issue about pay gaps exceeding 5% is listed
    exactly when the high-priority pay-equity recommendation is
    given, and it is the only critical issue. *)
Theorem critical_issue_iff_pay_equity_recommendation
    (now : string) (ar : AnalysisResults) (rep : Report) :
  generate_fairness_report L now ar = Ok rep ->
  (critical_issues (summary rep)
   = ["Significant pay gaps detected exceeding 5%"]
   /\ has_pay_equity_high (recommendations (summary rep)))
  \/ (critical_issues (summary rep) = []
      /\ ~ has_pay_equity_high (recommendations (summary rep))).
Proof.
  unfold generate_fairness_report.
  destruct (calculate_overall_fairness_score L ar); [|discriminate].
  cbn [bind].
  match goal with |- bind ?m _ = _ -> _ => destruct m as [bm|] end;
    [|discriminate].
  cbn [bind].
  match goal with |- bind ?m _ = _ -> _ => destruct m as [ta|] end;
    [|discriminate].
  cbn [bind]. intros H. inversion H. subst rep. cbn [summary critical_issues
    recommendations].
  rewrite pay_equity_rule. cbn [pay_equity].
  destruct (Fl.gtb _ 5); [left|right]; split; trivial. discriminate.
Qed.

(** Property X20.  [compute_metric_significance] returns exactly when
    every metric that has per-group values also has an overall value;
    otherwise the lookup of the overall value raises. *)
Theorem metric_significance_needs_overall_values (mf : MetricFrame) :
  returns (compute_metric_significance mf)
  <-> (forall m, In m (dict_keys (mf_by_group mf)) ->
         dict_get m (mf_overall mf) <> None).
Proof.
  unfold compute_metric_significance.
  match goal with |- returns (foldM ?f _ _) <-> _ => set (step := f) end.
  generalize (@nil (string * dict SigResult)).
  induction (mf_by_group mf) as [|[m values] d IH]; intros acc.
  - simpl. split; [intros _ m []|intros _; eexists; reflexivity].
  - rewrite foldM_cons. unfold step at 1, dict_item.
    destruct (dict_get m (mf_overall mf)) as [ov|] eqn:E; cbn [bind].
    + rewrite IH. simpl. split.
      * intros H x [<-|Hx]; [congruence|auto].
      * intros H x Hx. apply H. now right.
    + split.
      * intros [a Ha]. discriminate.
      * intros H. elim (H m); [now left|exact E].
Qed.

End ReportInvariants.

(** * Trend detectors *)

Section TrendDetectors.

Variable L : Libs.

Lemma trend_anomalies_well_formed values z_threshold :
  an_indices (trend_anomalies L values z_threshold) <> [] ->
  well_formed_anomalies values z_threshold
    (trend_anomalies L values z_threshold).
Proof.
  intros Hne. unfold well_formed_anomalies. split; [exact Hne|].
  unfold trend_anomalies. cbn [an_indices an_values z_scores].
  rewrite !length_map. split; [reflexivity|]. split; [reflexivity|].
  split.
  - apply Forall_forall. intros i Hi. apply in_map_iff in Hi.
    destruct Hi as ([j [v z]] & <- & Hf). apply filter_In in Hf.
    destruct Hf as [Hc _]. apply in_combine_l in Hc.
    apply in_seq in Hc. simpl. lia.
  - apply Forall_forall. intros z Hz. apply in_map_iff in Hz.
    destruct Hz as ([j [v z']] & <- & Hf). apply filter_In in Hf.
    now destruct Hf as [_ Hg].
Qed.

Lemma anomalies_loop z_threshold (metrics : dict (list float)) :
  forall found m a,
    dict_get m
      (fold_left
         (fun found (mv : string * list float) =>
            let '(metric_name, values) := mv in
            if (List.length values <? 3)%nat then found
            else
              let a := trend_anomalies L values z_threshold in
              match an_indices a with
              | [] => found
              | _ => dict_set metric_name a found
              end)
         metrics found) = Some a ->
    dict_get m found = Some a
    \/ exists values,
         In (m, values) metrics /\ 3 <= List.length values
         /\ well_formed_anomalies values z_threshold a.
Proof.
  induction metrics as [|[k values] metrics IH]; intros found m a;
    cbn [fold_left]; auto.
  intros H. apply IH in H. destruct H as [H|(vs & Hin & Hl & Hw)].
  - cbv beta iota zeta in H. destruct (Nat.ltb_spec (List.length values) 3) as [Hlt|Hge]; auto.
    destruct (an_indices (trend_anomalies L values z_threshold)) eqn:E; auto.
    rewrite dict_get_set in H.
    destruct (String.eqb_spec k m) as [->|N]; auto.
    inversion H. subst a. right. exists values.
    split; [now left|]. split; [exact Hge|].
    apply trend_anomalies_well_formed. rewrite E. discriminate.
  - right. exists vs. split; [now right|auto].
Qed.

(** Property X22.  Every entry that [detect_trend_anomalies] reports
    belongs to a metric with at least 3 values and is not empty; its
    indices, values and z-scores run in parallel, every index is a
    position of the history and every z-score exceeds the threshold. *)
Theorem reported_anomalies_exceed_the_threshold
    (tr : Trends) (z_threshold : float) (r : dict Anomalies)
    (m : string) (a : Anomalies) :
  detect_trend_anomalies L tr z_threshold = PerMetric r ->
  dict_get m r = Some a ->
  exists metrics values,
    historical_metrics tr = Some metrics
    /\ In (m, values) metrics
    /\ 3 <= List.length values
    /\ well_formed_anomalies values z_threshold a.
Proof.
  unfold detect_trend_anomalies.
  destruct (historical_metrics tr) as [metrics|]; [|discriminate].
  intros H Hm. inversion H. subst r. apply anomalies_loop in Hm.
  destruct Hm as [Hm|(values & Hin & Hl & Hw)]; [discriminate|].
  exists metrics, values. auto.
Qed.

Lemma long_term_loop min_periods (metrics : dict (list float)) :
  forall acc r,
    foldM
      (fun results (mv : string * list float) =>
         let '(metric_name, values) := mv in
         if (List.length values <? min_periods)%nat then Ok results
         else
           info <- long_term_trend L values ;;
           Ok (dict_set metric_name info results))
      metrics acc = Ok r ->
    forall m,
      dict_get m r <> None
      <-> (dict_get m acc <> None
           \/ exists values,
                In (m, values) metrics /\ min_periods <= List.length values).
Proof.
  induction metrics as [|[k values] metrics IH]; intros acc r H m.
  - simpl in H. inversion H. subst r. split; auto.
    intros [Hm|(v & [] & _)]; trivial.
  - rewrite foldM_cons in H.
    destruct (Nat.ltb_spec (List.length values) min_periods) as [Hlt|Hge].
    + cbn [bind] in H. rewrite (IH _ _ H m). split.
      * intros [Hm|(v & Hin & Hl)]; auto. right. exists v.
        split; [now right|exact Hl].
      * intros [Hm|(v & [E|Hin] & Hl)]; auto.
        -- inversion E. subst. lia.
        -- right. exists v. auto.
    + destruct (long_term_trend L values) as [info|]; [|discriminate].
      cbn [bind] in H. rewrite (IH _ _ H m), dict_get_set. split.
      * intros [Hm|(v & Hin & Hl)].
        -- destruct (String.eqb_spec k m) as [->|N]; auto.
           right. exists values. split; [now left|exact Hge].
        -- right. exists v. split; [now right|exact Hl].
      * intros [Hm|(v & [E|Hin] & Hl)].
        -- left. destruct (String.eqb k m); [discriminate|exact Hm].
        -- inversion E. subst. rewrite String.eqb_refl. left. discriminate.
        -- right. exists v. auto.
Qed.

(** Property X21.  Whenever [identify_long_term_trends] returns its
    per-metric mapping, a metric is in it exactly when its history has
    at least [min_periods] values: shorter histories are left out
    without notice. *)
Theorem long_term_trends_need_enough_periods
    (tr : Trends) (min_periods : nat) (metrics : dict (list float))
    (r : dict TrendInfo) (m : string) :
  historical_metrics tr = Some metrics ->
  identify_long_term_trends L tr min_periods = Ok (PerMetric r) ->
  (dict_get m r <> None
   <-> exists values,
         In (m, values) metrics /\ min_periods <= List.length values).
Proof.
  intros Hm. unfold identify_long_term_trends. rewrite Hm.
  match goal with |- bind ?x _ = _ -> _ => destruct x as [res|] eqn:F end;
    [|discriminate].
  cbn [bind]. intros H. inversion H. subst res.
  rewrite (long_term_loop _ _ _ F m). split.
  - intros [E|E]; [now elim E|exact E].
  - auto.
Qed.

End TrendDetectors.

(** * Bias-mitigation recommendations *)

Lemma bias_recommendation_inj a b :
  bias_recommendation a = bias_recommendation b -> a = b.
Proof.
  intros H. apply (f_equal description) in H. simpl in H.
  now inversion H.
Qed.

Lemma bias_recommendations_iff attr (metrics : dict BiasSummary) :
  forall acc,
    In (bias_recommendation attr)
       (fold_left
          (fun recs (am : string * BiasSummary) =>
             match significant_disparities (snd am) with
             | [] => recs
             | _ => (recs ++ [bias_recommendation (fst am)])%list
             end)
          metrics acc)
    <-> (In (bias_recommendation attr) acc
         \/ exists s, In (attr, s) metrics /\ significant_disparities s <> []).
Proof.
  induction metrics as [|[k s] metrics IH]; intros acc; cbn [fold_left].
  - split; auto. intros [H|(s & [] & _)]; trivial.
  - rewrite IH. cbn [fst snd]. split.
    + intros [H|(s' & Hin & Hs)].
      * destruct (significant_disparities s) eqn:E; auto.
        apply in_app_or in H. destruct H as [H|[H|[]]]; auto.
        apply bias_recommendation_inj in H. subst k. right. exists s.
        split; [now left|]. rewrite E. discriminate.
      * right. exists s'. split; [now right|exact Hs].
    + intros [H|(s' & [E|Hin] & Hs)].
      * left. destruct (significant_disparities s); auto using in_or_app.
      * inversion E. subst. left.
        destruct (significant_disparities s'); [congruence|].
        apply in_or_app. right. now left.
      * right. exists s'. auto.
Qed.

Lemma smart_bias_recommendation_iff attr analysis :
  In (bias_recommendation attr) (generate_smart_recommendations analysis)
  <-> exists s,
        In (attr, s) (da_bias_metrics analysis)
        /\ significant_disparities s <> [].
Proof.
  unfold generate_smart_recommendations.
  match goal with
  | |- In _ (if _ then (?r2 ++ _)%list else _) <-> _ =>
      assert (R : In (bias_recommendation attr) r2
                  <-> exists s, In (attr, s) (da_bias_metrics analysis)
                        /\ significant_disparities s <> [])
  end.
  { rewrite bias_recommendations_iff. split; auto.
    intros [H|H]; trivial.
    destruct (Fl.gtb _ 5); [|destruct H].
    destruct H as [H|[]]. discriminate. }
  destruct (get_concerning (trend_analysis analysis)); trivial.
  rewrite <- R. split.
  - intros H. apply in_app_or in H. destruct H as [H|[H|[]]]; trivial.
    discriminate.
  - intros H. apply in_or_app. now left.
Qed.

Lemma significant_disparities_iff e s :
  bias_summary e = Ok s ->
  significant_disparities s <> [] <-> has_significant_disparity e.
Proof.
  unfold bias_summary.
  destruct (dict_item "demographic_parity" (overall e)); [|discriminate].
  cbn [bind].
  destruct (dict_item "equalized_odds" (overall e)); [|discriminate].
  cbn [bind]. intros H. injection H as <-. cbn [significant_disparities].
  unfold has_significant_disparity, dict_keys.
  induction (metric_significance e) as [|[m sigs] d IH]; simpl.
  - split; [congruence|]. intros (? & ? & [] & _).
  - destruct (existsb sig_significant (dict_values sigs)) eqn:E; simpl.
    + split; [|discriminate]. intros _. exists m, sigs. auto.
    + rewrite IH. split.
      * intros (m' & sg & Hin & Hs). exists m', sg. auto.
      * intros (m' & sg & [Hin|Hin] & Hs); [|eauto].
        inversion Hin. subst. congruence.
Qed.

Lemma bias_findings_loop (bm : dict BiasEntry) : forall acc bs,
  NoDup (dict_keys bm) ->
  (forall k, In k (dict_keys bm) -> ~ In k (dict_keys acc)) ->
  foldM (fun acc (ae : string * BiasEntry) =>
           s <- bias_summary (snd ae) ;;
           Ok (dict_set (fst ae) s acc))
        bm acc = Ok bs ->
  forall attr s,
    In (attr, s) bs
    <-> (In (attr, s) acc
         \/ exists e, In (attr, e) bm /\ bias_summary e = Ok s).
Proof.
  induction bm as [|[k e] bm IH]; intros acc bs Hnd Hfresh H attr s.
  - simpl in H. inversion H. subst. split; auto.
    intros [Hi|(e & [] & _)]; trivial.
  - rewrite foldM_cons in H. cbn [fst snd] in H.
    destruct (bias_summary e) as [se|] eqn:E; [|discriminate].
    cbn [bind] in H. inversion Hnd as [|? ? Hk Hnd']. subst.
    assert (Hka : ~ In k (dict_keys acc)) by (apply Hfresh; now left).
    assert (Hfresh' : forall x, In x (dict_keys bm) ->
                        ~ In x (dict_keys (dict_set k se acc))).
    { intros x Hx. rewrite dict_keys_set_fresh by exact Hka.
      intros Hi. apply in_app_or in Hi. destruct Hi as [Hi|[<-|[]]].
      - apply (Hfresh x); [now right|exact Hi].
      - contradiction. }
    rewrite (IH _ _ Hnd' Hfresh' H attr s).
    rewrite dict_set_fresh by exact Hka. split.
    + intros [Hi|(e' & Hin & Hs)].
      * apply in_app_or in Hi. destruct Hi as [Hi|[Hi|[]]]; auto.
        inversion Hi. subst. right. exists e. split; [now left|exact E].
      * right. exists e'. split; [now right|exact Hs].
    + intros [Hi|(e' & [Hin|Hin] & Hs)].
      * left. apply in_or_app. now left.
      * inversion Hin. subst. left. apply in_or_app. right.
        left. congruence.
      * right. exists e'. auto.
Qed.

Lemma bias_findings_summaries (bm : dict BiasEntry) : forall acc bs,
  foldM (fun acc (ae : string * BiasEntry) =>
           s <- bias_summary (snd ae) ;;
           Ok (dict_set (fst ae) s acc))
        bm acc = Ok bs ->
  forall k e, In (k, e) bm -> exists s, bias_summary e = Ok s.
Proof.
  induction bm as [|[k' e'] bm IH]; intros acc bs H k e Hin; [destruct Hin|].
  rewrite foldM_cons in H. cbn [fst snd] in H.
  destruct (bias_summary e') as [s'|] eqn:E; [|discriminate].
  cbn [bind] in H. destruct Hin as [Hin|Hin].
  - inversion Hin. subst. eauto.
  - eapply IH; eauto.
Qed.

Lemma in_dict_get {V} (k : string) (v : V) (d : dict V) :
  NoDup (dict_keys d) -> In (k, v) d <-> dict_get k d = Some v.
Proof.
  induction d as [|[k' v'] d IH]; simpl; intros H.
  - split; [intros []|discriminate].
  - inversion H as [|? ? Hk Hnd]. subst.
    destruct (String.eqb_spec k' k) as [->|N].
    + split.
      * intros [E|Hin]; [now inversion E|].
        elim Hk. change k with (fst (k, v)). now apply in_map.
      * intros E. inversion E. now left.
    + rewrite <- (IH Hnd). split; [|auto].
      intros [E|Hin]; [inversion E; contradiction|exact Hin].
Qed.

(** Property X19.  In every report that [generate_fairness_report]
    returns, the bias-mitigation recommendation for an attribute is
    given exactly when the bias metrics of that attribute hold a metric
    with a group marked significant. *)
Theorem bias_recommendation_iff_significant_disparity
    (L : Libs) (now : string) (ar : AnalysisResults) (bm : dict BiasEntry)
    (rep : Report) (attr : string) :
  bias_metrics ar = Some bm ->
  NoDup (dict_keys bm) ->
  generate_fairness_report L now ar = Ok rep ->
  (In (bias_recommendation attr) (recommendations (summary rep))
   <-> exists e, dict_get attr bm = Some e /\ has_significant_disparity e).
Proof.
  intros Hbm Hnd. unfold generate_fairness_report. rewrite Hbm.
  destruct (calculate_overall_fairness_score L ar); [|discriminate].
  cbn [bind]. destruct (bias_findings bm) as [bs|] eqn:F; [|discriminate].
  cbn [bind].
  match goal with |- bind ?m _ = _ -> _ => destruct m as [ta|] end;
    [|discriminate].
  cbn [bind]. intros H. inversion H. subst rep.
  cbn [summary recommendations].
  rewrite smart_bias_recommendation_iff. cbn [da_bias_metrics].
  unfold bias_findings in F.
  pose proof (fun s => @bias_findings_loop bm [] bs Hnd
                         (fun k _ (H : In k []) => H) F attr s) as B.
  split.
  - intros (s & Hin & Hs). apply B in Hin.
    destruct Hin as [[]|(e & Hin & He)]. exists e.
    split; [now apply in_dict_get|].
    now apply (significant_disparities_iff _ He).
  - intros (e & Hg & Hd). apply in_dict_get in Hg; trivial.
    destruct (bias_findings_summaries _ _ F _ _ Hg) as [s Hs].
    exists s. split.
    + apply B. right. exists e. auto.
    + now apply (significant_disparities_iff _ Hs).
Qed.

(** ** The further properties at concrete inputs *)

Lemma set_order_A_empty_label :
  set_order [EmptyString; EmptyString; "A"] ["A"; EmptyString].
Proof.
  split.
  - repeat constructor; simpl; intuition discriminate.
  - intros g. simpl. intuition.
Defined.

Lemma reference_group_is_first_largest_witness :
  exists res ref,
    compute_pay_gap Ref.libs ["B"; "A"] [1; 2; 3] ["A"; "A"; "B"] None = Ok res
    /\ reference_group res = Some ref
    /\ exists before after,
         ["B"; "A"] = (before ++ ref :: after)%list
         /\ (forall g, In g before ->
               observations ["A"; "A"; "B"] g
               < observations ["A"; "A"; "B"] ref)
         /\ (forall g, In g after ->
               observations ["A"; "A"; "B"] g
               <= observations ["A"; "A"; "B"] ref).
Proof.
  eexists. eexists. split; [vm_compute; reflexivity|].
  split; [vm_compute; reflexivity|].
  eapply (@reference_group_is_first_largest
           Ref.libs ["B"; "A"] [1; 2; 3] ["A"; "A"; "B"] None).
  - exact set_order_BA_AAB.
  - vm_compute; reflexivity.
  - vm_compute; reflexivity.
Defined.

Lemma group_counts_add_up_witness :
  exists res,
    compute_pay_gap Ref.libs ["B"; "A"] [1; 2; 3] ["A"; "A"; "B"] None = Ok res
    /\ dict_keys (group_stats res) = ["B"; "A"]
    /\ map count (dict_values (group_stats res))
       = map (observations ["A"; "A"; "B"]) ["B"; "A"]
    /\ sum_nat (map count (dict_values (group_stats res))) = 3%nat.
Proof.
  eexists. split; [vm_compute; reflexivity|].
  eapply (@group_counts_add_up
           Ref.libs ["B"; "A"] [1; 2; 3] ["A"; "A"; "B"] None).
  - exact set_order_BA_AAB.
  - vm_compute; reflexivity.
Defined.

Lemma gaps_cover_the_other_groups_witness :
  exists res,
    compute_pay_gap Ref.libs ["B"; "A"] [1; 2; 3] ["A"; "A"; "B"] None = Ok res
    /\ reference_group res = Some "A"
    /\ dict_keys (gaps res) = other_than "A" ["B"; "A"]
    /\ forall g gap, dict_get g (gaps res) = Some gap ->
         In g ["A"; "A"; "B"] /\ g <> "A"
         /\ gap_reference_group gap = "A"
         /\ gap_percentage gap
            = (np_median Ref.libs (salaries_of [1; 2; 3] ["A"; "A"; "B"] "A")
               - np_median Ref.libs
                   (salaries_of [1; 2; 3] ["A"; "A"; "B"] g))
              / np_median Ref.libs (salaries_of [1; 2; 3] ["A"; "A"; "B"] "A")
              * 100
         /\ statistical_significance gap
            = compute_statistical_significance Ref.libs
                (salaries_of [1; 2; 3] ["A"; "A"; "B"] "A")
                (salaries_of [1; 2; 3] ["A"; "A"; "B"] g).
Proof.
  eexists. split; [vm_compute; reflexivity|].
  split; [vm_compute; reflexivity|].
  eapply (@gaps_cover_the_other_groups
           Ref.libs ["B"; "A"] [1; 2; 3] ["A"; "A"; "B"] None).
  - exact set_order_BA_AAB.
  - vm_compute; reflexivity.
  - vm_compute; reflexivity.
  - discriminate.
Defined.

Lemma equal_medians_give_zero_gap_witness :
  exists res gap,
    compute_pay_gap Ref.libs ["B"; "A"] [50000; 50000; 50000]
      ["A"; "A"; "B"] None = Ok res
    /\ dict_get "B" (gaps res) = Some gap
    /\ is_zero (gap_percentage gap) = true.
Proof.
  eexists. eexists. split; [vm_compute; reflexivity|].
  split; [vm_compute; reflexivity|].
  eapply (@equal_medians_give_zero_gap
            Ref.libs ["B"; "A"] [50000; 50000; 50000] ["A"; "A"; "B"] None
            _ "A" "B").
  - exact set_order_BA_AAB.
  - vm_compute; reflexivity.
  - vm_compute; reflexivity.
  - vm_compute; reflexivity.
  - vm_compute; reflexivity.
  - vm_compute; reflexivity.
Defined.

Lemma empty_reference_label_gives_no_gaps_witness :
  exists res,
    compute_pay_gap Ref.libs ["A"; EmptyString] [1; 2; 3]
      [EmptyString; EmptyString; "A"] None = Ok res
    /\ reference_group res = Some EmptyString
    /\ gaps res = [].
Proof.
  eexists. split; [vm_compute; reflexivity|].
  split; [vm_compute; reflexivity|].
  eapply (@empty_reference_label_gives_no_gaps
           Ref.libs ["A"; EmptyString] [1; 2; 3]
           [EmptyString; EmptyString; "A"] None).
  - exact set_order_A_empty_label.
  - vm_compute; reflexivity.
  - vm_compute; reflexivity.
Defined.

Lemma compute_pay_gap_returns_witness :
  returns
    (compute_pay_gap Ref.libs ["B"; "A"] [1; 2; 3] ["A"; "A"; "B"] None).
Proof.
  eapply (@compute_pay_gap_returns
           Ref.libs ["B"; "A"] [1; 2; 3] ["A"; "A"; "B"] None).
  - exact set_order_BA_AAB.
  - reflexivity.
  - simpl. lia.
  - intros ref H. vm_compute in H. inversion H. vm_compute. reflexivity.
Defined.

Lemma too_few_salaries_raise_index_error_witness :
  compute_pay_gap Ref.libs ["B"; "A"] [1; 2] ["A"; "A"; "B"] None
  = Raise IndexError.
Proof.
  eapply (@too_few_salaries_raise_index_error
           Ref.libs ["B"; "A"] [1; 2] ["A"; "A"; "B"] None).
  - exact set_order_BA_AAB.
  - reflexivity.
  - simpl. lia.
Defined.

Lemma pay_gaps_are_relative_to_the_overall_median_witness :
  compute_pay_gaps Ref.libs ["B"; "A"] (Some ["A"; "A"; "B"])
    (Some [1; 2; 3])
  = Ok (map (fun g =>
               (g, (np_median Ref.libs [1; 2; 3]
                    - np_median Ref.libs
                        (salaries_of [1; 2; 3] ["A"; "A"; "B"] g))
                   / np_median Ref.libs [1; 2; 3]))
            (filter (has_salary [1; 2; 3] ["A"; "A"; "B"]) ["B"; "A"])).
Proof.
  eapply (@pay_gaps_are_relative_to_the_overall_median
           Ref.libs [1; 2; 3] ["A"; "A"; "B"] ["B"; "A"]).
  - exact set_order_BA_AAB.
  - vm_compute; reflexivity.
Defined.

Lemma zero_overall_median_raises_witness :
  compute_pay_gaps Ref.libs ["B"; "A"] (Some ["A"; "A"; "B"])
    (Some [0; 0; 0])
  = Raise ZeroDivisionError.
Proof.
  eapply (@zero_overall_median_raises
           Ref.libs [0; 0; 0] ["A"; "A"; "B"] ["B"; "A"]).
  - exact set_order_BA_AAB.
  - vm_compute; reflexivity.
  - discriminate.
  - discriminate.
Defined.

Lemma alert_levels_with_ordered_thresholds_witness :
  (warning ordered_thresholds <=? critical ordered_thresholds) = true
  /\ (check_metric "t" ordered_thresholds "parity" 0.15 <> None
      <-> Fl.gtb (abs 0.15) (warning ordered_thresholds) = true)
  /\ (option_map severity (check_metric "t" ordered_thresholds "parity" 0.15)
      = Some "critical"
      <-> Fl.gtb (abs 0.15) (critical ordered_thresholds) = true)
  /\ (option_map severity (check_metric "t" ordered_thresholds "parity" 0.15)
      = Some "warning"
      <-> Fl.gtb (abs 0.15) (warning ordered_thresholds) = true
          /\ Fl.gtb (abs 0.15) (critical ordered_thresholds) = false).
Proof.
  split; [reflexivity|].
  eapply (@alert_levels_with_ordered_thresholds
           "t" ordered_thresholds "parity" 0.15).
  reflexivity.
Defined.

Lemma warning_level_is_unreachable_below_critical_witness :
  exists alert,
    check_metric "t" exchanged_thresholds "parity" 0.5 = Some alert
    /\ severity alert = "critical".
Proof.
  eexists. split; [vm_compute; reflexivity|].
  eapply (@warning_level_is_unreachable_below_critical
           "t" exchanged_thresholds "parity" 0.5).
  - reflexivity.
  - vm_compute; reflexivity.
Defined.

Lemma pay_gap_results_have_no_avg_salary_witness :
  exists res,
    compute_pay_gap Ref.libs ["B"; "A"] [1; 2; 3] ["A"; "A"; "B"] None = Ok res
    /\ create_fairness_visualizations None
         {| pay_gap := Some res; bias_metrics := None; trends := None |}
         "json"
       = Raise KeyError.
Proof.
  eexists. split; [vm_compute; reflexivity|].
  eapply (@pay_gap_results_have_no_avg_salary
            Ref.libs ["B"; "A"] [1; 2; 3] ["A"; "A"; "B"] None).
  - exact set_order_BA_AAB.
  - discriminate.
  - vm_compute; reflexivity.
  - reflexivity.
Defined.


Lemma critical_issue_iff_pay_equity_recommendation_witness :
  exists rep,
    generate_fairness_report Ref.libs "t" disparity_input = Ok rep
    /\ ((critical_issues (summary rep)
         = ["Significant pay gaps detected exceeding 5%"]
         /\ has_pay_equity_high (recommendations (summary rep)))
        \/ (critical_issues (summary rep) = []
            /\ ~ has_pay_equity_high (recommendations (summary rep)))).
Proof.
  eexists. split; [vm_compute; reflexivity|].
  eapply (@critical_issue_iff_pay_equity_recommendation
           Ref.libs "t" disparity_input).
  vm_compute; reflexivity.
Defined.

Lemma bias_recommendation_iff_significant_disparity_witness :
  exists bm rep,
    bias_metrics disparity_input = Some bm
    /\ generate_fairness_report Ref.libs "t" disparity_input = Ok rep
    /\ (In (bias_recommendation "gender") (recommendations (summary rep))
        <-> exists e,
              dict_get "gender" bm = Some e /\ has_significant_disparity e).
Proof.
  eexists. eexists. split; [reflexivity|].
  split; [vm_compute; reflexivity|].
  eapply (@bias_recommendation_iff_significant_disparity
           Ref.libs "t" disparity_input).
  - reflexivity.
  - repeat constructor. simpl. tauto.
  - vm_compute; reflexivity.
Defined.

Lemma long_term_trends_need_enough_periods_witness :
  exists metrics r,
    historical_metrics two_histories = Some metrics
    /\ identify_long_term_trends Ref.libs two_histories 4%nat = Ok (PerMetric r)
    /\ (dict_get "odds" r <> None
        <-> exists values,
              In ("odds", values) metrics /\ (4 <= List.length values)%nat).
Proof.
  eexists. eexists. split; [reflexivity|].
  split; [vm_compute; reflexivity|].
  eapply (@long_term_trends_need_enough_periods Ref.libs two_histories 4%nat).
  - reflexivity.
  - vm_compute; reflexivity.
Defined.

Lemma reported_anomalies_exceed_the_threshold_witness :
  exists r a,
    detect_trend_anomalies Ref.libs spike_history 2 = PerMetric r
    /\ dict_get "parity" r = Some a
    /\ exists metrics values,
         historical_metrics spike_history = Some metrics
         /\ In ("parity", values) metrics
         /\ (3 <= List.length values)%nat
         /\ well_formed_anomalies values 2 a.
Proof.
  eexists. eexists. split; [vm_compute; reflexivity|].
  split; [vm_compute; reflexivity|].
  eapply (@reported_anomalies_exceed_the_threshold
           Ref.libs spike_history 2).
  - vm_compute; reflexivity.
  - vm_compute; reflexivity.
Defined.
